(** * Img_converter: the transformation pipeline and its decision logic

    A shallow embedding of [backend/api/routers/images.py] (format sniffing
    and upload validation) and of [backend/services/image_service.py]
    (quality search, crop, resize, rotate, alpha flattening and the in-memory
    pipeline), followed by the properties established about them.

    Conventions.  Python [int] is [Z]; Python [float] is the kernel's binary64
    [float]; [bytes] is [list byte]; [str] is [string]; [Optional[T]] is
    [option T]; a [raise] is the left injection of a sum.  Pillow, cairosvg and
    the file system are collaborators: what the code only calls is taken as a
    field of the record [Codec] and never given a body here. *)

From Stdlib Require Import ZArith List Bool Lia.
From Stdlib Require Import Strings.String Strings.Ascii Strings.Byte.
From Stdlib Require Import Floats.
From Equations Require Import Equations.
Import ListNotations.

Local Open Scope string_scope.
Local Open Scope list_scope.
Local Open Scope Z_scope.

(** ** Python values used by both modules *)

Module Py.

Definition bytes := list byte.

(** A bytes literal made of printable characters. *)
Definition b (s : string) : bytes := list_byte_of_string s.

Definition len {A} (l : list A) : Z := Z.of_nat (List.length l).

Definition byte_eqb (x y : byte) : bool := Byte.eqb x y.

Fixpoint bytes_eqb (x y : bytes) : bool :=
  match x, y with
  | [], [] => true
  | c :: x', d :: y' => byte_eqb c d && bytes_eqb x' y'
  | _, _ => false
  end.

(** [data.startswith(prefix)] *)
Fixpoint startswith (data prefix : bytes) : bool :=
  match prefix, data with
  | [], _ => true
  | p :: prefix', d :: data' => byte_eqb p d && startswith data' prefix'
  | _ :: _, [] => false
  end.

(** [data[i:j]] for constants [0 <= i <= j]: slicing never raises. *)
Definition slice {A} (i j : nat) (data : list A) : list A :=
  firstn (j - i) (skipn i data).

(** The bytes stripped by [bytes.lstrip()]: space, tab, newline, carriage
    return, vertical tab and form feed. *)
Definition is_space (c : byte) : bool :=
  match c with
  | x20 | x09 | x0a | x0d | x0b | x0c => true
  | _ => false
  end.

Fixpoint lstrip (data : bytes) : bytes :=
  match data with
  | c :: rest => if is_space c then lstrip rest else data
  | [] => []
  end.

(** [bytes.lower()]: the 26 ASCII capitals move down by 32. *)
Definition lower_byte (c : byte) : byte :=
  let n := Byte.to_N c in
  if (65 <=? n)%N && (n <=? 90)%N
  then match Byte.of_N (n + 32) with Some d => d | None => c end
  else c.

Definition lower (data : bytes) : bytes := map lower_byte data.

(** [s in l] for a list or set of strings. *)
Definition mem (s : string) (l : list string) : bool :=
  existsb (String.eqb s) l.

(** [str.lower()] on the ASCII range. *)
Definition lower_ascii (c : ascii) : ascii :=
  let n := N_of_ascii c in
  if (65 <=? n)%N && (n <=? 90)%N then ascii_of_N (n + 32) else c.

Fixpoint str_lower (s : string) : string :=
  match s with
  | EmptyString => EmptyString
  | String c s' => String (lower_ascii c) (str_lower s')
  end.

(** [s.lstrip('.')] *)
Fixpoint lstrip_dots (s : string) : string :=
  match s with
  | String "."%char s' => lstrip_dots s'
  | _ => s
  end.

(** The text after the last occurrence of [sep], and whether [sep] occurs. *)
Fixpoint after_last (sep : ascii) (s : string) : option string :=
  match s with
  | EmptyString => None
  | String c s' =>
      match after_last sep s' with
      | Some t => Some t
      | None => if Ascii.eqb c sep then Some s' else None
      end
  end.

(** [pathlib.PurePosixPath(p).name] for a path without a trailing slash. *)
Definition path_name (p : string) : string :=
  match after_last "/"%char p with Some n => n | None => p end.

(** [pathlib.PurePath(p).suffix]: with [i = name.rfind('.')], the suffix is
    [name[i:]] when [0 < i < len(name) - 1] and empty otherwise. *)
Definition path_suffix (p : string) : string :=
  let name := path_name p in
  match name with
  | EmptyString => EmptyString
  | String c rest =>
      match after_last "."%char rest with
      | Some EmptyString => EmptyString
      | Some ext => String "."%char ext
      | None => EmptyString
      end
  end.

(** [Path(p).suffix.lower().lstrip('.')], the idiom both modules use. *)
Definition suffix_ext (p : string) : string :=
  lstrip_dots (str_lower (path_suffix p)).

(** [pathlib.PurePath(p).stem]: the name without its suffix. *)
Definition path_stem (p : string) : string :=
  let name := path_name p in
  substring 0 (String.length name - String.length (path_suffix p)) name.

(** [str.upper()] on the ASCII range. *)
Definition upper_ascii (c : ascii) : ascii :=
  let n := N_of_ascii c in
  if (97 <=? n)%N && (n <=? 122)%N then ascii_of_N (n - 32) else c.

Fixpoint str_upper (s : string) : string :=
  match s with
  | EmptyString => EmptyString
  | String c s' => String (upper_ascii c) (str_upper s')
  end.

(** A character of the ASCII range. *)
Definition is_ascii (c : ascii) : bool := (N_of_ascii c <? 128)%N.

(** [s.encode('ascii', 'ignore').decode('ascii')] on a string held as its
    UTF-8 bytes: every byte of a character outside ASCII is at least 128,
    and is dropped. *)
Fixpoint ascii_ignore (s : string) : string :=
  match s with
  | EmptyString => EmptyString
  | String c s' =>
      if is_ascii c then String c (ascii_ignore s') else ascii_ignore s'
  end.

(** [c in s] for a character [c]. *)
Fixpoint has_char (c : ascii) (s : string) : bool :=
  match s with
  | EmptyString => false
  | String d s' => Ascii.eqb c d || has_char c s'
  end.

(** [o or default] for an optional string: [None] and the empty string give
    the default. *)
Definition str_or (o : option string) (default : string) : string :=
  match o with
  | Some s => if String.eqb s "" then default else s
  | None => default
  end.

(** *** Exceptions *)

(** What the message of a raised exception says.  The source formats these
    as text; the embedding keeps the case and the values that were
    formatted. *)
Inductive Reason :=
| UnsupportedInputFormat (fmt : string)
| UnsupportedOutputFormat (fmt : string)
| SvgNeedsCairosvg
| ScaleWithWidthOrHeight
| ScaleNotPositive (scale : float)
| WidthNotPositive (width : Z)
| HeightNotPositive (height : Z)
| NoResizeTarget
| CropOriginNegative (x y : Z)
| CropSizeNotPositive (width height : Z)
| CropXOutside (x image_width : Z)
| CropYOutside (y image_height : Z)
| InvalidFlipDirection (direction : string)
| FloatNanToInteger.

Inductive PyErr :=
| ValueError (why : Reason)
| FileNotFoundError (path : string)
| OverflowError
| ZeroDivisionError
| KeyError (key : string)
| IndexError
| TypeError
| CodecError
| Exception (cause : PyErr).

Definition result (A : Type) : Type := PyErr + A.

Definition ret {A} (a : A) : result A := inr a.
Definition raise {A} (e : PyErr) : result A := inl e.
Definition bind {A B} (m : result A) (k : A -> result B) : result B :=
  match m with
  | inl e => inl e
  | inr a => k a
  end.

Notation "x <- m ;; k" := (bind m (fun x => k))
  (at level 61, m at next level, right associativity).
Notation "' pat <- m ;; k" := (bind m (fun x => match x with pat => k end))
  (at level 61, pat pattern, m at next level, right associativity).

(** [if cond: raise e] *)
Definition raise_if (cond : bool) (e : PyErr) : result unit :=
  if cond then raise e else ret tt.

(** [try: body except Exception as e: handler(e)] *)
Definition try_except {A} (body : result A) (handler : PyErr -> PyErr)
  : result A :=
  match body with
  | inl e => inl (handler e)
  | inr a => inr a
  end.

(** *** Numbers *)

(** [float(z)]: the nearest binary64 value, ties to even.  Beyond the
    binary64 range CPython raises [OverflowError] where this gives an
    infinity, which [int] then refuses with the same error. *)
Definition float_of_Z (z : Z) : float :=
  SF2Prim (binary_normalize prec emax z 0 false).

Definition Z2SF (z : Z) : spec_float :=
  match z with
  | Z0 => S754_zero false
  | Zpos p => S754_finite false p 0
  | Zneg p => S754_finite true p 0
  end.

(** The binary64 value nearest to the quotient of two integers. *)
Definition float_of_quotient (a b : Z) : float :=
  SF2Prim (SFdiv prec emax (Z2SF a) (Z2SF b)).

(** [a / b] on two integers: the correctly rounded quotient. *)
Definition int_truediv (a b : Z) : result float :=
  if b =? 0 then raise ZeroDivisionError
  else ret (float_of_quotient a b).

(** [int(x)]: truncation toward zero. *)
Definition py_int (x : float) : result Z :=
  match Prim2SF x with
  | S754_zero _ => ret 0
  | S754_finite neg m e =>
      let a := if 0 <=? e then Z.pos m * 2 ^ e else Z.pos m / 2 ^ (- e) in
      ret (if neg then - a else a)
  | S754_infinity _ => raise OverflowError
  | S754_nan => raise (ValueError FloatNanToInteger)
  end.

(** The exact comparison of a float with an integer that CPython makes for
    [x == z], [x < z] and the like; [None] when [x] is a NaN. *)
Definition float_cmp_int (x : float) (z : Z) : option comparison :=
  match Prim2SF x with
  | S754_nan => None
  | S754_infinity neg => Some (if neg then Lt else Gt)
  | S754_zero _ => Some (0 ?= z)
  | S754_finite neg m e =>
      let v := if neg then Z.neg m else Z.pos m in
      Some (if 0 <=? e then v * 2 ^ e ?= z else v ?= z * 2 ^ (- e))
  end.

Definition float_eq_int (x : float) (z : Z) : bool :=
  match float_cmp_int x z with Some Eq => true | _ => false end.

Definition float_le_int (x : float) (z : Z) : bool :=
  match float_cmp_int x z with Some Eq | Some Lt => true | _ => false end.

Definition float_lt_int (x : float) (z : Z) : bool :=
  match float_cmp_int x z with Some Lt => true | _ => false end.

Definition float_ge_int (x : float) (z : Z) : bool :=
  match float_cmp_int x z with Some Eq | Some Gt => true | _ => false end.

(** [bool(x)] for a float: false on both zeros only. *)
Definition float_truthy (x : float) : bool := negb (x =? 0)%float.

(** C's [fmod(x, n)] for an integer [n > 0]: exact, with the sign of [x]. *)
Definition fmod_int (x : float) (n : Z) : float :=
  match Prim2SF x with
  | S754_zero _ => x
  | S754_finite neg m e =>
      let r := if 0 <=? e then (Z.pos m * 2 ^ e) mod n
               else Z.pos m mod (n * 2 ^ (- e)) in
      let e' := if 0 <=? e then 0 else e in
      SF2Prim (binary_normalize prec emax (if neg then - r else r) e' neg)
  | _ => nan
  end.

(** [x % n] for a float [x] and an integer [n > 0], as CPython's
    [float_rem]: the remainder takes the sign of [n]. *)
Definition float_mod_int (x : float) (n : Z) : float :=
  let r := fmod_int x n in
  if float_truthy r then
    if (r <? 0)%float then (r + float_of_Z n)%float else r
  else 0%float.

(** [min(a, b)] on floats: [b] only when [b < a]. *)
Definition float_min (a b : float) : float :=
  if (b <? a)%float then b else a.

(** A number that is an [int] or a [float] at run time: the byte budget of
    the quality search is annotated [int] and receives [target_size_kb * 1024],
    a float. *)
Inductive number :=
| Int (z : Z)
| Float (x : float).

(** [s <= t], [s > t] and [abs(s - t) <= tol] for an integer [s]. *)
Definition int_le_num (s : Z) (t : number) : bool :=
  match t with
  | Int z => s <=? z
  | Float x => float_ge_int x s
  end.

Definition int_gt_num (s : Z) (t : number) : bool :=
  match t with
  | Int z => s >? z
  | Float x => float_lt_int x s
  end.

Definition abs_diff_le (s : Z) (t : number) (tol : Z) : bool :=
  match t with
  | Int z => Z.abs (s - z) <=? tol
  | Float x => float_le_int (abs (float_of_Z s - x)) tol
  end.

End Py.

(** ** backend/api/routers/images.py *)

Module Routers.
Import Py.

(** [MAGIC_BYTES], in the insertion order the [for] loop visits. *)
Definition RIFF : bytes := b "RIFF".
Definition WEBP : bytes := b "WEBP".

Definition MAGIC_BYTES : list (bytes * string) :=
  [ ((x89 :: b "PNG" ++ [x0d; x0a; x1a; x0a])%list, "png");
    ([xff; xd8; xff], "jpg");
    (b "GIF87a", "gif");
    (b "GIF89a", "gif");
    (b "BM", "bmp");
    (RIFF, "webp");
    ((b "II*" ++ [x00])%list, "tiff");
    ((b "MM" ++ [x00] ++ b "*")%list, "tiff");
    ([x00; x00; x01; x00], "ico");
    ([x00; x00; x02; x00], "ico");
    (b "qoif", "qoi") ].

Definition SVG_SIGNATURES : list bytes :=
  [ b "<?xml"; b "<svg"; b "<!DOCTYPE svg" ].

Definition ALLOWED_EXTENSIONS : list string :=
  [ "png"; "jpg"; "jpeg"; "gif"; "bmp"; "webp";
    "tiff"; "tif"; "avif"; "heic"; "heif"; "ico";
    "jp2"; "j2k"; "tga"; "qoi"; "svg" ].

Definition SUPPORTED_OUTPUT_FORMATS : list string :=
  [ "png"; "jpg"; "jpeg"; "gif"; "bmp"; "webp";
    "tiff"; "tif"; "avif"; "heic"; "heif"; "ico";
    "jp2"; "j2k"; "tga"; "qoi" ].

Definition JP2_SIGNATURE : bytes :=
  ([x00; x00; x00; x0c] ++ b "jP  " ++ [x0d; x0a; x87; x0a])%list.

(** The first loop of [detect_format_from_magic_bytes]:
    [data.lstrip()[:len(sig)].lower().startswith(sig.lower())] for some
    signature. *)
Definition svg_match (data sig : bytes) : bool :=
  startswith (lower (firstn (List.length sig) (lstrip data))) (lower sig).

(** The second loop, over the items of [MAGIC_BYTES].  A [RIFF] match on at
    least 12 bytes either returns webp or continues with the next entry; any
    other match, a [RIFF] match on fewer than 12 bytes included, returns the
    entry's format. *)
Fixpoint scan_magic (data : bytes) (table : list (bytes * string))
  : option string :=
  match table with
  | [] => None
  | (magic, fmt) :: rest =>
      if startswith data magic then
        if bytes_eqb magic RIFF && (12 <=? len data) then
          if bytes_eqb (slice 8 12 data) WEBP then Some "webp"
          else scan_magic data rest
        else Some fmt
      else scan_magic data rest
  end.

(** The [ftyp] box test: [None] stands for falling through to the next test. *)
Definition ftyp_brand (data : bytes) : option string :=
  if (12 <=? len data) && bytes_eqb (slice 4 8 data) (b "ftyp") then
    let ftyp_brand := slice 8 12 data in
    if existsb (bytes_eqb ftyp_brand) [b "avif"; b "avis"] then Some "avif"
    else if existsb (bytes_eqb ftyp_brand)
              [b "heic"; b "heix"; b "hevc"; b "mif1"] then Some "heic"
    else None
  else None.

Definition detect_format_from_magic_bytes (data : bytes) : option string :=
  if existsb (svg_match data) SVG_SIGNATURES then Some "svg"
  else
    match scan_magic data MAGIC_BYTES with
    | Some fmt => Some fmt
    | None =>
        match ftyp_brand data with
        | Some fmt => Some fmt
        | None =>
            if startswith data JP2_SIGNATURE then Some "jp2" else None
        end
    end.

(** What [HTTPException]'s [detail] says. *)
Inductive Detail :=
| UnsupportedExtension (ext : string)
| UnrecognizedFormat
| UnsupportedOutputFormat (fmt : string).

Inductive HTTPException := HTTPError (status_code : Z) (detail : Detail).

(** [validate_image_file].  The block that compares the extension with the
    sniffed format has the body [pass]: it is kept as [mismatch_noted], which
    nothing reads. *)
Definition validate_image_file (data : bytes) (filename : string)
  : HTTPException + string :=
  let ext := if String.eqb filename "" then "" else suffix_ext filename in
  if negb (String.eqb ext "") && negb (mem ext ALLOWED_EXTENSIONS) then
    inl (HTTPError 415 (UnsupportedExtension ext))
  else
    let detected_format := detect_format_from_magic_bytes data in
    match detected_format with
    | None =>
        if mem ext ["tga"] then inr ext
        else if mem ext ALLOWED_EXTENSIONS then inr ext
        else inl (HTTPError 415 UnrecognizedFormat)
    | Some detected =>
        let mismatch_noted :=
          if negb (String.eqb ext "") then
            let ext_normalized := if String.eqb ext "jpeg" then "jpg" else ext in
            let detected_normalized :=
              if String.eqb detected "jpeg" then "jpg" else detected in
            negb (String.eqb ext_normalized detected_normalized)
            && negb (mem ext ["heif"; "heic"; "avif"])
          else false in
        inr detected
    end.

(** [validate_output_format]: [None] and the empty string pass. *)
Definition validate_output_format (output_format : option string)
  : HTTPException + unit :=
  match output_format with
  | Some fmt =>
      if negb (String.eqb fmt "")
         && negb (mem (str_lower fmt) SUPPORTED_OUTPUT_FORMATS)
      then inl (HTTPError 400 (UnsupportedOutputFormat fmt))
      else inr tt
  | None => inr tt
  end.

End Routers.


(** ** Pillow, as far as the service relies on it *)

Module PIL.
Import Py.

(** A decoded raster: [img.mode], [img.size] and [img.getpixel((x, y))] as
    the list of band values. *)
Record Image := {
  mode : string;
  size : Z * Z;
  getpixel : Z -> Z -> list Z
}.

Definition width (img : Image) : Z := fst (size img).
Definition height (img : Image) : Z := snd (size img).

(** The keyword arguments [img.save] receives here: each key may be absent. *)
Record SaveKwargs := {
  kw_quality : option Z;
  kw_optimize : option bool
}.

(** What the service calls and does not decide: decoding and encoding, the
    resampling kernels and the SVG rasteriser.  [image_open] and [svg2png]
    are [None] when the library raises.  [save_accepts] says whether the
    encoder of a format writes a buffer with given keyword arguments, which
    Pillow refuses with an [OSError] when the format cannot hold the mode of
    the buffer, and [image_save] is what the encoder writes when it does. *)
Record Codec := {
  SVG_SUPPORTED : bool;
  image_open : bytes -> option Image;
  save_accepts : Image -> string -> SaveKwargs -> bool;
  image_save : Image -> string -> SaveKwargs -> bytes;
  svg2png : bytes -> option float -> option bytes;
  resize_kernel : Image -> Z * Z -> Z -> Z -> list Z;
  image_rotate : Image -> float -> bool -> list Z -> Image;
  image_thumbnail : Image -> Z * Z -> Image
}.

Inductive Transpose :=
| FLIP_LEFT_RIGHT
| FLIP_TOP_BOTTOM
| ROTATE_90
| ROTATE_180
| ROTATE_270.

(** [img.transpose(method)]: flips and quarter turns move pixels and never
    resample; a quarter turn exchanges width and height. *)
Definition transpose (method : Transpose) (img : Image) : Image :=
  let w := width img in
  let h := height img in
  match method with
  | FLIP_LEFT_RIGHT =>
      {| mode := mode img; size := (w, h);
         getpixel := fun x y => getpixel img (w - 1 - x) y |}
  | FLIP_TOP_BOTTOM =>
      {| mode := mode img; size := (w, h);
         getpixel := fun x y => getpixel img x (h - 1 - y) |}
  | ROTATE_90 =>
      {| mode := mode img; size := (h, w);
         getpixel := fun x y => getpixel img (w - 1 - y) x |}
  | ROTATE_180 =>
      {| mode := mode img; size := (w, h);
         getpixel := fun x y => getpixel img (w - 1 - x) (h - 1 - y) |}
  | ROTATE_270 =>
      {| mode := mode img; size := (h, w);
         getpixel := fun x y => getpixel img y (h - 1 - x) |}
  end.

(** [img.crop((left, upper, right, lower))] *)
Definition crop (box : Z * Z * Z * Z) (img : Image) : Image :=
  let '(x0, y0, x1, y1) := box in
  {| mode := mode img;
     size := (x1 - x0, y1 - y0);
     getpixel := fun x y => getpixel img (x0 + x) (y0 + y) |}.

(** [img.resize((w, h), Image.Resampling.LANCZOS)]: the requested size, the
    pixels the kernel computes. *)
Definition resize (codec : Codec) (target : Z * Z) (img : Image) : Image :=
  {| mode := mode img; size := target;
     getpixel := resize_kernel codec img target |}.

(** [Image.new(mode, size, color)] *)
Definition new (m : string) (sz : Z * Z) (color : list Z) : Image :=
  {| mode := m; size := sz; getpixel := fun _ _ => color |}.

(** The 8-bit blend of Pillow's paste: [in1] weighted by [255 - mask] and
    [in2] by [mask], divided by 255 with rounding. *)
Definition DIV255 (a : Z) : Z :=
  let tmp := a + 128 in
  Z.shiftr (Z.shiftr tmp 8 + tmp) 8.

Definition BLEND8 (mask in1 in2 : Z) : Z :=
  DIV255 (in1 * (255 - mask) + in2 * mask).

Fixpoint blend_bands (mask : Z) (dst src : list Z) : list Z :=
  match dst, src with
  | d :: dst', s :: src' => BLEND8 mask d s :: blend_bands mask dst' src'
  | _, _ => []
  end.

(** [rgb_img.paste(img, mask=img.split()[3])] for an RGB [rgb_img] and an
    RGBA [img] of the same size: band by band, the colour of [img] over the
    colour of [rgb_img], weighted by the alpha band of [img]. *)
Definition paste_alpha (rgb_img img : Image) : Image :=
  {| mode := mode rgb_img;
     size := size rgb_img;
     getpixel := fun x y =>
       let p := getpixel img x y in
       blend_bands (nth 3 p 0) (getpixel rgb_img x y) (firstn 3 p) |}.

(** [img.save(fp, format, **kwargs)]: the bytes written to [fp], or the
    exception of an encoder that refuses the buffer. *)
Definition save (codec : Codec) (img : Image) (format : string)
  (kwargs : SaveKwargs) : result bytes :=
  if save_accepts codec img format kwargs then
    ret (image_save codec img format kwargs)
  else raise CodecError.

End PIL.

(** ** backend/services/image_service.py *)

Module ImageService.
Import Py PIL.

(** The class attributes of [ImageService]. *)
Definition SUPPORTED_FORMATS : list (string * string) :=
  [ ("png", "PNG"); ("jpg", "JPEG"); ("jpeg", "JPEG"); ("bmp", "BMP");
    ("gif", "GIF"); ("webp", "WEBP"); ("tiff", "TIFF"); ("tif", "TIFF");
    ("avif", "AVIF"); ("heif", "HEIF"); ("heic", "HEIF"); ("ico", "ICO");
    ("jp2", "JPEG2000"); ("j2k", "JPEG2000"); ("tga", "TGA");
    ("qoi", "QOI") ].

Definition READ_ONLY_FORMATS : list string := [ "svg" ].

Definition QUALITY_FORMATS : list string :=
  [ "jpg"; "jpeg"; "webp"; "avif"; "heif"; "heic" ].

(** The local [no_alpha_formats] every method declares, always the same. *)
Definition no_alpha_formats : list string :=
  [ "jpg"; "jpeg"; "bmp"; "jp2"; "j2k" ].

(** [d.get(key)] on a dict with string keys. *)
Fixpoint dict_get (key : string) (d : list (string * string))
  : option string :=
  match d with
  | [] => None
  | (k, v) :: rest => if String.eqb key k then Some v else dict_get key rest
  end.

(** [key in d] *)
Definition dict_mem (key : string) (d : list (string * string)) : bool :=
  match dict_get key d with Some _ => true | None => false end.

(** [d[key]] *)
Definition dict_item (key : string) (d : list (string * string))
  : result string :=
  match dict_get key d with
  | Some v => ret v
  | None => raise (KeyError key)
  end.

Definition _is_valid_input_format (format_ext : string) : bool :=
  dict_mem format_ext SUPPORTED_FORMATS || mem format_ext READ_ONLY_FORMATS.

Definition _is_valid_output_format (format_ext : string) : bool :=
  dict_mem format_ext SUPPORTED_FORMATS.

(** The file system the path-based methods read and write: a path has a
    content or does not exist. *)
Definition FS := string -> option bytes.

Definition fs_write (fs : FS) (path : string) (data : bytes) : FS :=
  fun p => if String.eqb p path then Some data else fs p.

(** [os.path.getsize(path)] of an existing file. *)
Definition getsize (fs : FS) (path : string) : Z :=
  match fs path with Some data => len data | None => 0 end.

(** The block every method repeats before saving: an image whose mode is
    RGBA, on its way to a format of [no_alpha_formats], is pasted on a new
    RGB image of one colour with its own alpha band as the mask. *)
Definition alpha_flatten (background : list Z) (output_format : string)
  (img : Image) : Image :=
  if String.eqb (mode img) "RGBA" && mem output_format no_alpha_formats then
    let rgb_img := new "RGB" (size img) background in
    paste_alpha rgb_img img
  else img.

Definition WHITE : list Z := [255; 255; 255].

(** The other repeated block: [save_kwargs]. *)
Definition save_kwargs_for (output_format : string) (quality : Z)
  : SaveKwargs :=
  if mem output_format QUALITY_FORMATS then
    {| kw_quality := Some quality;
       kw_optimize :=
         if mem output_format ["jpg"; "jpeg"; "webp"] then Some true
         else None |}
  else {| kw_quality := None; kw_optimize := None |}.

Definition or_codec_error {A} (o : option A) : result A :=
  match o with Some a => ret a | None => raise CodecError end.

Section WithCodec.

Variable codec : Codec.

(** [_open_image] *)
Definition _open_image (fs : FS) (input_path : string) (scale : float)
  : result Image :=
  match fs input_path with
  | None => raise (FileNotFoundError input_path)
  | Some content =>
      let input_format := suffix_ext input_path in
      if String.eqb input_format "svg" then
        if negb (SVG_SUPPORTED codec) then raise (ValueError SvgNeedsCairosvg)
        else
          png_bytes <- or_codec_error
            (svg2png codec content
               (if negb (scale =? 1)%float then Some scale else None)) ;;
          or_codec_error (image_open codec png_bytes)
      else or_codec_error (image_open codec content)
  end.

(** [_get_image_size_at_quality]: the length of a probe encoding. *)
Definition _get_image_size_at_quality (img : Image) (output_format : string)
  (quality : Z) : result Z :=
  let save_kwargs :=
    {| kw_quality := Some quality; kw_optimize := Some true |} in
  pil_format <- dict_item output_format SUPPORTED_FORMATS ;;
  buffer <- save codec img pil_format save_kwargs ;;
  ret (len buffer).

(** The [while min_quality <= max_quality] loop of [_find_optimal_quality],
    entered with the three locals. *)
Equations? quality_loop (img : Image) (output_format : string)
  (target_size_bytes : number) (tolerance : Z)
  (min_quality max_quality best_quality : Z) : result Z
  by wf (Z.to_nat (max_quality - min_quality + 1)) lt :=
  quality_loop img output_format target_size_bytes tolerance
               min_quality max_quality best_quality
    with Z_le_gt_dec min_quality max_quality => {
    | right _ => ret best_quality
    | left _ =>
        let mid_quality := (min_quality + max_quality) / 2 in
        match _get_image_size_at_quality img output_format mid_quality with
        | inl e => raise e
        | inr current_size =>
            if abs_diff_le current_size target_size_bytes tolerance then
              ret mid_quality
            else if int_gt_num current_size target_size_bytes then
              quality_loop img output_format target_size_bytes tolerance
                           min_quality (mid_quality - 1) best_quality
            else
              quality_loop img output_format target_size_bytes tolerance
                           (mid_quality + 1) max_quality mid_quality
        end }.
Proof.
  all: subst mid_quality;
    assert (min_quality <= (min_quality + max_quality) / 2 <= max_quality)
      by (split; [apply Z.div_le_lower_bound | apply Z.div_le_upper_bound];
          lia);
    lia.
Qed.

(** [_find_optimal_quality] *)
Definition _find_optimal_quality (img : Image) (output_format : string)
  (target_size_bytes : number) (tolerance : Z) : result Z :=
  if negb (mem output_format QUALITY_FORMATS) then ret 95
  else
    let min_quality := 1 in
    let max_quality := 95 in
    let best_quality := 85 in
    test_size <- _get_image_size_at_quality img output_format max_quality ;;
    if int_le_num test_size target_size_bytes then ret max_quality
    else
      quality_loop img output_format target_size_bytes tolerance
                   min_quality max_quality best_quality.

(** The [except] clause of [resize_image], [crop_image] and [rotate_image]:
    [FileNotFoundError] and [ValueError] pass, anything else is wrapped. *)
Definition reraise_or_wrap (e : PyErr) : PyErr :=
  match e with
  | FileNotFoundError _ | ValueError _ => e
  | _ => Exception e
  end.

(** *** [compress_image] *)

Record Compressed := {
  cmp_success : bool;
  cmp_input_size : Z;
  cmp_output_size : Z;
  cmp_size_reduction : float;
  cmp_final_quality : Z;
  cmp_resized : bool;
  cmp_original_dimensions : Z * Z;
  cmp_final_dimensions : Z * Z
}.

(** [max_dimension and (img.width > max_dimension or img.height >
    max_dimension)] *)
Definition exceeds (max_dimension : option Z) (img : Image) : bool :=
  match max_dimension with
  | Some d => negb (d =? 0) && ((width img >? d) || (height img >? d))
  | None => false
  end.

Definition compress_image (fs : FS) (input_path output_path : string)
  (target_size_kb : option float) (quality : Z) (max_dimension : option Z)
  : result (Compressed * FS) :=
  match fs input_path with
  | None => raise (FileNotFoundError input_path)
  | Some content =>
      let input_format := suffix_ext input_path in
      let output_format := suffix_ext output_path in
      _ <- raise_if (negb (dict_mem input_format SUPPORTED_FORMATS))
             (ValueError (UnsupportedInputFormat input_format)) ;;
      _ <- raise_if (negb (dict_mem output_format SUPPORTED_FORMATS))
             (ValueError (UnsupportedOutputFormat output_format)) ;;
      try_except
        (img <- or_codec_error (image_open codec content) ;;
         let input_size := len content in
         let original_size := size img in
         let img := alpha_flatten WHITE output_format img in
         let resized := exceeds max_dimension img in
         let img :=
           match max_dimension with
           | Some d => if resized then image_thumbnail codec img (d, d) else img
           | None => img
           end in
         final_quality <-
           match target_size_kb with
           | Some kb =>
               let target_size_bytes := Float (kb * float_of_Z 1024) in
               _find_optimal_quality img output_format target_size_bytes 1024
           | None => ret quality
           end ;;
         let save_kwargs := save_kwargs_for output_format final_quality in
         pil_format <- dict_item output_format SUPPORTED_FORMATS ;;
         written <- save codec img pil_format save_kwargs ;;
         let fs' := fs_write fs output_path written in
         let output_size := getsize fs' output_path in
         ratio <- int_truediv (input_size - output_size) input_size ;;
         let size_reduction := (ratio * float_of_Z 100)%float in
         ret ({| cmp_success := true;
                 cmp_input_size := input_size;
                 cmp_output_size := output_size;
                 cmp_size_reduction := size_reduction;
                 cmp_final_quality := final_quality;
                 cmp_resized := resized;
                 cmp_original_dimensions := original_size;
                 cmp_final_dimensions := size img |}, fs'))
        Exception
  end.

(** *** [resize_image] *)

Record Resized := {
  rsz_success : bool;
  rsz_original_size : Z * Z;
  rsz_output_size : Z * Z;
  rsz_input_file_size : Z;
  rsz_output_file_size : Z;
  rsz_scale_factor : float * float;
  rsz_keep_aspect_ratio : bool
}.

Definition is_some {A} (o : option A) : bool :=
  match o with Some _ => true | None => false end.

(** [int(n * x)] and [int(n * x / 100)] for an integer [n] and a float [x]. *)
Definition int_of_product (n : Z) (x : float) : result Z :=
  py_int (float_of_Z n * x)%float.

Definition int_of_percent (n : Z) (x : float) : result Z :=
  py_int (float_of_Z n * x / float_of_Z 100)%float.

(** The block of [resize_image] under the comment that announces the
    computation of the target size. *)
Definition resize_image_target (original_width original_height : Z)
  (width height : option Z) (scale : option float)
  (keep_aspect_ratio : bool) : result (Z * Z) :=
  match scale with
  | Some scale =>
      target_width <- int_of_percent original_width scale ;;
      target_height <- int_of_percent original_height scale ;;
      ret (target_width, target_height)
  | None =>
      if keep_aspect_ratio then
        match width, height with
        | Some width, Some height =>
            ratio_w <- int_truediv width original_width ;;
            ratio_h <- int_truediv height original_height ;;
            let ratio := float_min ratio_w ratio_h in
            target_width <- int_of_product original_width ratio ;;
            target_height <- int_of_product original_height ratio ;;
            ret (target_width, target_height)
        | Some width, None =>
            ratio <- int_truediv width original_width ;;
            target_height <- int_of_product original_height ratio ;;
            ret (width, target_height)
        | None, Some height =>
            ratio <- int_truediv height original_height ;;
            target_width <- int_of_product original_width ratio ;;
            ret (target_width, height)
        | None, None => raise TypeError
        end
      else
        ret (match width with Some w => w | None => original_width end,
             match height with Some h => h | None => original_height end)
  end.

Definition resize_image (fs : FS) (input_path output_path : string)
  (width height : option Z) (scale : option float)
  (keep_aspect_ratio : bool) (quality : Z) (svg_scale : float)
  : result (Resized * FS) :=
  _ <- raise_if (negb (is_some (fs input_path)))
         (FileNotFoundError input_path) ;;
  let input_format := suffix_ext input_path in
  let output_format := suffix_ext output_path in
  _ <- raise_if (negb (_is_valid_input_format input_format))
         (ValueError (UnsupportedInputFormat input_format)) ;;
  _ <- raise_if (negb (_is_valid_output_format output_format))
         (ValueError (UnsupportedOutputFormat output_format)) ;;
  _ <- raise_if (is_some scale && (is_some width || is_some height))
         (ValueError ScaleWithWidthOrHeight) ;;
  _ <- match scale with
       | Some sc => raise_if (float_le_int sc 0)
                      (ValueError (ScaleNotPositive sc))
       | None => ret tt
       end ;;
  _ <- match width with
       | Some w => raise_if (w <=? 0) (ValueError (WidthNotPositive w))
       | None => ret tt
       end ;;
  _ <- match height with
       | Some h => raise_if (h <=? 0) (ValueError (HeightNotPositive h))
       | None => ret tt
       end ;;
  _ <- raise_if (negb (is_some width) && negb (is_some height)
                 && negb (is_some scale))
         (ValueError NoResizeTarget) ;;
  try_except
    (img <- _open_image fs input_path svg_scale ;;
     let '(original_width, original_height) := size img in
     let input_file_size := getsize fs input_path in
     '(target_width, target_height) <-
        resize_image_target original_width original_height
          width height scale keep_aspect_ratio ;;
     let target_width := Z.max 1 target_width in
     let target_height := Z.max 1 target_height in
     let resized_img := resize codec (target_width, target_height) img in
     let resized_img := alpha_flatten WHITE output_format resized_img in
     let save_kwargs := save_kwargs_for output_format quality in
     pil_format <- dict_item output_format SUPPORTED_FORMATS ;;
     written <- save codec resized_img pil_format save_kwargs ;;
     let fs' := fs_write fs output_path written in
     let output_file_size := getsize fs' output_path in
     scale_factor_w <- int_truediv target_width original_width ;;
     scale_factor_h <- int_truediv target_height original_height ;;
     ret ({| rsz_success := true;
             rsz_original_size := (original_width, original_height);
             rsz_output_size := (target_width, target_height);
             rsz_input_file_size := input_file_size;
             rsz_output_file_size := output_file_size;
             rsz_scale_factor := (scale_factor_w, scale_factor_h);
             rsz_keep_aspect_ratio := keep_aspect_ratio |}, fs'))
    reraise_or_wrap.

(** *** [crop_image] *)

(** The two messages collected in [adjustment_messages]: the requested
    extent, the extent kept and the overshoot in pixels. *)
Inductive Adjustment :=
| WidthAdjusted (requested kept overshoot : Z)
| HeightAdjusted (requested kept overshoot : Z).

Record Cropped := {
  crp_success : bool;
  crp_original_size : Z * Z;
  crp_crop_box : Z * Z * Z * Z;
  crp_output_size : Z * Z;
  crp_input_file_size : Z;
  crp_output_file_size : Z;
  crp_adjusted : bool;
  crp_adjustment_message : list Adjustment
}.

Definition crop_image (fs : FS) (input_path output_path : string)
  (x y width height : Z) (quality : Z) (svg_scale : float)
  : result (Cropped * FS) :=
  _ <- raise_if (negb (is_some (fs input_path)))
         (FileNotFoundError input_path) ;;
  let input_format := suffix_ext input_path in
  let output_format := suffix_ext output_path in
  _ <- raise_if (negb (_is_valid_input_format input_format))
         (ValueError (UnsupportedInputFormat input_format)) ;;
  _ <- raise_if (negb (_is_valid_output_format output_format))
         (ValueError (UnsupportedOutputFormat output_format)) ;;
  _ <- raise_if ((x <? 0) || (y <? 0)) (ValueError (CropOriginNegative x y)) ;;
  _ <- raise_if ((width <=? 0) || (height <=? 0))
         (ValueError (CropSizeNotPositive width height)) ;;
  try_except
    (img <- _open_image fs input_path svg_scale ;;
     let '(original_width, original_height) := size img in
     let input_file_size := getsize fs input_path in
     _ <- raise_if (x >=? original_width)
            (ValueError (CropXOutside x original_width)) ;;
     _ <- raise_if (y >=? original_height)
            (ValueError (CropYOutside y original_height)) ;;
     let x2 := x + width in
     let y2 := y + height in
     let '(x2, adjusted, adjustment_messages) :=
       if x2 >? original_width then
         (original_width, true,
          [WidthAdjusted width (original_width - x) (x2 - original_width)])
       else (x2, false, []) in
     let '(y2, adjusted, adjustment_messages) :=
       if y2 >? original_height then
         (original_height, true,
          adjustment_messages ++
          [HeightAdjusted height (original_height - y)
             (y2 - original_height)])
       else (y2, adjusted, adjustment_messages) in
     let crop_box := (x, y, x2, y2) in
     let actual_width := x2 - x in
     let actual_height := y2 - y in
     let cropped_img := crop crop_box img in
     let cropped_img := alpha_flatten WHITE output_format cropped_img in
     let save_kwargs := save_kwargs_for output_format quality in
     pil_format <- dict_item output_format SUPPORTED_FORMATS ;;
     written <- save codec cropped_img pil_format save_kwargs ;;
     let fs' := fs_write fs output_path written in
     let output_file_size := getsize fs' output_path in
     ret ({| crp_success := true;
             crp_original_size := (original_width, original_height);
             crp_crop_box := crop_box;
             crp_output_size := (actual_width, actual_height);
             crp_input_file_size := input_file_size;
             crp_output_file_size := output_file_size;
             crp_adjusted := adjusted;
             crp_adjustment_message := adjustment_messages |}, fs'))
    reraise_or_wrap.

(** *** Rotation, shared by [rotate_image] and [process_image_bytes] *)

(** [normalized_angle in [0, 90, 180, 270]] *)
Definition is_right_angle (normalized_angle : float) : bool :=
  existsb (float_eq_int normalized_angle) [0; 90; 180; 270].

(** [(fill_color[0], fill_color[1], fill_color[2], 255)] *)
Definition opaque_fill (fill_color : list Z) : result (list Z) :=
  match fill_color with
  | r :: g :: bl :: _ => ret [r; g; bl; 255]
  | _ => raise IndexError
  end.

(** The [if]/[elif] chain on [normalized_angle] inside the right-angle
    branch; no arm matching leaves the image as it is. *)
Definition quarter_turn (normalized_angle : float) (img : Image) : Image :=
  if float_eq_int normalized_angle 90 then transpose ROTATE_90 img
  else if float_eq_int normalized_angle 180 then transpose ROTATE_180 img
  else if float_eq_int normalized_angle 270 then transpose ROTATE_270 img
  else img.

(** [img.rotate(angle, expand=expand, resample=BICUBIC, fillcolor=...)],
    the fill made opaque for an RGBA image. *)
Definition free_rotate (angle : float) (expand : bool) (fill_color : list Z)
  (img : Image) : result Image :=
  if String.eqb (mode img) "RGBA" then
    fill <- opaque_fill fill_color ;;
    ret (image_rotate codec img angle expand fill)
  else ret (image_rotate codec img angle expand fill_color).

Record Rotated := {
  rot_success : bool;
  rot_original_size : Z * Z;
  rot_output_size : Z * Z;
  rot_input_file_size : Z;
  rot_output_file_size : Z;
  rot_angle : float;
  rot_expanded : bool
}.

Definition rotate_image (fs : FS) (input_path output_path : string)
  (angle : float) (expand : bool) (fill_color : list Z) (quality : Z)
  (svg_scale : float) : result (Rotated * FS) :=
  _ <- raise_if (negb (is_some (fs input_path)))
         (FileNotFoundError input_path) ;;
  let input_format := suffix_ext input_path in
  let output_format := suffix_ext output_path in
  _ <- raise_if (negb (_is_valid_input_format input_format))
         (ValueError (UnsupportedInputFormat input_format)) ;;
  _ <- raise_if (negb (_is_valid_output_format output_format))
         (ValueError (UnsupportedOutputFormat output_format)) ;;
  try_except
    (img <- _open_image fs input_path svg_scale ;;
     let original_size := size img in
     let input_file_size := getsize fs input_path in
     let normalized_angle := float_mod_int angle 360 in
     let is_right := is_right_angle normalized_angle in
     rotated_img <-
       (if is_right && negb (float_eq_int normalized_angle 0) then
          ret (quarter_turn normalized_angle img)
        else if float_eq_int normalized_angle 0 then ret img
        else free_rotate angle expand fill_color img) ;;
     let rotated_img := alpha_flatten fill_color output_format rotated_img in
     let save_kwargs := save_kwargs_for output_format quality in
     pil_format <- dict_item output_format SUPPORTED_FORMATS ;;
     written <- save codec rotated_img pil_format save_kwargs ;;
     let fs' := fs_write fs output_path written in
     let output_file_size := getsize fs' output_path in
     ret ({| rot_success := true;
             rot_original_size := original_size;
             rot_output_size := size rotated_img;
             rot_input_file_size := input_file_size;
             rot_output_file_size := output_file_size;
             rot_angle := angle;
             rot_expanded := expand && negb is_right |}, fs'))
    reraise_or_wrap.

(** *** The in-memory methods *)

(** [_open_image_from_bytes] *)
Definition _open_image_from_bytes (image_bytes : bytes)
  (input_format : string) (svg_scale : float) : result Image :=
  if String.eqb input_format "svg" then
    if negb (SVG_SUPPORTED codec) then raise (ValueError SvgNeedsCairosvg)
    else
      png_bytes <- or_codec_error
        (svg2png codec image_bytes
           (if negb (svg_scale =? 1)%float then Some svg_scale else None)) ;;
      or_codec_error (image_open codec png_bytes)
  else or_codec_error (image_open codec image_bytes).

(** [_save_image_to_bytes] *)
Definition _save_image_to_bytes (img : Image) (output_format : string)
  (quality : Z) : result bytes :=
  let img := alpha_flatten WHITE output_format img in
  let save_kwargs := save_kwargs_for output_format quality in
  let pil_format :=
    match dict_get output_format SUPPORTED_FORMATS with
    | Some f => f
    | None => "PNG"
    end in
  save codec img pil_format save_kwargs.

(** The keyword parameters of [process_image_bytes]. *)
Record Params := {
  output_format : option string;
  quality : Z;
  rotate_angle : option float;
  rotate_expand : bool;
  flip_direction : option string;
  crop_x : option Z;
  crop_y : option Z;
  crop_width : option Z;
  crop_height : option Z;
  resize_width : option Z;
  resize_height : option Z;
  resize_scale : option float;
  resize_keep_ratio : bool;
  svg_scale : float
}.

(** The entries of [operations_applied]: a rotation by an angle, a flip, a
    crop at an origin with the extent kept, a scaling by a percentage, a
    resize to a size, and the entry logged when nothing else was. *)
Inductive Operation :=
| OpRotate (angle : float)
| OpFlip (horizontal : bool)
| OpCrop (x y actual_width actual_height : Z)
| OpScale (percent : float)
| OpResize (target_width target_height : Z)
| OpConvert (output_format : string).

Record Processed := {
  success : bool;
  output_bytes : bytes;
  original_size : Z * Z;
  output_size : Z * Z;
  input_bytes_size : Z;
  output_bytes_size : Z;
  operations_applied : list Operation;
  result_format : string
}.

(** Truth values of optional arguments. *)
Definition int_truthy (o : option Z) : bool :=
  match o with Some z => negb (z =? 0) | None => false end.

Definition opt_float_truthy (o : option float) : bool :=
  match o with Some x => float_truthy x | None => false end.

Definition str_truthy (o : option string) : bool :=
  match o with Some s => negb (String.eqb s "") | None => false end.

(** Each step takes the image and the log so far. *)
Definition Step := Image * list Operation -> result (Image * list Operation).

(** Step 1 of [process_image_bytes]: rotation. *)
Definition rotate_step (p : Params) : Step := fun '(img, ops) =>
  match rotate_angle p with
  | Some angle =>
      let normalized_angle := float_mod_int angle 360 in
      let is_right := is_right_angle normalized_angle in
      img <-
        (if is_right && negb (float_eq_int normalized_angle 0) then
           ret (quarter_turn normalized_angle img)
         else if negb (float_eq_int normalized_angle 0) then
           free_rotate angle (rotate_expand p) WHITE img
         else ret img) ;;
      ret (img, ops ++ [OpRotate angle])
  | None => ret (img, ops)
  end.

(** Step 2: flip. *)
Definition flip_step (p : Params) : Step := fun '(img, ops) =>
  match flip_direction p with
  | Some direction =>
      if String.eqb direction "" then ret (img, ops)
      else
        let direction := str_lower direction in
        _ <- raise_if (negb (mem direction ["horizontal"; "vertical"]))
               (ValueError (InvalidFlipDirection direction)) ;;
        if String.eqb direction "horizontal" then
          ret (transpose FLIP_LEFT_RIGHT img, ops ++ [OpFlip true])
        else
          ret (transpose FLIP_TOP_BOTTOM img, ops ++ [OpFlip false])
  | None => ret (img, ops)
  end.

(** Step 3: crop, when all four crop fields are present. *)
Definition crop_step (p : Params) : Step := fun '(img, ops) =>
  match crop_x p, crop_y p, crop_width p, crop_height p with
  | Some crop_x, Some crop_y, Some crop_width, Some crop_height =>
      let '(img_width, img_height) := size img in
      _ <- raise_if (crop_x >=? img_width)
             (ValueError (CropXOutside crop_x img_width)) ;;
      _ <- raise_if (crop_y >=? img_height)
             (ValueError (CropYOutside crop_y img_height)) ;;
      let x2 := Z.min (crop_x + crop_width) img_width in
      let y2 := Z.min (crop_y + crop_height) img_height in
      let img := crop (crop_x, crop_y, x2, y2) img in
      let actual_width := x2 - crop_x in
      let actual_height := y2 - crop_y in
      ret (img, ops ++ [OpCrop crop_x crop_y actual_width actual_height])
  | _, _, _, _ => ret (img, ops)
  end.

(** The target size of step 4, before the clamp to one pixel. *)
Definition resize_target (p : Params) (current_width current_height : Z)
  : result (Z * Z) :=
  match resize_scale p with
  | Some scale =>
      target_width <- int_of_percent current_width scale ;;
      target_height <- int_of_percent current_height scale ;;
      ret (target_width, target_height)
  | None =>
      if int_truthy (resize_width p) && int_truthy (resize_height p) then
        match resize_width p, resize_height p with
        | Some rw, Some rh =>
            if resize_keep_ratio p then
              ratio_w <- int_truediv rw current_width ;;
              ratio_h <- int_truediv rh current_height ;;
              let ratio := float_min ratio_w ratio_h in
              target_width <- int_of_product current_width ratio ;;
              target_height <- int_of_product current_height ratio ;;
              ret (target_width, target_height)
            else ret (rw, rh)
        | _, _ => raise TypeError
        end
      else if int_truthy (resize_width p) then
        match resize_width p with
        | Some rw =>
            ratio <- int_truediv rw current_width ;;
            target_height <- int_of_product current_height ratio ;;
            ret (rw, target_height)
        | None => raise TypeError
        end
      else
        match resize_height p with
        | Some rh =>
            ratio <- int_truediv rh current_height ;;
            target_width <- int_of_product current_width ratio ;;
            ret (target_width, rh)
        | None => raise TypeError
        end
  end.

(** Step 4: resize. *)
Definition resize_step (p : Params) : Step := fun '(img, ops) =>
  if int_truthy (resize_width p) || int_truthy (resize_height p)
     || opt_float_truthy (resize_scale p) then
    let '(current_width, current_height) := size img in
    '(target_width, target_height) <-
       resize_target p current_width current_height ;;
    let target_width := Z.max 1 target_width in
    let target_height := Z.max 1 target_height in
    let img := resize codec (target_width, target_height) img in
    match resize_scale p with
    | Some scale =>
        if float_truthy scale then ret (img, ops ++ [OpScale scale])
        else ret (img, ops ++ [OpResize target_width target_height])
    | None => ret (img, ops ++ [OpResize target_width target_height])
    end
  else ret (img, ops).

(** The four steps in the order of the source. *)
Definition transform (p : Params) : Step := fun st =>
  st <- rotate_step p st ;;
  st <- flip_step p st ;;
  st <- crop_step p st ;;
  resize_step p st.

(** The [except] clause of [process_image_bytes]. *)
Definition reraise_value_error (e : PyErr) : PyErr :=
  match e with
  | ValueError _ => e
  | _ => Exception e
  end.

Definition process_image_bytes (image_bytes : bytes) (input_format : string)
  (p : Params) : result Processed :=
  let input_format := lstrip_dots (str_lower input_format) in
  _ <- raise_if (negb (_is_valid_input_format input_format))
         (ValueError (UnsupportedInputFormat input_format)) ;;
  let output_format :=
    match output_format p with
    | Some fmt =>
        if String.eqb fmt "" then
          (if String.eqb input_format "svg" then "png" else input_format)
        else lstrip_dots (str_lower fmt)
    | None => if String.eqb input_format "svg" then "png" else input_format
    end in
  _ <- raise_if (negb (_is_valid_output_format output_format))
         (ValueError (UnsupportedOutputFormat output_format)) ;;
  let input_bytes_size := len image_bytes in
  try_except
    (img <- _open_image_from_bytes image_bytes input_format (svg_scale p) ;;
     let original_size := size img in
     '(img, operations_applied) <- transform p (img, []) ;;
     let operations_applied :=
       match operations_applied with
       | [] => [OpConvert output_format]
       | _ => operations_applied
       end in
     output_bytes <- _save_image_to_bytes img output_format (quality p) ;;
     let output_size := size img in
     ret {| success := true;
            output_bytes := output_bytes;
            original_size := original_size;
            output_size := output_size;
            input_bytes_size := input_bytes_size;
            output_bytes_size := len output_bytes;
            operations_applied := operations_applied;
            result_format := output_format |})
    reraise_value_error.

(** *** [convert_format] *)

Record Converted := {
  cvt_success : bool;
  cvt_input_size : Z;
  cvt_output_size : Z;
  cvt_size_reduction : float
}.

(** [convert_format].  Every exception raised once the formats are accepted
    is raised again as a plain [Exception].  The file system comes back with
    the outcome: the output file is written before the size reduction is
    computed, so a failure of that division leaves it written.  A save the
    encoder refuses is taken to leave the file system as it was: Pillow
    removes the file it had created, and what it leaves of an output file
    that was there before is not told here. *)
Definition convert_format (fs : FS) (input_path output_path : string)
  (quality : Z) (svg_scale : float) : result Converted * FS :=
  if negb (is_some (fs input_path)) then
    (raise (FileNotFoundError input_path), fs)
  else
    let input_format := suffix_ext input_path in
    let output_format := suffix_ext output_path in
    if negb (_is_valid_input_format input_format) then
      (raise (ValueError (UnsupportedInputFormat input_format)), fs)
    else if negb (_is_valid_output_format output_format) then
      (raise (ValueError (UnsupportedOutputFormat output_format)), fs)
    else
      match _open_image fs input_path svg_scale with
      | inl e => (raise (Exception e), fs)
      | inr img =>
          let input_size := getsize fs input_path in
          let img := alpha_flatten WHITE output_format img in
          let save_kwargs := save_kwargs_for output_format quality in
          match
            pil_format <- dict_item output_format SUPPORTED_FORMATS ;;
            save codec img pil_format save_kwargs
          with
          | inl e => (raise (Exception e), fs)
          | inr written =>
              let fs' := fs_write fs output_path written in
              let output_size := getsize fs' output_path in
              (try_except
                 (ratio <- int_truediv (input_size - output_size)
                             input_size ;;
                  let size_reduction := (ratio * float_of_Z 100)%float in
                  ret {| cvt_success := true;
                         cvt_input_size := input_size;
                         cvt_output_size := output_size;
                         cvt_size_reduction := size_reduction |})
                 Exception,
               fs')
          end
      end.

(** *** [flip_image] *)

Record Flipped := {
  flp_success : bool;
  flp_original_size : Z * Z;
  flp_output_size : Z * Z;
  flp_input_file_size : Z;
  flp_output_file_size : Z;
  flp_direction : string
}.

(** [flip_image]: the direction is checked before the formats are. *)
Definition flip_image (fs : FS) (input_path output_path direction : string)
  (quality : Z) (svg_scale : float) : result (Flipped * FS) :=
  _ <- raise_if (negb (is_some (fs input_path)))
         (FileNotFoundError input_path) ;;
  let direction := str_lower direction in
  _ <- raise_if (negb (mem direction ["horizontal"; "vertical"]))
         (ValueError (InvalidFlipDirection direction)) ;;
  let input_format := suffix_ext input_path in
  let output_format := suffix_ext output_path in
  _ <- raise_if (negb (_is_valid_input_format input_format))
         (ValueError (UnsupportedInputFormat input_format)) ;;
  _ <- raise_if (negb (_is_valid_output_format output_format))
         (ValueError (UnsupportedOutputFormat output_format)) ;;
  try_except
    (img <- _open_image fs input_path svg_scale ;;
     let original_size := size img in
     let input_file_size := getsize fs input_path in
     let flipped_img :=
       if String.eqb direction "horizontal"
       then transpose FLIP_LEFT_RIGHT img
       else transpose FLIP_TOP_BOTTOM img in
     let flipped_img := alpha_flatten WHITE output_format flipped_img in
     let save_kwargs := save_kwargs_for output_format quality in
     pil_format <- dict_item output_format SUPPORTED_FORMATS ;;
     written <- save codec flipped_img pil_format save_kwargs ;;
     let fs' := fs_write fs output_path written in
     let output_file_size := getsize fs' output_path in
     ret ({| flp_success := true;
             flp_original_size := original_size;
             flp_output_size := original_size;
             flp_input_file_size := input_file_size;
             flp_output_file_size := output_file_size;
             flp_direction := direction |}, fs'))
    reraise_or_wrap.

(** *** [get_image_info_from_bytes] *)

Record ImageInfo := {
  info_format : string;
  info_mode : string;
  info_size : Z * Z;
  info_width : Z;
  info_height : Z;
  info_file_size : Z;
  info_is_vector : bool
}.

(** [get_image_info_from_bytes]: the format is not checked against the
    tables, and the reported format is the one given, in capitals. *)
Definition get_image_info_from_bytes (image_bytes : bytes)
  (input_format : string) : result ImageInfo :=
  let input_format := lstrip_dots (str_lower input_format) in
  img <- _open_image_from_bytes image_bytes input_format 1 ;;
  ret {| info_format := str_upper input_format;
         info_mode := mode img;
         info_size := size img;
         info_width := width img;
         info_height := height img;
         info_file_size := len image_bytes;
         info_is_vector := String.eqb input_format "svg" |}.

End WithCodec.

(** *** [batch_convert_format] *)

(** An entry of [results]: a success carries the dict [convert_format]
    returned, a failure the exception it raised. *)
Record BatchItem := {
  item_input_file : string;
  item_output_file : string;
  item_success : bool;
  item_result : option Converted;
  item_error : option PyErr
}.

Record Batch := {
  bat_success_count : Z;
  bat_fail_count : Z;
  bat_total : Z;
  bat_results : list BatchItem;
  bat_total_input_size : Z;
  bat_total_output_size : Z;
  bat_total_size_reduction : float
}.

(** The one exception [batch_convert_format] raises itself: a [ValueError]
    whose message names the target format. *)
Inductive BatchError := UnsupportedTargetFormat (target_format : string).

(** The locals the conversion loop updates, and the file system. *)
Record BatchState := {
  st_results : list BatchItem;
  st_success_count : Z;
  st_fail_count : Z;
  st_total_input_size : Z;
  st_total_output_size : Z;
  st_fs : FS
}.

Section Batch.

Variable codec : Codec.

(** What the method asks of [glob] and [pathlib]: the paths a pattern
    matches, the order in which [list(set(...))] lists the distinct paths,
    [str(Path(p))], and [str(Path(d) / name)]. *)
Variable glob : string -> list string.
Variable list_set : list string -> list string.
Variable path_str : string -> string.
Variable path_join : string -> string -> string.

(** The loop that fills [input_files]. *)
Fixpoint collect_input_files (fs : FS) (input_patterns : list string)
  : list string :=
  match input_patterns with
  | [] => []
  | pattern :: rest =>
      (if has_char "*" pattern || has_char "?" pattern then glob pattern
       else if is_some (fs pattern) then [pattern] else [])
      ++ collect_input_files fs rest
  end.

(** The loop that keeps the files with a suffix of [SUPPORTED_FORMATS]. *)
Definition keep_supported (input_files : list string) : list string :=
  filter (fun file_path => dict_mem (suffix_ext file_path) SUPPORTED_FORMATS)
    input_files.

(** The conversion loop: one call of [convert_format] per file, whose
    exception, if any, is recorded and does not leave the loop. *)
Fixpoint convert_each (output_dir target_format : string) (quality : Z)
  (valid_files : list string) (st : BatchState) : BatchState :=
  match valid_files with
  | [] => st
  | input_file :: rest =>
      let input_path := path_str input_file in
      let output_filename :=
        (path_stem input_path ++ "." ++ target_format)%string in
      let output_file := path_join output_dir output_filename in
      let '(outcome, fs') :=
        convert_format codec (st_fs st) input_path output_file quality 1 in
      convert_each output_dir target_format quality rest
        match outcome with
        | inr result =>
            {| st_results :=
                 st_results st ++
                 [{| item_input_file := input_path;
                     item_output_file := output_file;
                     item_success := true;
                     item_result := Some result;
                     item_error := None |}];
               st_success_count := st_success_count st + 1;
               st_fail_count := st_fail_count st;
               st_total_input_size :=
                 st_total_input_size st + cvt_input_size result;
               st_total_output_size :=
                 st_total_output_size st + cvt_output_size result;
               st_fs := fs' |}
        | inl e =>
            {| st_results :=
                 st_results st ++
                 [{| item_input_file := input_path;
                     item_output_file := output_file;
                     item_success := false;
                     item_result := None;
                     item_error := Some e |}];
               st_success_count := st_success_count st;
               st_fail_count := st_fail_count st + 1;
               st_total_input_size := st_total_input_size st;
               st_total_output_size := st_total_output_size st;
               st_fs := fs' |}
        end
  end.

(** [batch_convert_format].  The output directory is created first; the file
    system here has no directories, and creating one changes nothing. *)
Definition batch_convert_format (fs : FS) (input_patterns : list string)
  (output_dir target_format : string) (quality : Z)
  : (BatchError + Batch) * FS :=
  let target_format := lstrip_dots (str_lower target_format) in
  if negb (dict_mem target_format SUPPORTED_FORMATS) then
    (inl (UnsupportedTargetFormat target_format), fs)
  else
    let input_files := collect_input_files fs input_patterns in
    let input_files := list_set input_files in
    let valid_files := keep_supported input_files in
    match valid_files with
    | [] =>
        (inr {| bat_success_count := 0;
                bat_fail_count := 0;
                bat_total := 0;
                bat_results := [];
                bat_total_input_size := 0;
                bat_total_output_size := 0;
                bat_total_size_reduction := 0 |}, fs)
    | _ =>
        let st :=
          convert_each output_dir target_format quality valid_files
            {| st_results := [];
               st_success_count := 0;
               st_fail_count := 0;
               st_total_input_size := 0;
               st_total_output_size := 0;
               st_fs := fs |} in
        let total_size_reduction :=
          if st_total_input_size st >? 0 then
            (float_of_quotient
               (st_total_input_size st - st_total_output_size st)
               (st_total_input_size st) * float_of_Z 100)%float
          else 0%float in
        (inr {| bat_success_count := st_success_count st;
                bat_fail_count := st_fail_count st;
                bat_total := len valid_files;
                bat_results := st_results st;
                bat_total_input_size := st_total_input_size st;
                bat_total_output_size := st_total_output_size st;
                bat_total_size_reduction := total_size_reduction |},
         st_fs st)
    end.

End Batch.

End ImageService.

(** ** backend/api/routers/images.py: the endpoints *)

Module Endpoints.
Import Py PIL ImageService.

Definition FORMAT_TO_MIME : list (string * string) :=
  [ ("png", "image/png"); ("jpg", "image/jpeg"); ("jpeg", "image/jpeg");
    ("gif", "image/gif"); ("bmp", "image/bmp"); ("webp", "image/webp");
    ("tiff", "image/tiff"); ("tif", "image/tiff"); ("avif", "image/avif");
    ("heic", "image/heic"); ("heif", "image/heif"); ("ico", "image/x-icon");
    ("jp2", "image/jp2"); ("j2k", "image/jp2"); ("tga", "image/x-tga");
    ("qoi", "image/x-qoi") ].

(** An upload: its declared name, and what [await file.read()] gives. *)
Record UploadFile := {
  filename : option string;
  read : result bytes
}.

(** What the [detail] of an [HTTPException] raised by an endpoint says; the
    exception a message quotes is kept as it was raised. *)
Inductive Detail :=
| FileReadFailed (e : PyErr)
| EmptyFile
| ProcessingFailed
| InvalidRequest (e : PyErr)
| ProcessingError (e : PyErr)
| InfoUnreadable (e : PyErr).

(** An [HTTPException] leaving an endpoint: raised by one of the two
    validators, or by the endpoint itself. *)
Inductive HTTPException :=
| Validation (e : Routers.HTTPException)
| HTTPError (status_code : Z) (detail : Detail).

Definition status_code_of (e : HTTPException) : Z :=
  match e with
  | Validation (Routers.HTTPError status_code _) => status_code
  | HTTPError status_code _ => status_code
  end.

(** The [StreamingResponse] of [upload_and_process]: the body, the media
    type, the file name of [Content-Disposition], the two sizes the headers
    [X-Original-Size] and [X-Output-Size] print, and the number
    [X-Operations-Count] prints. *)
Record StreamingResponse := {
  body : bytes;
  media_type : string;
  output_filename : string;
  x_original_size : Z * Z;
  x_output_size : Z * Z;
  x_operations_count : Z
}.

Record ProcessingResultResponse := {
  prr_success : bool;
  prr_original_filename : string;
  prr_original_size : Z * Z;
  prr_output_size : Z * Z;
  prr_input_file_size : Z;
  prr_output_file_size : Z;
  prr_operations_applied : list Operation
}.

Record ImageInfoResponse := {
  iir_format : string;
  iir_mode : string;
  iir_width : Z;
  iir_height : Z;
  iir_file_size : Z;
  iir_is_vector : bool
}.

(** The keyword arguments an endpoint forwards to [process_image_bytes]:
    every form field, and no [svg_scale], which keeps its default. *)
Definition forwarded (form : Params) : Params :=
  {| output_format := output_format form;
     quality := quality form;
     rotate_angle := rotate_angle form;
     rotate_expand := rotate_expand form;
     flip_direction := flip_direction form;
     crop_x := crop_x form;
     crop_y := crop_y form;
     crop_width := crop_width form;
     crop_height := crop_height form;
     resize_width := resize_width form;
     resize_height := resize_height form;
     resize_scale := resize_scale form;
     resize_keep_ratio := resize_keep_ratio form;
     svg_scale := 1 |}.

Section WithCodec.

Variable codec : Codec.

(** The lines the three endpoints share: the upload is read, refused when
    empty, and its type validated. *)
Definition read_and_validate (file : UploadFile)
  : HTTPException + (bytes * string) :=
  match read file with
  | inl e => inl (HTTPError 500 (FileReadFailed e))
  | inr image_bytes =>
      if len image_bytes =? 0 then inl (HTTPError 400 EmptyFile)
      else
        match
          Routers.validate_image_file image_bytes (str_or (filename file) "")
        with
        | inl e => inl (Validation e)
        | inr input_format => inr (image_bytes, input_format)
        end
  end.

(** [upload_and_process] *)
Definition upload_and_process (file : UploadFile) (form : Params)
  : HTTPException + StreamingResponse :=
  match read_and_validate file with
  | inl e => inl e
  | inr (image_bytes, input_format) =>
      match Routers.validate_output_format (output_format form) with
      | inl e => inl (Validation e)
      | inr _ =>
          match
            process_image_bytes codec image_bytes input_format
              (forwarded form)
          with
          | inr result =>
              if negb (success result) then
                inl (HTTPError 500 ProcessingFailed)
              else
                let out_format := result_format result in
                let mime_type :=
                  match dict_get out_format FORMAT_TO_MIME with
                  | Some mime => mime
                  | None => "application/octet-stream"
                  end in
                let original_stem :=
                  path_stem (str_or (filename file) "image") in
                let safe_stem := str_or (Some (ascii_ignore original_stem))
                                   "image" in
                let output_filename :=
                  ("processed_" ++ safe_stem ++ "." ++ out_format)%string in
                inr {| body := output_bytes result;
                       media_type := mime_type;
                       output_filename := output_filename;
                       x_original_size := original_size result;
                       x_output_size := output_size result;
                       x_operations_count :=
                         len (operations_applied result) |}
          | inl (ValueError why) =>
              inl (HTTPError 400 (InvalidRequest (ValueError why)))
          | inl e => inl (HTTPError 500 (ProcessingError e))
          end
      end
  end.

(** [upload_and_get_info] *)
Definition upload_and_get_info (file : UploadFile) (form : Params)
  : HTTPException + ProcessingResultResponse :=
  match read_and_validate file with
  | inl e => inl e
  | inr (image_bytes, input_format) =>
      match Routers.validate_output_format (output_format form) with
      | inl e => inl (Validation e)
      | inr _ =>
          match
            process_image_bytes codec image_bytes input_format
              (forwarded form)
          with
          | inr result =>
              inr {| prr_success := true;
                     prr_original_filename :=
                       str_or (filename file) "unknown";
                     prr_original_size := original_size result;
                     prr_output_size := output_size result;
                     prr_input_file_size := input_bytes_size result;
                     prr_output_file_size := output_bytes_size result;
                     prr_operations_applied := operations_applied result |}
          | inl (ValueError why) =>
              inl (HTTPError 400 (InvalidRequest (ValueError why)))
          | inl e => inl (HTTPError 500 (ProcessingError e))
          end
      end
  end.

(** [get_image_info]: every exception of the service is answered with
    status 500, a [ValueError] included. *)
Definition get_image_info (file : UploadFile)
  : HTTPException + ImageInfoResponse :=
  match read_and_validate file with
  | inl e => inl e
  | inr (image_bytes, input_format) =>
      match get_image_info_from_bytes codec image_bytes input_format with
      | inr info =>
          inr {| iir_format := info_format info;
                 iir_mode := info_mode info;
                 iir_width := info_width info;
                 iir_height := info_height info;
                 iir_file_size := info_file_size info;
                 iir_is_vector := info_is_vector info |}
      | inl e => inl (HTTPError 500 (InfoUnreadable e))
      end
  end.

End WithCodec.

End Endpoints.

(** ** backend/api/routers/health.py *)

Module Health.

(** The [supported_formats] of the answer of [api_info]. *)
Record SupportedFormats := {
  read_write : list string;
  read_only : list string
}.

Definition supported_formats : SupportedFormats :=
  {| read_write :=
       [ "png"; "jpg"; "jpeg"; "bmp"; "gif"; "webp"; "tiff"; "tif";
         "avif"; "heif"; "heic"; "ico"; "jp2"; "j2k"; "tga"; "qoi" ];
     read_only := [ "svg" ] |}.

End Health.

(** ** The specification's own words, for comparison with the code *)

(** The quality search as the specification tells it: a probe at 95 first,
    then a binary search between 1 and 95 that stops at a midpoint inside
    the tolerance band, lowers the upper bound under a probe that is too
    large, and records the midpoint and raises the lower bound over a probe
    that is too small; an exhausted search answers the last midpoint
    recorded, 85 if none was. *)
Module QualitySearch.
Import Py.

Section Words.

(** The size of the probe encoding at each quality, and the byte budget. *)
Variable size_at : Z -> Z.
Variable target : number.

Definition tolerance : Z := 1024.

Definition midpoint (lo hi : Z) : Z := (lo + hi) / 2.

Definition meets_target (q : Z) : Prop :=
  int_le_num (size_at q) target = true.

Definition within_tolerance (q : Z) : Prop :=
  abs_diff_le (size_at q) target tolerance = true.

Definition too_large (q : Z) : Prop :=
  abs_diff_le (size_at q) target tolerance = false
  /\ int_gt_num (size_at q) target = true.

(** Outside the band and not above the target: on a budget that is an
    integer, more than the tolerance below it. *)
Definition too_small (q : Z) : Prop :=
  abs_diff_le (size_at q) target tolerance = false
  /\ int_gt_num (size_at q) target = false.

(** [binary_search lo hi best q]: from the bounds [lo] and [hi] and the
    best-so-far [best], the search answers [q]. *)
Inductive binary_search : Z -> Z -> Z -> Z -> Prop :=
| search_exhausted lo hi best :
    hi < lo ->
    binary_search lo hi best best
| search_hit lo hi best :
    lo <= hi ->
    within_tolerance (midpoint lo hi) ->
    binary_search lo hi best (midpoint lo hi)
| search_lower lo hi best q :
    lo <= hi ->
    too_large (midpoint lo hi) ->
    binary_search lo (midpoint lo hi - 1) best q ->
    binary_search lo hi best q
| search_higher lo hi best q :
    lo <= hi ->
    too_small (midpoint lo hi) ->
    binary_search (midpoint lo hi + 1) hi (midpoint lo hi) q ->
    binary_search lo hi best q.

Definition search (q : Z) : Prop :=
  (meets_target 95 /\ q = 95)
  \/ (~ meets_target 95 /\ binary_search 1 95 85 q).

End Words.

End QualitySearch.

(** Python's [round] of the quotient [a / b] of two positive integers: the
    nearest integer, a tie going to the even one. *)
Definition round_quotient (a b : Z) : Z :=
  let q := a / b in
  let r := a mod b in
  if 2 * r <? b then q
  else if 2 * r >? b then q + 1
  else if Z.even q then q else q + 1.

(** The modes of Pillow that carry an alpha band. *)
Definition has_alpha_channel (mode : string) : bool :=
  Py.mem mode ["RGBA"; "LA"; "PA"; "RGBa"; "La"].

(** ** Vocabulary of the statements *)

Section Vocabulary.
Import Py PIL ImageService.

(** The name [img.save] receives for a format. *)
Definition pil_format_of (fmt : string) : string :=
  match dict_get fmt SUPPORTED_FORMATS with
  | Some f => f
  | None => "PNG"
  end.

(** The encoder of a format accepts a buffer with the keyword arguments the
    service gives it for that format and a quality: [img.save] does not
    raise. *)
Definition encodable (codec : Codec) (img : Image) (fmt : string)
  (quality : Z) : Prop :=
  save_accepts codec img (pil_format_of fmt) (save_kwargs_for fmt quality)
  = true.

(** The encoder accepts the probe of [_get_image_size_at_quality] at every
    quality. *)
Definition probes_accepted (codec : Codec) (img : Image) (fmt : string)
  : Prop :=
  forall q,
    save_accepts codec img (pil_format_of fmt)
      {| kw_quality := Some q; kw_optimize := Some true |} = true.

(** The size the probe at a quality reports. *)
Definition probe_size (codec : Codec) (img : Image) (fmt : string) (q : Z)
  : Z :=
  match _get_image_size_at_quality codec img fmt q with
  | inr s => s
  | inl _ => 0
  end.

(** The size of the encoding of a buffer at a quality, with the [optimize]
    key as given. *)
Definition encoded_size (codec : Codec) (img : Image) (fmt : string)
  (q : Z) (optimize : option bool) : Z :=
  len (image_save codec img (pil_format_of fmt)
         {| kw_quality := Some q; kw_optimize := optimize |}).

(** The first quality of a list whose probe lands within 1024 bytes of the
    target, and a default when none does. *)
Definition first_within_tolerance (size_at : Z -> Z) (target : number)
  (qualities : list Z) (default : Z) : Z :=
  match find (fun q => abs_diff_le (size_at q) target 1024) qualities with
  | Some q => q
  | None => default
  end.

(** The buffer [compress_image] probes and encodes: the decoded image,
    flattened if need be, then reduced to [max_dimension]. *)
Definition compress_buffer (codec : Codec) (fmt : string)
  (max_dimension : option Z) (decoded : Image) : Image :=
  let img := alpha_flatten WHITE fmt decoded in
  match max_dimension with
  | Some d =>
      if exceeds max_dimension img then image_thumbnail codec img (d, d)
      else img
  | None => img
  end.

(** The output format [process_image_bytes] settles on. *)
Definition resolved_output_format (input_format : string) (p : Params)
  : string :=
  let input_format := lstrip_dots (str_lower input_format) in
  match output_format p with
  | Some fmt =>
      if String.eqb fmt "" then
        (if String.eqb input_format "svg" then "png" else input_format)
      else lstrip_dots (str_lower fmt)
  | None => if String.eqb input_format "svg" then "png" else input_format
  end.

(** [p] with another [rotate_expand]. *)
Definition with_rotate_expand (expand : bool) (p : Params) : Params :=
  {| output_format := output_format p;
     quality := quality p;
     rotate_angle := rotate_angle p;
     rotate_expand := expand;
     flip_direction := flip_direction p;
     crop_x := crop_x p;
     crop_y := crop_y p;
     crop_width := crop_width p;
     crop_height := crop_height p;
     resize_width := resize_width p;
     resize_height := resize_height p;
     resize_scale := resize_scale p;
     resize_keep_ratio := resize_keep_ratio p;
     svg_scale := svg_scale p |}.

(** [p] with other resize fields. *)
Definition with_resize (width height : option Z) (scale : option float)
  (p : Params) : Params :=
  {| output_format := output_format p;
     quality := quality p;
     rotate_angle := rotate_angle p;
     rotate_expand := rotate_expand p;
     flip_direction := flip_direction p;
     crop_x := crop_x p;
     crop_y := crop_y p;
     crop_width := crop_width p;
     crop_height := crop_height p;
     resize_width := width;
     resize_height := height;
     resize_scale := scale;
     resize_keep_ratio := resize_keep_ratio p;
     svg_scale := svg_scale p |}.

(** [p] with other crop fields, another rotation, another flip, another
    answer about the ratio. *)
Definition with_crop (x y width height : option Z) (p : Params) : Params :=
  {| output_format := output_format p;
     quality := quality p;
     rotate_angle := rotate_angle p;
     rotate_expand := rotate_expand p;
     flip_direction := flip_direction p;
     crop_x := x;
     crop_y := y;
     crop_width := width;
     crop_height := height;
     resize_width := resize_width p;
     resize_height := resize_height p;
     resize_scale := resize_scale p;
     resize_keep_ratio := resize_keep_ratio p;
     svg_scale := svg_scale p |}.

Definition with_rotate (angle : option float) (p : Params) : Params :=
  {| output_format := output_format p;
     quality := quality p;
     rotate_angle := angle;
     rotate_expand := rotate_expand p;
     flip_direction := flip_direction p;
     crop_x := crop_x p;
     crop_y := crop_y p;
     crop_width := crop_width p;
     crop_height := crop_height p;
     resize_width := resize_width p;
     resize_height := resize_height p;
     resize_scale := resize_scale p;
     resize_keep_ratio := resize_keep_ratio p;
     svg_scale := svg_scale p |}.

Definition with_flip (direction : option string) (p : Params) : Params :=
  {| output_format := output_format p;
     quality := quality p;
     rotate_angle := rotate_angle p;
     rotate_expand := rotate_expand p;
     flip_direction := direction;
     crop_x := crop_x p;
     crop_y := crop_y p;
     crop_width := crop_width p;
     crop_height := crop_height p;
     resize_width := resize_width p;
     resize_height := resize_height p;
     resize_scale := resize_scale p;
     resize_keep_ratio := resize_keep_ratio p;
     svg_scale := svg_scale p |}.

Definition with_keep_ratio (keep : bool) (p : Params) : Params :=
  {| output_format := output_format p;
     quality := quality p;
     rotate_angle := rotate_angle p;
     rotate_expand := rotate_expand p;
     flip_direction := flip_direction p;
     crop_x := crop_x p;
     crop_y := crop_y p;
     crop_width := crop_width p;
     crop_height := crop_height p;
     resize_width := resize_width p;
     resize_height := resize_height p;
     resize_scale := resize_scale p;
     resize_keep_ratio := keep;
     svg_scale := svg_scale p |}.

(** A request that names the output format, the quality and the SVG scale,
    and asks for no step. *)
Definition plain_request (fmt : string) (quality : Z) (svg_scale : float)
  : Params :=
  {| output_format := Some fmt;
     quality := quality;
     rotate_angle := None;
     rotate_expand := true;
     flip_direction := None;
     crop_x := None;
     crop_y := None;
     crop_width := None;
     crop_height := None;
     resize_width := None;
     resize_height := None;
     resize_scale := None;
     resize_keep_ratio := true;
     svg_scale := svg_scale |}.

(** Requests that leave a step out. *)
Definition no_rotate (p : Params) : Prop := rotate_angle p = None.

Definition no_flip (p : Params) : Prop := flip_direction p = None.

Definition no_crop (p : Params) : Prop := crop_x p = None.

Definition no_resize (p : Params) : Prop :=
  resize_width p = None /\ resize_height p = None /\ resize_scale p = None.

(** A request for this crop rectangle. *)
Definition crops (p : Params) (x y width height : Z) : Prop :=
  crop_x p = Some x /\ crop_y p = Some y
  /\ crop_width p = Some width /\ crop_height p = Some height.

(** A request for a resize to this width and nothing else about size. *)
Definition resizes_to_width (p : Params) (width : Z) : Prop :=
  resize_width p = Some width /\ resize_height p = None
  /\ resize_scale p = None.

(** The input of [process_image_bytes] is accepted and decodes. *)
Definition decodes_to (codec : Codec) (image_bytes : bytes)
  (input_format : string) (p : Params) (decoded : Image) : Prop :=
  _is_valid_input_format (lstrip_dots (str_lower input_format)) = true
  /\ _is_valid_output_format (resolved_output_format input_format p) = true
  /\ _open_image_from_bytes codec image_bytes
       (lstrip_dots (str_lower input_format)) (svg_scale p) = inr decoded.

(** The input of a file-based method is accepted and opens. *)
Definition opens_to (codec : Codec) (fs : FS)
  (input_path output_path : string) (svg_scale : float) (img : Image)
  : Prop :=
  _is_valid_input_format (suffix_ext input_path) = true
  /\ _is_valid_output_format (suffix_ext output_path) = true
  /\ _open_image codec fs input_path svg_scale = inr img.

(** A file method did to a file what the pipeline does to its content under
    the request [p]: the content of the input file passes the guards of
    [process_image_bytes] and decodes to an image of the size [original];
    the output format [p] resolves to is the extension of the output path;
    the steps of the pipeline take the image to a buffer of the size
    [output]; and the file written is the rendering of that buffer,
    flattened for the format, with the format and the arguments of
    [_save_image_to_bytes]. *)
Definition follows_pipeline (codec : Codec) (fs fs' : FS)
  (input_path output_path : string) (p : Params) (original output : Z * Z)
  : Prop :=
  let input_format := suffix_ext input_path in
  let fmt := suffix_ext output_path in
  exists content decoded img ops,
    fs input_path = Some content
    /\ decodes_to codec content input_format p decoded
    /\ resolved_output_format input_format p = fmt
    /\ transform codec p (decoded, []) = inr (img, ops)
    /\ fs' output_path
       = Some (image_save codec (alpha_flatten WHITE fmt img)
                 (pil_format_of fmt) (save_kwargs_for fmt (quality p)))
    /\ original = size decoded
    /\ output = size img.

(** The transposition a quarter turn comes to. *)
Definition quarter_method (normalized_angle : float) : Transpose :=
  if float_eq_int normalized_angle 90 then ROTATE_90 else ROTATE_270.

(** The angle is 90 or 270 modulo 360. *)
Definition is_quarter_turn (angle : float) : Prop :=
  float_eq_int (float_mod_int angle 360) 90 = true
  \/ float_eq_int (float_mod_int angle 360) 270 = true.

(** [int(H * (width / W))]: the quotient rounded to binary64, the product
    rounded to binary64, the result truncated toward zero. *)
Definition derived_height (H width W : Z) : result Z :=
  py_int (float_of_Z H * float_of_quotient width W)%float.

(** The entries of [operations_applied], step by step. *)
Definition is_rotate (op : Operation) : bool :=
  match op with OpRotate _ => true | _ => false end.

Definition is_flip (op : Operation) : bool :=
  match op with OpFlip _ => true | _ => false end.

Definition is_crop (op : Operation) : bool :=
  match op with OpCrop _ _ _ _ => true | _ => false end.

Definition is_resize (op : Operation) : bool :=
  match op with OpScale _ | OpResize _ _ => true | _ => false end.

(** No entry, or one entry of a kind. *)
Definition optional_entry (kind : Operation -> bool) (l : list Operation)
  : Prop :=
  l = [] \/ exists op, l = [op] /\ kind op = true.

(** The reasons of the [ValueError]s that a request can draw from the steps
    of [process_image_bytes] once its formats are accepted, and with the two
    format guards, the reasons of all it raises. *)
Definition request_reason (why : Reason) : bool :=
  match why with
  | SvgNeedsCairosvg | InvalidFlipDirection _ | CropXOutside _ _
  | CropYOutside _ _ | FloatNanToInteger => true
  | _ => false
  end.

Definition pipeline_reason (why : Reason) : bool :=
  match why with
  | UnsupportedInputFormat _ | UnsupportedOutputFormat _ => true
  | _ => request_reason why
  end.

(** An exception a step of the pipeline raises: if it is a [ValueError], its
    reason is one of [request_reason]. *)
Definition step_error (e : PyErr) : Prop :=
  match e with
  | ValueError why => request_reason why = true
  | _ => True
  end.

(** An exception that leaves [process_image_bytes]: a [ValueError] as it was
    raised, anything else inside an [Exception]. *)
Definition pipeline_error (e : PyErr) : Prop :=
  match e with
  | ValueError why => pipeline_reason why = true
  | Exception (ValueError _) => False
  | Exception _ => True
  | _ => False
  end.

(** An [HTTPException] of the two processing endpoints, with its status. *)
Definition endpoint_error (e : Endpoints.HTTPException) : Prop :=
  match e with
  | Endpoints.Validation (Routers.HTTPError status detail) =>
      match detail with
      | Routers.UnsupportedOutputFormat _ => status = 400
      | _ => status = 415
      end
  | Endpoints.HTTPError status detail =>
      match detail with
      | Endpoints.FileReadFailed _ => status = 500
      | Endpoints.EmptyFile => status = 400
      | Endpoints.InvalidRequest (ValueError why) =>
          status = 400 /\ request_reason why = true
      | Endpoints.ProcessingError (Exception (ValueError _)) => False
      | Endpoints.ProcessingError (Exception _) => status = 500
      | _ => False
      end
  end.

(** All the characters of a string are ASCII. *)
Definition ascii_only (s : string) : bool :=
  forallb is_ascii (list_ascii_of_string s).

(** The transposition a flip direction comes to. *)
Definition flip_method (direction : string) : Transpose :=
  if String.eqb direction "horizontal" then FLIP_LEFT_RIGHT
  else FLIP_TOP_BOTTOM.

(** [fs'] is [fs] but for the content of one path, which exists. *)
Definition writes_only (path : string) (fs fs' : FS) : Prop :=
  (exists data, fs' path = Some data)
  /\ forall other, other <> path -> fs' other = fs other.

(** The sum of a size over the successful entries of a batch. *)
Definition sum_over_successes (f : Converted -> Z) (items : list BatchItem)
  : Z :=
  fold_right
    (fun item acc =>
       match item_result item with Some c => f c + acc | None => acc end)
    0 items.

(** What an entry of [results] records: the output file is named after the
    stem of the input file and the target format, and the entry carries a
    result or an error as it is a success or not. *)
Definition well_formed_item (path_join : string -> string -> string)
  (output_dir target_format : string) (item : BatchItem) : Prop :=
  item_output_file item
  = path_join output_dir
      (path_stem (item_input_file item) ++ "." ++ target_format)%string
  /\ match item_result item, item_error item with
     | Some _, None => item_success item = true
     | None, Some _ => item_success item = false
     | _, _ => False
     end.

End Vocabulary.

(** ** A codec, a file system and requests to evaluate the code on *)

Module Sample.
Import Py PIL ImageService.

Definition byte_value (c : byte) : Z := Z.of_N (Byte.to_N c).

(** A raster container of the simplest kind: a byte of width, a byte of
    height, a byte that is zero for RGB, one for LA and RGBA otherwise, then
    one pixel that fills the image. *)
Definition raw_open (data : bytes) : option Image :=
  match data with
  | w :: h :: m :: pixel =>
      Some {| mode := match byte_value m with
                      | 0 => "RGB"
                      | 1 => "LA"
                      | _ => "RGBA"
                      end;
              size := (byte_value w, byte_value h);
              getpixel := fun _ _ => map byte_value pixel |}
  | _ => None
  end.

(** An encoder whose output grows with the quality: [base + 100 * quality]
    bytes, and [base] bytes when no quality is given. *)
Definition raw_save (base : Z) (img : Image) (pil_format : string)
  (kw : SaveKwargs) : bytes :=
  repeat x00
    (Z.to_nat (base + match kw_quality kw with
                      | Some q => 100 * q
                      | None => 0
                      end)).

(** The sample encoder refuses what the JPEG encoder of Pillow refuses: a
    buffer whose mode is outside its table; it writes every mode to the
    other formats. *)
Definition raw_accepts (img : Image) (pil_format : string)
  (kw : SaveKwargs) : bool :=
  negb (String.eqb pil_format "JPEG")
  || mem (mode img) ["1"; "L"; "RGB"; "RGBX"; "CMYK"; "YCbCr"].

Definition codec (base : Z) : Codec :=
  {| SVG_SUPPORTED := false;
     image_open := raw_open;
     save_accepts := raw_accepts;
     image_save := raw_save base;
     svg2png := fun _ _ => None;
     resize_kernel := fun img _ x y => getpixel img x y;
     image_rotate := fun img _ _ _ => img;
     image_thumbnail := fun img _ => img |}.

(** Opaque grey images of 200 by 150, 100 by 100 and 4 by 3 pixels, as
    bytes and as [raw_open] decodes them. *)
Definition grey (w h : byte) : bytes := [w; h; x00; x80; x80; x80].

Definition grey_image (w h : Z) : Image :=
  {| mode := "RGB"; size := (w, h);
     getpixel := fun _ _ => map byte_value [x80; x80; x80] |}.

Definition rgb_200x150 : bytes := grey xc8 x96.
Definition rgb_100x100 : bytes := grey x64 x64.
Definition rgb_4x3 : bytes := grey x04 x03.

(** Fully transparent black images of 80 by 80 pixels, in the mode LA and
    in the mode RGBA. *)
Definition la_image : Image :=
  {| mode := "LA"; size := (80, 80); getpixel := fun _ _ => [0; 0] |}.

Definition rgba_image : Image :=
  {| mode := "RGBA"; size := (80, 80);
     getpixel := fun _ _ => [16; 32; 48; 0] |}.

(** The same two images as bytes, and a directory that holds them. *)
Definition la_80x80 : bytes := [x50; x50; x01; x00; x00].
Definition rgba_80x80 : bytes := [x50; x50; x02; x10; x20; x30; x00].

Definition layers : FS := fun path =>
  if String.eqb path "mask.png" then Some la_80x80
  else if String.eqb path "layer.png" then Some rgba_80x80
  else None.

(** A request for jpg and nothing else. *)
Definition as_jpg : Params := plain_request "jpg" 95 1.

(** An encoder that writes the bands of the top-left pixel, a byte each, and
    the codec that has it. *)
Definition band_byte (z : Z) : byte :=
  match Byte.of_N (Z.to_N z) with Some c => c | None => x00 end.

Definition pixel_save (img : Image) (pil_format : string) (kw : SaveKwargs)
  : bytes :=
  map band_byte (getpixel img 0 0).

Definition pixel_codec : Codec :=
  {| SVG_SUPPORTED := false;
     image_open := raw_open;
     save_accepts := raw_accepts;
     image_save := pixel_save;
     svg2png := fun _ _ => None;
     resize_kernel := fun img _ x y => getpixel img x y;
     image_rotate := fun img _ _ _ => img;
     image_thumbnail := fun img _ => img |}.

(** A directory with one file per opaque image. *)
Definition fs : FS := fun path =>
  if String.eqb path "photo.png" then Some rgb_200x150
  else if String.eqb path "square.png" then Some rgb_100x100
  else if String.eqb path "tiny.png" then Some rgb_4x3
  else None.

(** An upload that starts with the PNG signature. *)
Definition png_upload : bytes :=
  x89 :: b "PNG" ++ [x0d; x0a; x1a; x0a] ++ b "....IHDR".

(** [process_image_bytes] called with its defaults. *)
Definition defaults : Params :=
  {| output_format := None;
     quality := 95;
     rotate_angle := None;
     rotate_expand := true;
     flip_direction := None;
     crop_x := None;
     crop_y := None;
     crop_width := None;
     crop_height := None;
     resize_width := None;
     resize_height := None;
     resize_scale := None;
     resize_keep_ratio := true;
     svg_scale := 1 |}.

(** [rotate_angle=90] and nothing else. *)
Definition rotate_90_only : Params :=
  {| output_format := None;
     quality := 95;
     rotate_angle := Some 90%float;
     rotate_expand := true;
     flip_direction := None;
     crop_x := None;
     crop_y := None;
     crop_width := None;
     crop_height := None;
     resize_width := None;
     resize_height := None;
     resize_scale := None;
     resize_keep_ratio := true;
     svg_scale := 1 |}.

(** A crop of 200 by 200 at (10, 10) and nothing else. *)
Definition crop_200_at_10 : Params :=
  {| output_format := None;
     quality := 95;
     rotate_angle := None;
     rotate_expand := true;
     flip_direction := None;
     crop_x := Some 10;
     crop_y := Some 10;
     crop_width := Some 200;
     crop_height := Some 200;
     resize_width := None;
     resize_height := None;
     resize_scale := None;
     resize_keep_ratio := true;
     svg_scale := 1 |}.

(** [resize_scale=50] with [resize_width=120], and [resize_width=5]
    alone. *)
Definition scale_50_width_120 : Params :=
  with_resize (Some 120) None (Some 50%float) defaults.

Definition width_5_only : Params := with_resize (Some 5) None None defaults.

(** A crop of 50 by 50 at (300, 10), to the right of a 200 by 150 image, and
    a crop of 40 by 40 at (120, 160), below it until it is turned. *)
Definition crop_at_300 : Params :=
  with_crop (Some 300) (Some 10) (Some 50) (Some 50) defaults.

Definition turn_then_crop : Params :=
  with_crop (Some 120) (Some 160) (Some 40) (Some 80) rotate_90_only.

(** The 200 by 150 image uploaded under the name of a PNG file. *)
Definition photo_upload : Endpoints.UploadFile :=
  {| Endpoints.filename := Some "photo.png";
     Endpoints.read := inr rgb_200x150 |}.

(** A directory with two files of the same stem, and one with a drawing. *)
Definition album : FS := fun path =>
  if String.eqb path "photo.png" then Some rgb_200x150
  else if String.eqb path "old/photo.png" then Some rgb_100x100
  else None.

Definition drawings : FS := fun path =>
  if String.eqb path "logo.svg" then Some (b "<svg/>") else None.

(** A [glob] that matches nothing, and paths joined by a slash. *)
Definition glob_nothing (pattern : string) : list string := [].

Definition path_join (directory name : string) : string :=
  (directory ++ "/" ++ name)%string.

(** Both sides asked for without the ratio, one of them negative; a half
    turn; a vertical flip written in capitals. *)
Definition stretch_to_30_by_minus_5 : Params :=
  with_keep_ratio false (with_resize (Some 30) (Some (-5)) None defaults).

Definition half_turn : Params := with_rotate (Some (-180)%float) defaults.

Definition flip_vertical : Params := with_flip (Some "VERTICAL") defaults.

End Sample.

(** * Properties *)

(** ** The format sniffer on RIFF containers *)

Lemma bytes_eqb_eq (x y : Py.bytes) : Py.bytes_eqb x y = true <-> x = y.
Proof.
  revert y; induction x as [|c x IH]; intros [|d y]; simpl;
    try (split; [discriminate | discriminate]); [tauto|].
  rewrite andb_true_iff, IH. split.
  - intros [Hc ->]. apply Byte.byte_dec_bl in Hc. now subst.
  - intros [= -> ->]. split; [now apply Byte.byte_dec_lb | reflexivity].
Qed.

Lemma ftyp_brand_not_webp (d : Py.bytes) :
  Routers.ftyp_brand d <> Some "webp".
Proof.
  unfold Routers.ftyp_brand.
  repeat match goal with |- context [if ?c then _ else _] => destruct c end;
    discriminate.
Qed.

Section Sniffer.
Import Py Routers.

Variable rest : bytes.

(** The input of this section: the four bytes of [RIFF], then anything. *)
Let data : bytes := RIFF ++ rest.

Lemma svg_signatures_miss_riff :
  existsb (svg_match data) SVG_SIGNATURES = false.
Proof. reflexivity. Qed.

Lemma scan_magic_riff :
  scan_magic data MAGIC_BYTES =
  if 12 <=? len data then
    if bytes_eqb (slice 8 12 data) WEBP then Some "webp" else None
  else Some "webp".
Proof.
  unfold MAGIC_BYTES, data.
  cbn -[Z.leb len slice bytes_eqb].
  replace (startswith rest []) with true by (now destruct rest).
  reflexivity.
Qed.

(** On RIFF-prefixed input the sniffer is decided by the length and by
    bytes 8 to 12; an ISO-BMFF brand can still be read from a RIFF-prefixed
    input of 12 bytes or more that is not WEBP. *)
Lemma detect_riff :
  detect_format_from_magic_bytes data =
  if 12 <=? len data then
    if bytes_eqb (slice 8 12 data) WEBP then Some "webp" else ftyp_brand data
  else Some "webp".
Proof.
  unfold detect_format_from_magic_bytes.
  rewrite svg_signatures_miss_riff, scan_magic_riff.
  destruct (12 <=? len data); [|reflexivity].
  destruct (bytes_eqb (slice 8 12 data) WEBP); [reflexivity|].
  replace (startswith data JP2_SIGNATURE) with false by reflexivity.
  now destruct (ftyp_brand data).
Qed.

(** With 12 bytes or more, RIFF-prefixed input is webp exactly when bytes 8
    to 12 spell WEBP. *)
Lemma riff_webp_iff_signature :
  12 <= len data ->
  detect_format_from_magic_bytes data = Some "webp" <->
  slice 8 12 data = WEBP.
Proof.
  intros Hlen. rewrite detect_riff, <- bytes_eqb_eq.
  apply Z.leb_le in Hlen. rewrite Hlen.
  destruct (bytes_eqb (slice 8 12 data) WEBP); [tauto|].
  split; [|discriminate].
  intros H. now apply ftyp_brand_not_webp in H.
Qed.

(** With fewer than 12 bytes, the entry of [MAGIC_BYTES] answers alone. *)
Lemma riff_short_is_webp :
  len data < 12 -> detect_format_from_magic_bytes data = Some "webp".
Proof.
  intros Hlen. rewrite detect_riff.
  apply Z.leb_gt in Hlen. now rewrite Hlen.
Qed.

End Sniffer.

(** C7.  The claim: a RIFF-prefixed byte string is classified webp if and
    only if bytes 8 to 12 are WEBP, an input shorter than 12 bytes included.
    The code at the four bytes [RIFF]: the input has the RIFF prefix, its
    bytes 8 to 12 are not WEBP (there are none), and the sniffer answers
    webp.  [riff_short_is_webp] shows the same for every RIFF-prefixed input
    of fewer than 12 bytes, [riff_webp_iff_signature] that the claim holds
    from 12 bytes on. *)
Theorem C7_riff_alone_sniffs_as_webp :
  let data := Py.b "RIFF" in
  Py.startswith data Routers.RIFF = true
  /\ Py.len data = 4
  /\ Py.bytes_eqb (Py.slice 8 12 data) Routers.WEBP = false
  /\ Routers.detect_format_from_magic_bytes data = Some "webp".
Proof.
  cbv zeta. split; [reflexivity|]. split; [reflexivity|].
  split; [reflexivity|].
  apply (riff_short_is_webp []). reflexivity.
Qed.

(** ** Upload validation *)

Section Validation.
Import Py Routers.

Lemma mem_sublist (s : string) :
  mem s ["heif"; "heic"; "avif"] = true -> mem s ALLOWED_EXTENSIONS = true.
Proof.
  unfold mem; simpl. intros H.
  repeat match type of H with
  | (?c || _) = true =>
      let E := fresh "E" in
      destruct c eqn:E;
      [apply String.eqb_eq in E; subst; reflexivity | simpl in H]
  end.
  discriminate.
Qed.

(** C6, as amended.  For an upload whose declared extension is heif, heic or
    avif and whose bytes sniff to a format tag, validation does not reject,
    and the format it resolves is the sniffed tag, whatever the extension
    says. *)
Theorem C6_sniffed_tag_is_returned (data : bytes) (filename tag : string) :
  mem (suffix_ext filename) ["heif"; "heic"; "avif"] = true ->
  detect_format_from_magic_bytes data = Some tag ->
  validate_image_file data filename = inr tag.
Proof.
  intros Hext Hsniff. unfold validate_image_file.
  destruct (String.eqb filename "") eqn:Hname.
  - apply String.eqb_eq in Hname. subst. discriminate Hext.
  - rewrite (mem_sublist _ Hext), andb_false_r. now rewrite Hsniff.
Qed.

Lemma C6_witness :
  validate_image_file Sample.png_upload "photo.heic" = inr "png".
Proof. apply C6_sniffed_tag_is_returned; reflexivity. Defined.

(** C6, as stated, fails: the declared extension is heic, the bytes sniff to
    png, and validation resolves png, not heic. *)
Lemma C6_extension_is_not_trusted :
  suffix_ext "photo.heic" = "heic"
  /\ detect_format_from_magic_bytes Sample.png_upload = Some "png"
  /\ validate_image_file Sample.png_upload "photo.heic" = inr "png"
  /\ validate_image_file Sample.png_upload "photo.heic" <> inr "heic".
Proof. repeat split. discriminate. Qed.

End Validation.

(** ** The quality search *)

Lemma quality_format_is_supported (fmt : string) :
  Py.mem fmt ImageService.QUALITY_FORMATS = true ->
  ImageService.dict_get fmt ImageService.SUPPORTED_FORMATS
  = Some (pil_format_of fmt).
Proof.
  unfold Py.mem, pil_format_of; simpl. intros H.
  repeat match type of H with
  | (?c || _) = true =>
      let E := fresh "E" in
      destruct c eqn:E;
      [apply String.eqb_eq in E; subst; reflexivity | simpl in H]
  end.
  discriminate.
Qed.

(** What [img.save] gives when the encoder accepts, and what it says of the
    encoder when it gives something. *)
Lemma save_runs (codec : PIL.Codec) (img : PIL.Image) (format : string)
  (kwargs : PIL.SaveKwargs) :
  PIL.save_accepts codec img format kwargs = true ->
  PIL.save codec img format kwargs
  = inr (PIL.image_save codec img format kwargs).
Proof. intros H. unfold PIL.save. now rewrite H. Qed.

Lemma save_returned (codec : PIL.Codec) (img : PIL.Image) (format : string)
  (kwargs : PIL.SaveKwargs) (written : Py.bytes) :
  PIL.save codec img format kwargs = inr written ->
  PIL.save_accepts codec img format kwargs = true
  /\ written = PIL.image_save codec img format kwargs.
Proof.
  unfold PIL.save. destruct (PIL.save_accepts _ _ _ _); [|discriminate].
  intros [= <-]. now split.
Qed.

Lemma save_refused (codec : PIL.Codec) (img : PIL.Image) (format : string)
  (kwargs : PIL.SaveKwargs) :
  PIL.save_accepts codec img format kwargs = false ->
  PIL.save codec img format kwargs = inl Py.CodecError.
Proof. intros H. unfold PIL.save. now rewrite H. Qed.

Section QualitySearchFacts.
Import Py PIL ImageService.

Variable codec : Codec.
Variable img : Image.
Variable fmt : string.
Variable target : number.

Hypothesis quality_capable : mem fmt QUALITY_FORMATS = true.

(** The encoder accepts the buffer at every quality it is probed at. *)
Hypothesis probes : probes_accepted codec img fmt.

Lemma probe_succeeds (q : Z) :
  _get_image_size_at_quality codec img fmt q
  = inr (probe_size codec img fmt q).
Proof.
  unfold probe_size, _get_image_size_at_quality, dict_item.
  rewrite (quality_format_is_supported fmt quality_capable).
  cbn [bind ret]. now rewrite (save_runs _ _ _ _ (probes q)).
Qed.

Lemma probe_is_encoded_size (q : Z) :
  probe_size codec img fmt q = encoded_size codec img fmt q (Some true).
Proof.
  unfold probe_size, _get_image_size_at_quality, dict_item, encoded_size.
  rewrite (quality_format_is_supported fmt quality_capable).
  cbn [bind ret]. now rewrite (save_runs _ _ _ _ (probes q)).
Qed.

(** The loop answers, and answers what the binary search of the
    specification answers from the same bounds. *)
Lemma quality_loop_refines (lo hi best : Z) :
  exists q,
    quality_loop codec img fmt target 1024 lo hi best = inr q
    /\ QualitySearch.binary_search (probe_size codec img fmt) target
         lo hi best q.
Proof.
  remember 1024 as tol eqn:Htol.
  funelim (quality_loop codec img fmt target tol lo hi best).
  - rewrite probe_succeeds.
    destruct (abs_diff_le _ target 1024) eqn:Hband.
    + eexists; split; [reflexivity|]. now apply QualitySearch.search_hit.
    + destruct (int_gt_num _ target) eqn:Hgt.
      * destruct (H 0) as (q & Hq & Hs).
        exists q; split; [exact Hq|].
        apply QualitySearch.search_lower; [assumption | now split | exact Hs].
      * destruct (H0 0) as (q & Hq & Hs).
        exists q; split; [exact Hq|].
        apply QualitySearch.search_higher; [assumption | now split | exact Hs].
  - eexists; split; [reflexivity|].
    apply QualitySearch.search_exhausted. lia.
Qed.

(** C1.  For every image buffer, quality-capable output format whose encoder
    accepts the buffer, and target byte size, [_find_optimal_quality]
    returns a quality, and that quality is the one the search of the
    specification names: 95 at once when the probe at 95 is at or below the
    target; otherwise the answer of the binary search on 1..95 that returns
    a midpoint within 1024 bytes of the target, moves the upper bound to
    midpoint-1 under a probe that is too large, records the midpoint and
    moves the lower bound to midpoint+1 over a probe that is too small, and
    answers the best-so-far, 85 at the start, when the bounds cross. *)
Theorem C1_find_optimal_quality_refines_search :
  exists q,
    _find_optimal_quality codec img fmt target 1024 = inr q
    /\ QualitySearch.search (probe_size codec img fmt) target q.
Proof.
  unfold _find_optimal_quality, QualitySearch.search,
    QualitySearch.meets_target.
  rewrite quality_capable. simpl negb. cbv iota.
  rewrite probe_succeeds. unfold bind.
  destruct (int_le_num (probe_size codec img fmt 95) target) eqn:H95.
  - exists 95. split; [reflexivity|]. left. now split.
  - destruct (quality_loop_refines 1 95 85) as (q & Hq & Hs).
    exists q. split; [exact Hq|]. right. split; [discriminate | exact Hs].
Qed.

End QualitySearchFacts.

Lemma C1_witness :
  exists q,
    ImageService._find_optimal_quality (Sample.codec 3000)
      (Sample.grey_image 200 150) "jpg" (Py.Int 8000) 1024 = inr q
    /\ QualitySearch.search
         (probe_size (Sample.codec 3000) (Sample.grey_image 200 150) "jpg")
         (Py.Int 8000) q.
Proof.
  apply C1_find_optimal_quality_refines_search;
    [reflexivity | intros q; reflexivity].
Defined.

(** The three verdicts on a probe, and the fast path, read on an integer
    byte budget. *)
Lemma verdicts_on_integer_budget (size_at : Z -> Z) (t q : Z) :
  (QualitySearch.meets_target size_at (Py.Int t) q <-> size_at q <= t)
  /\ (QualitySearch.within_tolerance size_at (Py.Int t) q
      <-> Z.abs (size_at q - t) <= 1024)
  /\ (QualitySearch.too_large size_at (Py.Int t) q <-> t + 1024 < size_at q)
  /\ (QualitySearch.too_small size_at (Py.Int t) q <-> size_at q < t - 1024).
Proof.
  unfold QualitySearch.meets_target, QualitySearch.within_tolerance,
    QualitySearch.too_large, QualitySearch.too_small,
    QualitySearch.tolerance; simpl.
  rewrite Z.leb_le, Z.leb_gt, Z.gtb_ltb, Z.ltb_lt, Z.ltb_ge. lia.
Qed.

(** The search of the specification names one quality at most. *)
Lemma binary_search_functional (size_at : Z -> Z) (target : Py.number)
  (lo hi best q q' : Z) :
  QualitySearch.binary_search size_at target lo hi best q ->
  QualitySearch.binary_search size_at target lo hi best q' ->
  q = q'.
Proof.
  intros Hs; revert q'.
  induction Hs; intros q' Hs'; inversion Hs'; subst;
    repeat match goal with
    | H : QualitySearch.too_large _ _ _ |- _ => destruct H
    | H : QualitySearch.too_small _ _ _ |- _ => destruct H
    | H : QualitySearch.within_tolerance _ _ _ |- _ =>
        unfold QualitySearch.within_tolerance in H
    end;
    try lia; try reflexivity; try congruence; auto.
Qed.

(** Its answer is the best-so-far it started from or lies between the
    bounds. *)
Lemma binary_search_range (size_at : Z -> Z) (target : Py.number)
  (lo hi best q : Z) :
  QualitySearch.binary_search size_at target lo hi best q ->
  q = best \/ lo <= q <= hi.
Proof.
  induction 1 as [| lo hi best Hle _ | lo hi best q Hle _ _ IH
                  | lo hi best q Hle _ _ IH]; [now left | | |];
    assert (lo <= QualitySearch.midpoint lo hi <= hi)
      by (unfold QualitySearch.midpoint;
          split; [apply Z.div_le_lower_bound | apply Z.div_le_upper_bound];
          lia).
  - now right.
  - destruct IH; [now left | right; lia].
  - destruct IH; right; lia.
Qed.

(** So is the answer of the loop, whenever it answers. *)
Lemma quality_loop_range (codec : PIL.Codec) (img : PIL.Image)
  (fmt : string) (target : Py.number) (tol lo hi best q : Z) :
  ImageService.quality_loop codec img fmt target tol lo hi best = inr q ->
  q = best \/ lo <= q <= hi.
Proof.
  funelim (ImageService.quality_loop codec img fmt target tol lo hi best).
  - assert (min_quality <= (min_quality + max_quality) / 2 <= max_quality)
      by (split; [apply Z.div_le_lower_bound | apply Z.div_le_upper_bound];
          lia).
    destruct (ImageService._get_image_size_at_quality _ _ _ _) as [e|size];
      [discriminate|].
    destruct (Py.abs_diff_le size target_size_bytes tolerance).
    + intros [= <-]. now right.
    + destruct (Py.int_gt_num size target_size_bytes); intros Hq.
      * destruct (H 0 _ Hq); [now left | right; lia].
      * destruct (H0 0 _ Hq); right; lia.
  - intros [= <-]. now left.
Qed.

(** The quality [_find_optimal_quality] returns is between 1 and 95. *)
Lemma find_optimal_quality_range (codec : PIL.Codec) (img : PIL.Image)
  (fmt : string) (target : Py.number) (q : Z) :
  ImageService._find_optimal_quality codec img fmt target 1024 = inr q ->
  1 <= q <= 95.
Proof.
  unfold ImageService._find_optimal_quality.
  destruct (Py.mem fmt ImageService.QUALITY_FORMATS) eqn:Hfmt; simpl negb;
    cbv iota; [|intros [= <-]; lia].
  destruct (ImageService._get_image_size_at_quality _ _ _ _) as [e|size];
    [discriminate|].
  cbn [Py.bind].
  destruct (Py.int_le_num _ target); [intros [= <-]; lia|].
  intros Hq. destruct (quality_loop_range _ _ _ _ _ _ _ _ _ Hq); lia.
Qed.

(** ** Compression to a target the quality cannot reach *)

Lemma gt_is_not_le (s : Z) (t : Py.number) :
  Py.int_gt_num s t = true -> Py.int_le_num s t = false.
Proof.
  destruct t as [z | x]; simpl.
  - rewrite Z.gtb_ltb, Z.ltb_lt, Z.leb_gt. lia.
  - unfold Py.float_lt_int, Py.float_ge_int.
    now destruct (Py.float_cmp_int x s) as [[]|].
Qed.

Lemma first_within_in_range (size_at : Z -> Z) (t : Py.number) :
  1 <= first_within_tolerance size_at t [48; 24; 12; 6; 3; 1] 85 <= 95.
Proof.
  unfold first_within_tolerance; simpl.
  repeat match goal with
  | |- context [if ?c then _ else _] => destruct c
  end; lia.
Qed.

Section Unreachable.
Import Py PIL ImageService.

Variable codec : Codec.
Variable img : Image.
Variable fmt : string.
Variable target : number.

Hypothesis quality_capable : mem fmt QUALITY_FORMATS = true.
Hypothesis probes : probes_accepted codec img fmt.

(** Every probe between 1 and 95 is above the target. *)
Hypothesis all_above :
  forall q, 1 <= q <= 95 ->
    int_gt_num (probe_size codec img fmt q) target = true.

(** One step down: the midpoint is inside the band, or the search goes on
    below it. *)
Ltac descend :=
  lazymatch goal with
  | |- QualitySearch.binary_search _ _ ?lo ?hi _ _ =>
      let m := eval vm_compute in (QualitySearch.midpoint lo hi) in
      change (QualitySearch.midpoint lo hi) with m;
      unfold first_within_tolerance; simpl find;
      destruct (abs_diff_le (probe_size codec img fmt m) target 1024) eqn:?;
      [ apply (QualitySearch.search_hit _ _ lo hi); [lia | assumption]
      | apply QualitySearch.search_lower;
        [ lia
        | split; [assumption | apply all_above; vm_compute; split; discriminate]
        | change (QualitySearch.midpoint lo hi - 1)
            with (Z.pred m); simpl Z.pred ] ]
  end.

(** The probes go 48, 24, 12, 6, 3, 1, and stop at the first one within
    tolerance. *)
Lemma search_descends :
  QualitySearch.binary_search (probe_size codec img fmt) target 1 95 85
    (first_within_tolerance (probe_size codec img fmt) target
       [48; 24; 12; 6; 3; 1] 85).
Proof.
  do 6 descend.
  apply QualitySearch.search_exhausted. lia.
Qed.

(** With every probe above the target, the search answers the first of the
    midpoints 48, 24, 12, 6, 3, 1 that is within tolerance, and 85 when none
    is. *)
Lemma find_optimal_quality_unreachable :
  _find_optimal_quality codec img fmt target 1024
  = inr (first_within_tolerance (probe_size codec img fmt) target
           [48; 24; 12; 6; 3; 1] 85).
Proof.
  unfold _find_optimal_quality.
  rewrite quality_capable. simpl negb. cbv iota.
  rewrite (probe_succeeds codec img fmt quality_capable probes). unfold bind.
  rewrite gt_is_not_le by (apply all_above; lia).
  destruct (quality_loop_refines codec img fmt target quality_capable probes
              1 95 85) as (q & Hq & Hs).
  rewrite Hq. f_equal.
  exact (binary_search_functional _ _ _ _ _ _ _ Hs search_descends).
Qed.

End Unreachable.

Section Compression.
Import Py PIL ImageService.

Variable codec : Codec.
Variable fs : FS.
Variables input_path output_path : string.
Variable content : bytes.
Variable decoded : Image.
Variable target_size_kb : float.
Variable quality : Z.
Variable max_dimension : option Z.

Let fmt : string := suffix_ext output_path.
Let target : number := Float (target_size_kb * float_of_Z 1024).
Let img : Image := compress_buffer codec fmt max_dimension decoded.

(** The input file is there, is not empty, has a supported extension and
    decodes; the output extension names a format with a quality. *)
Hypothesis input_exists : fs input_path = Some content.
Hypothesis input_not_empty : content <> [].
Hypothesis input_supported :
  dict_mem (suffix_ext input_path) SUPPORTED_FORMATS = true.
Hypothesis quality_capable : mem fmt QUALITY_FORMATS = true.
Hypothesis input_decodes : image_open codec content = Some decoded.

(** The encoder accepts the buffer, probed or written, at every quality. *)
Hypothesis probes : probes_accepted codec img fmt.
Hypothesis writes : forall q, encodable codec img fmt q.

(** Every quality from 1 to 95 encodes the buffer above the target. *)
Hypothesis unreachable :
  forall q optimize, 1 <= q <= 95 ->
    int_gt_num (encoded_size codec img fmt q optimize) target = true.

(** C3, as amended.  For every compression request to a quality-capable
    format whose encoder accepts the buffer and whose target is below the
    encoding of the buffer at every quality from 1 to 95 (as it is when even
    quality 1 exceeds it), [compress_image] completes and reports success;
    the final quality it reports and encodes the output at is the first of
    the probed midpoints 48, 24, 12, 6, 3, 1 whose probe is within 1024
    bytes of the target, and 85, the default best-so-far, when none is; the
    output file holds that encoding and its size, as reported, is above the
    target. *)
Theorem C3_unreachable_target_is_soft :
  let final_quality :=
    first_within_tolerance (fun q => encoded_size codec img fmt q (Some true))
      target [48; 24; 12; 6; 3; 1] 85 in
  let encoded :=
    image_save codec img (pil_format_of fmt)
      (save_kwargs_for fmt final_quality) in
  exists r fs',
    compress_image codec fs input_path output_path (Some target_size_kb)
      quality max_dimension = inr (r, fs')
    /\ cmp_success r = true
    /\ cmp_final_quality r = final_quality
    /\ fs' output_path = Some encoded
    /\ cmp_output_size r = len encoded
    /\ int_gt_num (cmp_output_size r) target = true.
Proof.
  intros final_quality encoded.
  assert (Hsearch :
    _find_optimal_quality codec img fmt target 1024 = inr final_quality).
  { rewrite find_optimal_quality_unreachable; [|assumption|assumption|].
    - unfold final_quality, first_within_tolerance; simpl find.
      now rewrite !(probe_is_encoded_size codec img fmt quality_capable
                      probes).
    - intros q Hq.
      rewrite (probe_is_encoded_size codec img fmt quality_capable probes).
      now apply unreachable. }
  assert (Hsupported : dict_mem fmt SUPPORTED_FORMATS = true).
  { unfold dict_mem.
    now rewrite (quality_format_is_supported fmt quality_capable). }
  assert (Hlen : (len content =? 0) = false).
  { apply Z.eqb_neq. unfold len.
    destruct content; [contradiction | simpl; lia]. }
  unfold compress_image. rewrite input_exists.
  fold fmt. rewrite input_supported, Hsupported.
  unfold or_codec_error. rewrite input_decodes.
  cbn [negb raise_if bind ret].
  change (match max_dimension with
          | Some d =>
              if exceeds max_dimension (alpha_flatten WHITE fmt decoded)
              then image_thumbnail codec (alpha_flatten WHITE fmt decoded)
                     (d, d)
              else alpha_flatten WHITE fmt decoded
          | None => alpha_flatten WHITE fmt decoded
          end) with img.
  fold target. rewrite Hsearch.
  unfold dict_item.
  rewrite (quality_format_is_supported fmt quality_capable).
  cbn [bind ret].
  rewrite (save_runs _ _ _ _ (writes final_quality)).
  unfold int_truediv. rewrite Hlen.
  cbn [bind ret try_except].
  eexists _, _. split; [reflexivity|]. simpl.
  assert (Hsize :
    getsize (fs_write fs output_path encoded) output_path = len encoded).
  { unfold getsize, fs_write. now rewrite String.eqb_refl. }
  fold encoded. rewrite Hsize.
  repeat split.
  - unfold fs_write. now rewrite String.eqb_refl.
  - unfold encoded, save_kwargs_for. rewrite quality_capable.
    apply (unreachable final_quality). apply first_within_in_range.
Qed.

End Compression.

(** The target of 20 KB against an encoder that never goes below 30 000
    bytes. *)
Lemma sample_encoder_size (base q : Z) (img : PIL.Image) (fmt : string)
  (optimize : option bool) :
  0 <= base -> 0 <= q ->
  encoded_size (Sample.codec base) img fmt q optimize = base + 100 * q.
Proof.
  intros Hb Hq. unfold encoded_size, Py.len.
  cbn [PIL.image_save Sample.codec]. unfold Sample.raw_save.
  cbn [PIL.kw_quality]. rewrite repeat_length. lia.
Qed.

Lemma twenty_kb_is_unreachable (img : PIL.Image) (q : Z)
  (optimize : option bool) :
  1 <= q <= 95 ->
  Py.int_gt_num (encoded_size (Sample.codec 30000) img "jpg" q optimize)
    (Py.Float (20 * Py.float_of_Z 1024)) = true.
Proof.
  intros Hq. rewrite sample_encoder_size by lia.
  unfold Py.int_gt_num, Py.float_lt_int, Py.float_cmp_int.
  let x := eval vm_compute in (Prim2SF (20 * Py.float_of_Z 1024)%float) in
  change (Prim2SF (20 * Py.float_of_Z 1024)%float) with x.
  cbv beta iota.
  change (0 <=? -38) with false. cbv iota.
  replace (_ ?= _) with Lt; [reflexivity|].
  symmetry. apply Z.compare_lt_iff.
  change (2 ^ (- -38)) with 274877906944. lia.
Qed.

Lemma C3_witness :
  exists r fs',
    ImageService.compress_image (Sample.codec 30000) Sample.fs
      "photo.png" "out.jpg" (Some 20%float) 85 None = inr (r, fs')
    /\ ImageService.cmp_success r = true
    /\ ImageService.cmp_final_quality r = 85
    /\ Py.int_gt_num (ImageService.cmp_output_size r)
         (Py.Float (20 * Py.float_of_Z 1024)) = true.
Proof.
  destruct (C3_unreachable_target_is_soft (Sample.codec 30000) Sample.fs
              "photo.png" "out.jpg" Sample.rgb_200x150
              (Sample.grey_image 200 150) 20%float 85 None
              eq_refl ltac:(discriminate) eq_refl eq_refl eq_refl
              (fun q => eq_refl) (fun q => eq_refl)
              (fun q optimize Hq =>
                 twenty_kb_is_unreachable _ q optimize Hq))
    as (r & fs' & Hrun & Hok & Hq & _ & _ & Hgt).
  exists r, fs'. split; [exact Hrun|]. split; [exact Hok|].
  split; [|exact Hgt].
  rewrite Hq. vm_compute. reflexivity.
Defined.

(** C3, as stated, fails: quality 1 encodes to 30 100 bytes, above the
    20 480 of the target, the request succeeds, and the quality reported is
    85, whose encoding of 38 500 bytes is the output. *)
Lemma C3_unreachable_target_reports_85 :
  encoded_size (Sample.codec 30000) (Sample.grey_image 200 150) "jpg" 1
    (Some true) = 30100
  /\ Py.float_cmp_int (20 * Py.float_of_Z 1024) 20480 = Some Eq
  /\ match
       ImageService.compress_image (Sample.codec 30000) Sample.fs
         "photo.png" "out.jpg" (Some 20%float) 85 None
     with
     | inr (r, _) =>
         ImageService.cmp_success r = true
         /\ ImageService.cmp_final_quality r = 85
         /\ ImageService.cmp_output_size r = 38500
     | inl _ => False
     end.
Proof. vm_compute. repeat split. Qed.

(** ** The steps of the pipeline *)

Lemma dict_mem_get (fmt : string) :
  ImageService.dict_mem fmt ImageService.SUPPORTED_FORMATS = true ->
  ImageService.dict_get fmt ImageService.SUPPORTED_FORMATS
  = Some (pil_format_of fmt).
Proof.
  unfold ImageService.dict_mem, pil_format_of.
  now destruct (ImageService.dict_get fmt ImageService.SUPPORTED_FORMATS).
Qed.

Lemma opened_file_exists (codec : PIL.Codec) (fs : ImageService.FS)
  (input_path : string) (svg_scale : float) (img : PIL.Image) :
  ImageService._open_image codec fs input_path svg_scale = inr img ->
  ImageService.is_some (fs input_path) = true.
Proof.
  unfold ImageService._open_image. now destruct (fs input_path).
Qed.

Lemma alpha_flatten_size (background : list Z) (fmt : string)
  (img : PIL.Image) :
  PIL.size (ImageService.alpha_flatten background fmt img) = PIL.size img.
Proof.
  unfold ImageService.alpha_flatten.
  now destruct (_ && _).
Qed.

Ltac to_arith :=
  repeat match goal with
  | H : (_ >? _) = true |- _ => rewrite Z.gtb_ltb, Z.ltb_lt in H
  | H : (_ >? _) = false |- _ => rewrite Z.gtb_ltb, Z.ltb_ge in H
  | H : (_ >=? _) = true |- _ => rewrite Z.geb_leb, Z.leb_le in H
  | H : (_ >=? _) = false |- _ => rewrite Z.geb_leb, Z.leb_gt in H
  | H : (_ <=? _) = true |- _ => rewrite Z.leb_le in H
  | H : (_ <=? _) = false |- _ => rewrite Z.leb_gt in H
  | H : (_ <? _) = true |- _ => rewrite Z.ltb_lt in H
  | H : (_ <? _) = false |- _ => rewrite Z.ltb_ge in H
  end.

Section Pipeline.
Import Py PIL ImageService.

Variable codec : Codec.
Variable p : Params.

Lemma rotate_step_absent (st : Image * list Operation) :
  no_rotate p -> rotate_step codec p st = inr st.
Proof. intros H. destruct st. unfold rotate_step. now rewrite H. Qed.

Lemma flip_step_absent (st : Image * list Operation) :
  no_flip p -> flip_step p st = inr st.
Proof. intros H. destruct st. unfold flip_step. now rewrite H. Qed.

Lemma crop_step_absent (st : Image * list Operation) :
  no_crop p -> crop_step p st = inr st.
Proof. intros H. destruct st. unfold crop_step. now rewrite H. Qed.

Lemma resize_step_absent (st : Image * list Operation) :
  no_resize p -> resize_step codec p st = inr st.
Proof.
  intros (Hw & Hh & Hs). destruct st. unfold resize_step.
  now rewrite Hw, Hh, Hs.
Qed.

Variable image_bytes : bytes.
Variable input_format : string.
Variable decoded : Image.

Hypothesis accepted : decodes_to codec image_bytes input_format p decoded.

(** [process_image_bytes] once the formats are accepted and the input is
    decoded: the four steps, the log, the save of a buffer the encoder
    accepts. *)
Lemma process_image_bytes_runs (img : Image) (ops : list Operation) :
  let fmt := resolved_output_format input_format p in
  let encoded :=
    image_save codec (alpha_flatten WHITE fmt img) (pil_format_of fmt)
      (save_kwargs_for fmt (quality p)) in
  transform codec p (decoded, []) = inr (img, ops) ->
  encodable codec (alpha_flatten WHITE fmt img) fmt (quality p) ->
  process_image_bytes codec image_bytes input_format p
  = inr {| success := true;
           output_bytes := encoded;
           original_size := size decoded;
           output_size := size img;
           input_bytes_size := len image_bytes;
           output_bytes_size := len encoded;
           operations_applied :=
             match ops with
             | [] => [OpConvert fmt]
             | _ => ops
             end;
           result_format := fmt |}.
Proof.
  intros fmt encoded Hsteps Hsave. destruct accepted as (Hin & Hout & Hopen).
  unfold process_image_bytes.
  fold (resolved_output_format input_format p). fold fmt.
  fold fmt in Hout. rewrite Hin, Hout, Hopen. cbn [negb raise_if bind ret].
  rewrite Hsteps. cbn [bind].
  unfold _save_image_to_bytes. fold (pil_format_of fmt).
  rewrite (save_runs _ _ _ _ Hsave). reflexivity.
Qed.

(** The same run when the encoder refuses the buffer the steps produced. *)
Lemma process_image_bytes_refused (img : Image) (ops : list Operation) :
  let fmt := resolved_output_format input_format p in
  transform codec p (decoded, []) = inr (img, ops) ->
  save_accepts codec (alpha_flatten WHITE fmt img) (pil_format_of fmt)
    (save_kwargs_for fmt (quality p)) = false ->
  process_image_bytes codec image_bytes input_format p
  = inl (Exception CodecError).
Proof.
  intros fmt Hsteps Hsave. destruct accepted as (Hin & Hout & Hopen).
  unfold process_image_bytes.
  fold (resolved_output_format input_format p). fold fmt.
  fold fmt in Hout. rewrite Hin, Hout, Hopen. cbn [negb raise_if bind ret].
  rewrite Hsteps. cbn [bind].
  unfold _save_image_to_bytes. fold (pil_format_of fmt).
  rewrite (save_refused _ _ _ _ Hsave). reflexivity.
Qed.

(** A [ValueError] of a step is the [ValueError] of the request. *)
Lemma process_image_bytes_rejects (why : Reason) :
  transform codec p (decoded, []) = inl (ValueError why) ->
  process_image_bytes codec image_bytes input_format p
  = inl (ValueError why).
Proof.
  intros Hsteps. destruct accepted as (Hin & Hout & Hopen).
  unfold process_image_bytes.
  fold (resolved_output_format input_format p).
  rewrite Hin, Hout, Hopen. cbn [negb raise_if bind ret].
  rewrite Hsteps. reflexivity.
Qed.

End Pipeline.

(** ** Quarter turns *)

(** A float equals one integer at most. *)
Lemma float_eq_int_functional (x : float) (a b : Z) :
  Py.float_eq_int x a = true -> Py.float_eq_int x b = true -> a = b.
Proof.
  unfold Py.float_eq_int, Py.float_cmp_int.
  destruct (Prim2SF x) as [s | s | | s m e]; try discriminate.
  - destruct (0 ?= a) eqn:Ha; try discriminate.
    destruct (0 ?= b) eqn:Hb; try discriminate.
    apply Z.compare_eq in Ha, Hb. lia.
  - destruct s; discriminate.
  - destruct (0 <=? e) eqn:He.
    + destruct (_ ?= a) eqn:Ha; try discriminate.
      destruct (_ ?= b) eqn:Hb; try discriminate.
      apply Z.compare_eq in Ha, Hb. lia.
    + destruct (_ ?= a * _) eqn:Ha; try discriminate.
      destruct (_ ?= b * _) eqn:Hb; try discriminate.
      apply Z.compare_eq in Ha, Hb. apply Z.leb_gt in He.
      assert (0 < 2 ^ (- e)) by (apply Z.pow_pos_nonneg; lia).
      nia.
Qed.

Lemma float_eq_int_excludes (x : float) (a b : Z) :
  Py.float_eq_int x a = true -> a <> b -> Py.float_eq_int x b = false.
Proof.
  intros Ha Hab. destruct (Py.float_eq_int x b) eqn:Hb; [|reflexivity].
  now destruct (Hab (float_eq_int_functional x a b Ha Hb)).
Qed.

Section QuarterTurn.
Import Py PIL ImageService.

Variable codec : Codec.
Variable angle : float.

Let normalized_angle : float := float_mod_int angle 360.

Hypothesis quarter : is_quarter_turn angle.

Lemma quarter_is_right_angle :
  is_right_angle normalized_angle = true
  /\ float_eq_int normalized_angle 0 = false.
Proof.
  unfold is_right_angle; simpl.
  destruct quarter as [H | H]; fold normalized_angle in H;
    rewrite H, ?orb_true_r;
    (split; [reflexivity|]);
    apply (float_eq_int_excludes _ _ _ H); discriminate.
Qed.

Lemma quarter_turn_transposes (img : Image) :
  quarter_turn normalized_angle img
  = transpose (quarter_method normalized_angle) img.
Proof.
  unfold quarter_turn, quarter_method.
  destruct quarter as [H | H]; fold normalized_angle in H.
  - now rewrite H.
  - rewrite (float_eq_int_excludes _ _ 90 H) by discriminate.
    rewrite (float_eq_int_excludes _ _ 180 H) by discriminate.
    now rewrite H.
Qed.

Lemma quarter_swaps_size (img : Image) :
  size (transpose (quarter_method normalized_angle) img)
  = (height img, width img).
Proof. unfold quarter_method. now destruct (float_eq_int _ 90). Qed.

Lemma rotate_step_quarter (p : Params) (img : Image)
  (ops : list Operation) :
  rotate_angle p = Some angle ->
  rotate_step codec p (img, ops)
  = inr (transpose (quarter_method normalized_angle) img,
         ops ++ [OpRotate angle]).
Proof.
  intros Hangle. unfold rotate_step. rewrite Hangle.
  fold normalized_angle.
  destruct quarter_is_right_angle as [-> ->].
  cbn [andb negb bind ret]. now rewrite quarter_turn_transposes.
Qed.

(** [rotate_image] at a quarter turn: the buffer it hands to the encoder is
    the transposed image, flattened over the fill colour if need be, and the
    file it writes is the encoding of that buffer. *)
Lemma rotate_image_quarter (fs : FS) (input_path output_path : string)
  (expand : bool) (fill_color : list Z) (quality : Z) (svg_scale : float)
  (img : Image) :
  let fmt := suffix_ext output_path in
  let turned :=
    alpha_flatten fill_color fmt
      (transpose (quarter_method normalized_angle) img) in
  let encoded :=
    image_save codec turned (pil_format_of fmt)
      (save_kwargs_for fmt quality) in
  opens_to codec fs input_path output_path svg_scale img ->
  encodable codec turned fmt quality ->
  rotate_image codec fs input_path output_path angle expand fill_color
    quality svg_scale
  = inr ({| rot_success := true;
            rot_original_size := size img;
            rot_output_size := (height img, width img);
            rot_input_file_size := getsize fs input_path;
            rot_output_file_size := len encoded;
            rot_angle := angle;
            rot_expanded := false |},
         fs_write fs output_path encoded).
Proof.
  intros fmt turned encoded (Hin & Hout & Hopen) Hsave. unfold rotate_image.
  rewrite (opened_file_exists codec fs input_path svg_scale img Hopen).
  rewrite Hin, Hout. cbn [negb raise_if bind ret]. rewrite Hopen.
  cbn [bind]. fold normalized_angle.
  destruct quarter_is_right_angle as [-> ->].
  cbn [andb negb bind ret]. rewrite quarter_turn_transposes.
  unfold dict_item. rewrite (dict_mem_get _ Hout).
  cbn [bind ret]. fold fmt. fold turned.
  rewrite (save_runs _ _ _ _ Hsave). fold encoded.
  cbn [bind ret try_except].
  unfold turned at 1. rewrite alpha_flatten_size, quarter_swaps_size.
  rewrite andb_false_r.
  unfold getsize at 2. unfold fs_write at 1. rewrite String.eqb_refl.
  reflexivity.
Qed.

End QuarterTurn.

(** C8, as amended.  For every request whose rotation angle is 90 or 270
    modulo 360: the rotation step of [process_image_bytes] is the
    transposition by that quarter turn, the width of its result is the
    height of its input and conversely, and the log gains the one entry of
    the rotation; the step is the same under any [rotate_expand] and any
    codec, and no fill colour is part of it.  When the request asks for
    nothing else and the encoder accepts the buffer, [process_image_bytes]
    succeeds with the width and height of the decoded image exchanged, a log
    of exactly that entry, and the encoding of the transposed image,
    flattened over white if need be, as its bytes.  [rotate_image], when the
    encoder accepts the buffer, returns the exchanged size with [expanded]
    false whatever [expand], and writes the encoding of the transposed
    image to the output file and to no other; the fill colour is read by the
    flattening alone, so that the file is the encoding of the transposed
    image itself unless the image is RGBA and the format has no alpha. *)
Theorem C8_quarter_turn_is_a_transpose (codec : PIL.Codec)
  (p : ImageService.Params) (angle : float) :
  ImageService.rotate_angle p = Some angle ->
  is_quarter_turn angle ->
  let method := quarter_method (Py.float_mod_int angle 360) in
  (forall img ops,
     ImageService.rotate_step codec p (img, ops)
     = inr (PIL.transpose method img, ops ++ [ImageService.OpRotate angle])
     /\ PIL.size (PIL.transpose method img) = (PIL.height img, PIL.width img)
     /\ forall codec' expand,
          ImageService.rotate_step codec' (with_rotate_expand expand p)
            (img, ops)
          = ImageService.rotate_step codec p (img, ops))
  /\ (forall image_bytes input_format decoded,
        no_flip p -> no_crop p -> no_resize p ->
        decodes_to codec image_bytes input_format p decoded ->
        let fmt := resolved_output_format input_format p in
        let turned :=
          ImageService.alpha_flatten ImageService.WHITE fmt
            (PIL.transpose method decoded) in
        encodable codec turned fmt (ImageService.quality p) ->
        exists r,
          ImageService.process_image_bytes codec image_bytes input_format p
          = inr r
          /\ ImageService.success r = true
          /\ ImageService.original_size r = PIL.size decoded
          /\ ImageService.output_size r
             = (PIL.height decoded, PIL.width decoded)
          /\ ImageService.operations_applied r
             = [ImageService.OpRotate angle]
          /\ ImageService.output_bytes r
             = PIL.image_save codec turned (pil_format_of fmt)
                 (ImageService.save_kwargs_for fmt (ImageService.quality p)))
  /\ (forall fs input_path output_path expand fill_color quality svg_scale
        img,
        opens_to codec fs input_path output_path svg_scale img ->
        let fmt := Py.suffix_ext output_path in
        let turned :=
          ImageService.alpha_flatten fill_color fmt
            (PIL.transpose method img) in
        let encoded :=
          PIL.image_save codec turned (pil_format_of fmt)
            (ImageService.save_kwargs_for fmt quality) in
        encodable codec turned fmt quality ->
        (exists r fs',
           ImageService.rotate_image codec fs input_path output_path angle
             expand fill_color quality svg_scale = inr (r, fs')
           /\ ImageService.rot_success r = true
           /\ ImageService.rot_original_size r = PIL.size img
           /\ ImageService.rot_output_size r
              = (PIL.height img, PIL.width img)
           /\ ImageService.rot_expanded r = false
           /\ ImageService.rot_output_file_size r = Py.len encoded
           /\ fs' output_path = Some encoded
           /\ forall path, path <> output_path -> fs' path = fs path)
        /\ (PIL.mode img <> "RGBA"
            \/ Py.mem fmt ImageService.no_alpha_formats = false ->
            turned = PIL.transpose method img)).
Proof.
  intros Hangle Hquarter method. split; [|split].
  - intros img ops. split; [|split].
    + now apply rotate_step_quarter.
    + now apply quarter_swaps_size.
    + intros codec' expand.
      rewrite (rotate_step_quarter codec' angle Hquarter
                 (with_rotate_expand expand p) img ops Hangle).
      now rewrite (rotate_step_quarter codec angle Hquarter p img ops Hangle).
  - intros image_bytes input_format decoded Hflip Hcrop Hresize Haccepted
      fmt turned Hsave.
    eexists. split.
    + apply (process_image_bytes_runs codec p image_bytes input_format
               decoded Haccepted (PIL.transpose method decoded)
               [ImageService.OpRotate angle]); [|exact Hsave].
      unfold ImageService.transform.
      rewrite (rotate_step_quarter codec angle Hquarter p _ _ Hangle).
      cbn [Py.bind].
      rewrite flip_step_absent by assumption. cbn [Py.bind].
      rewrite crop_step_absent by assumption. cbn [Py.bind].
      now apply resize_step_absent.
    + cbn. repeat split. now apply quarter_swaps_size.
  - intros fs input_path output_path expand fill_color quality svg_scale
      img Hopens fmt turned encoded Hsave.
    split.
    + eexists _, _. split.
      * exact (rotate_image_quarter codec angle Hquarter fs input_path
                 output_path expand fill_color quality svg_scale img Hopens
                 Hsave).
      * cbn. repeat (split; [reflexivity|]).
        unfold ImageService.fs_write. rewrite String.eqb_refl.
        split; [reflexivity|].
        intros path Hpath. apply String.eqb_neq in Hpath. now rewrite Hpath.
    + unfold turned, ImageService.alpha_flatten.
      intros [Hmode | Hfmt].
      * destruct (String.eqb_spec (PIL.mode (PIL.transpose method img))
                    "RGBA") as [E|_]; [|reflexivity].
        exfalso. apply Hmode. rewrite <- E. unfold method, quarter_method.
        now destruct (Py.float_eq_int _ 90).
      * now rewrite Hfmt, andb_false_r.
Qed.

(** The scenario of the specification: 200 by 150, [rotate=90] only. *)
Lemma C8_witness :
  exists r,
    ImageService.process_image_bytes (Sample.codec 3000) Sample.rgb_200x150
      "png" Sample.rotate_90_only = inr r
    /\ ImageService.output_size r = (150, 200)
    /\ ImageService.operations_applied r = [ImageService.OpRotate 90].
Proof.
  destruct (C8_quarter_turn_is_a_transpose (Sample.codec 3000)
              Sample.rotate_90_only 90%float eq_refl (or_introl eq_refl))
    as (_ & Hpipeline & _).
  destruct (Hpipeline Sample.rgb_200x150 "png" (Sample.grey_image 200 150)
              eq_refl eq_refl (conj eq_refl (conj eq_refl eq_refl))
              (conj eq_refl (conj eq_refl eq_refl)) eq_refl)
    as (r & Hrun & _ & _ & Hsize & Hops & _).
  exists r. split; [exact Hrun|]. split; [exact Hsize | exact Hops].
Defined.

(** C8, as stated, fails: [rotate_image] does consult the fill colour at a
    quarter turn.  A fully transparent RGBA image turned by 90 degrees and
    written as jpg is flattened over the fill colour after the turn: with
    the fill colour black the buffer encoded is black, with the default
    white it is white, and the two files differ. *)
Lemma C8_fill_colour_is_read_at_a_quarter_turn :
  is_quarter_turn 90
  /\ ImageService._open_image Sample.pixel_codec Sample.layers "layer.png" 1
     = inr Sample.rgba_image
  /\ match
       ImageService.rotate_image Sample.pixel_codec Sample.layers
         "layer.png" "out.jpg" 90 true [0; 0; 0] 95 1,
       ImageService.rotate_image Sample.pixel_codec Sample.layers
         "layer.png" "out.jpg" 90 true [255; 255; 255] 95 1
     with
     | inr (r_black, fs_black), inr (r_white, fs_white) =>
         ImageService.rot_output_size r_black = (80, 80)
         /\ ImageService.rot_output_size r_white = (80, 80)
         /\ fs_black "out.jpg" = Some [x00; x00; x00]
         /\ fs_white "out.jpg" = Some [xff; xff; xff]
     | _, _ => False
     end.
Proof. vm_compute. repeat split. left; reflexivity. Qed.

(** ** Crop *)

Section Crop.
Import Py PIL ImageService.

Variable codec : Codec.
Variables x y width height : Z.
Variables W H : Z.

(** A crop request as the request surface types it: the origin is not
    negative, the extent is positive. *)
Hypothesis origin_not_negative : 0 <= x /\ 0 <= y.
Hypothesis extent_positive : 0 < width /\ 0 < height.

Section OnFile.

Variable fs : FS.
Variables input_path output_path : string.
Variable quality : Z.
Variable svg_scale : float.
Variable img : Image.

Hypothesis opens : opens_to codec fs input_path output_path svg_scale img.
Hypothesis sized : size img = (W, H).

(** [crop_image] past its preliminary checks. *)
Lemma crop_image_prologue :
  crop_image codec fs input_path output_path x y width height quality
    svg_scale
  = try_except
      (_ <- raise_if (x >=? W) (ValueError (CropXOutside x W)) ;;
       _ <- raise_if (y >=? H) (ValueError (CropYOutside y H)) ;;
       let x2 := x + width in
       let y2 := y + height in
       let '(x2, adjusted, adjustment_messages) :=
         if x2 >? W then
           (W, true, [WidthAdjusted width (W - x) (x2 - W)])
         else (x2, false, []) in
       let '(y2, adjusted, adjustment_messages) :=
         if y2 >? H then
           (H, true,
            adjustment_messages ++ [HeightAdjusted height (H - y) (y2 - H)])
         else (y2, adjusted, adjustment_messages) in
       let cropped_img :=
         alpha_flatten WHITE (suffix_ext output_path)
           (crop (x, y, x2, y2) img) in
       written <- save codec cropped_img
                    (pil_format_of (suffix_ext output_path))
                    (save_kwargs_for (suffix_ext output_path) quality) ;;
       let fs' := fs_write fs output_path written in
       ret ({| crp_success := true;
               crp_original_size := (W, H);
               crp_crop_box := (x, y, x2, y2);
               crp_output_size := (x2 - x, y2 - y);
               crp_input_file_size := getsize fs input_path;
               crp_output_file_size := getsize fs' output_path;
               crp_adjusted := adjusted;
               crp_adjustment_message := adjustment_messages |}, fs'))
      reraise_or_wrap.
Proof.
  destruct opens as (Hin & Hout & Hopen).
  unfold crop_image.
  rewrite (opened_file_exists codec fs input_path svg_scale img Hopen).
  rewrite Hin, Hout.
  destruct origin_not_negative as [Hx Hy].
  destruct extent_positive as [Hw Hh].
  replace (x <? 0) with false by (symmetry; apply Z.ltb_ge; lia).
  replace (y <? 0) with false by (symmetry; apply Z.ltb_ge; lia).
  replace (width <=? 0) with false by (symmetry; apply Z.leb_gt; lia).
  replace (height <=? 0) with false by (symmetry; apply Z.leb_gt; lia).
  cbn [negb orb raise_if bind ret].
  rewrite Hopen. cbn [bind]. rewrite sized.
  unfold dict_item. rewrite (dict_mem_get _ Hout).
  destruct (x >=? W); [reflexivity|].
  destruct (y >=? H); [reflexivity|].
  cbn [raise_if bind ret].
  destruct (x + width >? W); destruct (y + height >? H); reflexivity.
Qed.

(** The crop of a request whose origin is inside the image: the file
    written is the encoding of the clamped rectangle. *)
Lemma crop_image_inside :
  let fmt := suffix_ext output_path in
  let cropped :=
    alpha_flatten WHITE fmt
      (crop (x, y, Z.min (x + width) W, Z.min (y + height) H) img) in
  let encoded :=
    image_save codec cropped (pil_format_of fmt)
      (save_kwargs_for fmt quality) in
  x < W -> y < H ->
  encodable codec cropped fmt quality ->
  exists r,
    crop_image codec fs input_path output_path x y width height quality
      svg_scale = inr (r, fs_write fs output_path encoded)
    /\ crp_success r = true
    /\ crp_crop_box r = (x, y, Z.min (x + width) W, Z.min (y + height) H)
    /\ crp_output_size r
       = (Z.min (x + width) W - x, Z.min (y + height) H - y)
    /\ (crp_adjusted r = true <-> W < x + width \/ H < y + height)
    /\ List.length (crp_adjustment_message r)
       = Nat.add (if W <? x + width then 1%nat else 0%nat)
           (if H <? y + height then 1%nat else 0%nat)
    /\ crp_output_file_size r = len encoded.
Proof.
  intros fmt cropped encoded Hx Hy Hsave. rewrite crop_image_prologue.
  replace (x >=? W) with false by (symmetry; rewrite Z.geb_leb, Z.leb_gt; lia).
  replace (y >=? H) with false by (symmetry; rewrite Z.geb_leb, Z.leb_gt; lia).
  cbn [raise_if bind ret].
  assert (Hsize : forall data,
             getsize (fs_write fs output_path data) output_path = len data)
    by (intros; unfold getsize, fs_write; now rewrite String.eqb_refl).
  unfold encodable in Hsave. subst encoded cropped. fold fmt.
  rewrite !Z.gtb_ltb.
  destruct (W <? x + width) eqn:Ex; destruct (H <? y + height) eqn:Ey;
    to_arith;
    [ rewrite (Z.min_r (x + width) W), (Z.min_r (y + height) H) in * by lia
    | rewrite (Z.min_r (x + width) W), (Z.min_l (y + height) H) in * by lia
    | rewrite (Z.min_l (x + width) W), (Z.min_r (y + height) H) in * by lia
    | rewrite (Z.min_l (x + width) W), (Z.min_l (y + height) H) in * by lia ];
    rewrite (save_runs _ _ _ _ Hsave); cbn [bind ret try_except];
    rewrite Hsize;
    (eexists; split; [reflexivity|]; cbn;
     repeat split; try (intros; lia); try discriminate).
Qed.

(** The same crop when the encoder refuses the rectangle: a plain
    [Exception], not the [ValueError] of a request that is rejected. *)
Lemma crop_image_refused :
  let fmt := suffix_ext output_path in
  let cropped :=
    alpha_flatten WHITE fmt
      (crop (x, y, Z.min (x + width) W, Z.min (y + height) H) img) in
  x < W -> y < H ->
  save_accepts codec cropped (pil_format_of fmt)
    (save_kwargs_for fmt quality) = false ->
  crop_image codec fs input_path output_path x y width height quality
    svg_scale = inl (Exception CodecError).
Proof.
  intros fmt cropped Hx Hy Hsave. rewrite crop_image_prologue.
  replace (x >=? W) with false by (symmetry; rewrite Z.geb_leb, Z.leb_gt; lia).
  replace (y >=? H) with false by (symmetry; rewrite Z.geb_leb, Z.leb_gt; lia).
  cbn [raise_if bind ret].
  subst cropped. fold fmt.
  rewrite !Z.gtb_ltb.
  destruct (W <? x + width) eqn:Ex; destruct (H <? y + height) eqn:Ey;
    to_arith;
    [ rewrite (Z.min_r (x + width) W), (Z.min_r (y + height) H) in * by lia
    | rewrite (Z.min_r (x + width) W), (Z.min_l (y + height) H) in * by lia
    | rewrite (Z.min_l (x + width) W), (Z.min_r (y + height) H) in * by lia
    | rewrite (Z.min_l (x + width) W), (Z.min_l (y + height) H) in * by lia ];
    rewrite (save_refused _ _ _ _ Hsave); reflexivity.
Qed.

(** The crop of a request whose origin is outside. *)
Lemma crop_image_outside :
  W <= x \/ H <= y ->
  exists why,
    crop_image codec fs input_path output_path x y width height quality
      svg_scale = inl (ValueError why).
Proof.
  intros Hout. rewrite crop_image_prologue.
  destruct (x >=? W) eqn:Ex; [eexists; reflexivity|].
  destruct (y >=? H) eqn:Ey; [eexists; reflexivity|].
  to_arith. lia.
Qed.

End OnFile.

Section InMemory.

Variable p : Params.

Hypothesis requested : crops p x y width height.

Lemma crop_step_inside (img : Image) (ops : list Operation) :
  size img = (W, H) -> x < W -> y < H ->
  crop_step p (img, ops)
  = inr (crop (x, y, Z.min (x + width) W, Z.min (y + height) H) img,
         ops ++ [OpCrop x y (Z.min (x + width) W - x)
                   (Z.min (y + height) H - y)]).
Proof.
  intros Hsize Hx Hy. destruct requested as (Rx & Ry & Rw & Rh).
  unfold crop_step. rewrite Rx, Ry, Rw, Rh, Hsize.
  replace (x >=? W) with false by (symmetry; rewrite Z.geb_leb, Z.leb_gt; lia).
  replace (y >=? H) with false by (symmetry; rewrite Z.geb_leb, Z.leb_gt; lia).
  reflexivity.
Qed.

Lemma crop_step_outside (img : Image) (ops : list Operation) :
  size img = (W, H) -> W <= x \/ H <= y ->
  exists why, crop_step p (img, ops) = inl (ValueError why).
Proof.
  intros Hsize Hout. destruct requested as (Rx & Ry & Rw & Rh).
  unfold crop_step. rewrite Rx, Ry, Rw, Rh, Hsize.
  destruct (x >=? W) eqn:Ex; [eexists; reflexivity|].
  destruct (y >=? H) eqn:Ey; [eexists; reflexivity|].
  to_arith. lia.
Qed.

Variable image_bytes : bytes.
Variable input_format : string.
Variable decoded : Image.

Hypothesis crop_only : no_rotate p /\ no_flip p /\ no_resize p.
Hypothesis accepted : decodes_to codec image_bytes input_format p decoded.
Hypothesis sized : size decoded = (W, H).

Lemma transform_crop_only :
  transform codec p (decoded, [])
  = st <- crop_step p (decoded, []) ;; resize_step codec p st.
Proof.
  destruct crop_only as (Hrotate & Hflip & _). unfold transform.
  rewrite rotate_step_absent by assumption. cbn [bind].
  now rewrite flip_step_absent by assumption.
Qed.

Lemma process_crop_inside :
  let fmt := resolved_output_format input_format p in
  let cropped :=
    alpha_flatten WHITE fmt
      (crop (x, y, Z.min (x + width) W, Z.min (y + height) H) decoded) in
  x < W -> y < H ->
  encodable codec cropped fmt (quality p) ->
  exists r,
    process_image_bytes codec image_bytes input_format p = inr r
    /\ success r = true
    /\ output_size r = (Z.min (x + width) W - x, Z.min (y + height) H - y)
    /\ operations_applied r
       = [OpCrop x y (Z.min (x + width) W - x) (Z.min (y + height) H - y)]
    /\ output_bytes r
       = image_save codec cropped (pil_format_of fmt)
           (save_kwargs_for fmt (quality p)).
Proof.
  intros fmt cropped Hx Hy Hsave. eexists. split.
  - apply (process_image_bytes_runs codec p image_bytes input_format decoded
             accepted
             (crop (x, y, Z.min (x + width) W, Z.min (y + height) H) decoded)
             [OpCrop x y (Z.min (x + width) W - x)
                (Z.min (y + height) H - y)]); [|exact Hsave].
    rewrite transform_crop_only, (crop_step_inside decoded [] sized Hx Hy).
    cbn [bind]. apply resize_step_absent. apply crop_only.
  - cbn. repeat split.
Qed.

Lemma process_crop_refused :
  let fmt := resolved_output_format input_format p in
  let cropped :=
    alpha_flatten WHITE fmt
      (crop (x, y, Z.min (x + width) W, Z.min (y + height) H) decoded) in
  x < W -> y < H ->
  save_accepts codec cropped (pil_format_of fmt)
    (save_kwargs_for fmt (quality p)) = false ->
  process_image_bytes codec image_bytes input_format p
  = inl (Exception CodecError).
Proof.
  intros fmt cropped Hx Hy Hsave.
  apply (process_image_bytes_refused codec p image_bytes input_format decoded
           accepted
           (crop (x, y, Z.min (x + width) W, Z.min (y + height) H) decoded)
           [OpCrop x y (Z.min (x + width) W - x)
              (Z.min (y + height) H - y)]); [|exact Hsave].
  rewrite transform_crop_only, (crop_step_inside decoded [] sized Hx Hy).
  cbn [bind]. apply resize_step_absent. apply crop_only.
Qed.

Lemma process_crop_outside :
  W <= x \/ H <= y ->
  exists why,
    process_image_bytes codec image_bytes input_format p
    = inl (ValueError why).
Proof.
  intros Hout.
  destruct (crop_step_outside decoded [] sized Hout) as [why Hwhy].
  exists why.
  apply (process_image_bytes_rejects codec p image_bytes input_format decoded
           accepted).
  now rewrite transform_crop_only, Hwhy.
Qed.

End InMemory.
End Crop.

(** C2.  For every crop request (origin not negative, extent positive) on an
    image of [W] by [H] pixels.  In [crop_image]: when the origin is inside
    the image and the encoder accepts the clamped rectangle, the crop
    succeeds, the box is clamped to the image, the result measures
    [(min(x+width, W)-x, min(y+height, H)-y)], [adjusted] is true if and only
    if an axis was clamped, one message is recorded per clamped axis, and the
    output file, and no other, is written with the encoding of the clamped
    rectangle; when the encoder refuses the rectangle, what is raised is a
    plain [Exception], not the [ValueError] of a request that is rejected;
    when [x >= W] or [y >= H], the request is rejected with a [ValueError].
    In [process_image_bytes]: the crop step takes the same box and logs the
    same measures, or raises the same rejection, and a request that asks for
    the crop alone succeeds, when the encoder accepts the rectangle, with
    those measures as its output size and the encoding of the rectangle as
    its bytes, raises a plain [Exception] when the encoder refuses it, or is
    rejected. *)
Theorem C2_crop_is_clamped_or_rejected (codec : PIL.Codec)
  (x y width height W H : Z) :
  0 <= x /\ 0 <= y ->
  0 < width /\ 0 < height ->
  let x2 := Z.min (x + width) W in
  let y2 := Z.min (y + height) H in
  (forall fs input_path output_path quality svg_scale img,
     opens_to codec fs input_path output_path svg_scale img ->
     PIL.size img = (W, H) ->
     let fmt := Py.suffix_ext output_path in
     let cropped :=
       ImageService.alpha_flatten ImageService.WHITE fmt
         (PIL.crop (x, y, x2, y2) img) in
     let encoded :=
       PIL.image_save codec cropped (pil_format_of fmt)
         (ImageService.save_kwargs_for fmt quality) in
     (x < W -> y < H ->
      encodable codec cropped fmt quality ->
      exists r fs',
        ImageService.crop_image codec fs input_path output_path x y width
          height quality svg_scale = inr (r, fs')
        /\ ImageService.crp_success r = true
        /\ ImageService.crp_crop_box r = (x, y, x2, y2)
        /\ ImageService.crp_output_size r = (x2 - x, y2 - y)
        /\ (ImageService.crp_adjusted r = true
            <-> W < x + width \/ H < y + height)
        /\ List.length (ImageService.crp_adjustment_message r)
           = Nat.add (if W <? x + width then 1%nat else 0%nat)
               (if H <? y + height then 1%nat else 0%nat)
        /\ ImageService.crp_output_file_size r = Py.len encoded
        /\ fs' output_path = Some encoded
        /\ forall path, path <> output_path -> fs' path = fs path)
     /\ (x < W -> y < H ->
         PIL.save_accepts codec cropped (pil_format_of fmt)
           (ImageService.save_kwargs_for fmt quality) = false ->
         ImageService.crop_image codec fs input_path output_path x y width
           height quality svg_scale = inl (Py.Exception Py.CodecError))
     /\ (W <= x \/ H <= y ->
         exists why,
           ImageService.crop_image codec fs input_path output_path x y width
             height quality svg_scale = inl (Py.ValueError why)))
  /\ (forall p,
        crops p x y width height ->
        (forall img ops,
           PIL.size img = (W, H) ->
           (x < W -> y < H ->
            ImageService.crop_step p (img, ops)
            = inr (PIL.crop (x, y, x2, y2) img,
                   ops ++ [ImageService.OpCrop x y (x2 - x) (y2 - y)])
            /\ PIL.size (PIL.crop (x, y, x2, y2) img) = (x2 - x, y2 - y))
           /\ (W <= x \/ H <= y ->
               exists why,
                 ImageService.crop_step p (img, ops)
                 = inl (Py.ValueError why)))
        /\ (forall image_bytes input_format decoded,
              no_rotate p /\ no_flip p /\ no_resize p ->
              decodes_to codec image_bytes input_format p decoded ->
              PIL.size decoded = (W, H) ->
              let fmt := resolved_output_format input_format p in
              let cropped :=
                ImageService.alpha_flatten ImageService.WHITE fmt
                  (PIL.crop (x, y, x2, y2) decoded) in
              (x < W -> y < H ->
               encodable codec cropped fmt (ImageService.quality p) ->
               exists r,
                 ImageService.process_image_bytes codec image_bytes
                   input_format p = inr r
                 /\ ImageService.success r = true
                 /\ ImageService.output_size r = (x2 - x, y2 - y)
                 /\ ImageService.operations_applied r
                    = [ImageService.OpCrop x y (x2 - x) (y2 - y)]
                 /\ ImageService.output_bytes r
                    = PIL.image_save codec cropped (pil_format_of fmt)
                        (ImageService.save_kwargs_for fmt
                           (ImageService.quality p)))
              /\ (x < W -> y < H ->
                  PIL.save_accepts codec cropped (pil_format_of fmt)
                    (ImageService.save_kwargs_for fmt
                       (ImageService.quality p)) = false ->
                  ImageService.process_image_bytes codec image_bytes
                    input_format p = inl (Py.Exception Py.CodecError))
              /\ (W <= x \/ H <= y ->
                  exists why,
                    ImageService.process_image_bytes codec image_bytes
                      input_format p = inl (Py.ValueError why)))).
Proof.
  intros Horigin Hextent x2 y2. split.
  - intros fs input_path output_path quality svg_scale img Hopens Hsz
      fmt cropped encoded.
    split; [|split].
    + intros Hx Hy Hsave.
      destruct (crop_image_inside codec x y width height W H Horigin
                  Hextent fs input_path output_path quality svg_scale img
                  Hopens Hsz Hx Hy Hsave)
        as (r & Hrun & Hok & Hbox & Hsize & Hadj & Hmsg & Hlen).
      exists r, (ImageService.fs_write fs output_path encoded).
      repeat (split; [assumption|]).
      unfold ImageService.fs_write. rewrite String.eqb_refl.
      split; [reflexivity|].
      intros path Hpath. apply String.eqb_neq in Hpath. now rewrite Hpath.
    + now apply (crop_image_refused codec x y width height W H Horigin
                   Hextent fs input_path output_path quality svg_scale img).
    + now apply (crop_image_outside codec x y width height W H Horigin
                   Hextent fs input_path output_path quality svg_scale img).
  - intros p Hcrops. split.
    + intros img ops Hsz. split.
      * intros Hx Hy. split; [|reflexivity].
        now apply (crop_step_inside x y width height W H p Hcrops).
      * now apply (crop_step_outside x y width height W H p Hcrops).
    + intros image_bytes input_format decoded Honly Haccepted Hsz
        fmt cropped.
      split; [|split].
      * now apply (process_crop_inside codec x y width height W H p Hcrops
                     image_bytes input_format decoded).
      * now apply (process_crop_refused codec x y width height W H p Hcrops
                     image_bytes input_format decoded).
      * now apply (process_crop_outside codec x y width height W H p Hcrops
                     image_bytes input_format decoded).
Qed.

(** The scenario of the specification: 100 by 100, a crop of 200 by 200 at
    (10, 10). *)
Lemma C2_witness :
  exists r fs',
    ImageService.crop_image (Sample.codec 3000) Sample.fs "square.png"
      "out.png" 10 10 200 200 95 1 = inr (r, fs')
    /\ ImageService.crp_output_size r = (90, 90)
    /\ ImageService.crp_adjusted r = true
    /\ List.length (ImageService.crp_adjustment_message r) = 2%nat
    /\ ImageService.crp_output_file_size r = 3000.
Proof.
  assert (Horigin : 0 <= 10 /\ 0 <= 10) by lia.
  assert (Hextent : 0 < 200 /\ 0 < 200) by lia.
  assert (Hinside : 10 < 100) by lia.
  destruct (C2_crop_is_clamped_or_rejected (Sample.codec 3000)
              10 10 200 200 100 100 Horigin Hextent) as [Hfile _].
  destruct (Hfile Sample.fs "square.png" "out.png" 95 1%float
              (Sample.grey_image 100 100)
              (conj eq_refl (conj eq_refl eq_refl)) eq_refl) as [Hcrop _].
  destruct (Hcrop Hinside Hinside eq_refl)
    as (r & fs' & Hrun & _ & _ & Hsize & Hadj & Hmsg & Hlen & _).
  exists r, fs'. split; [exact Hrun|]. split; [exact Hsize|].
  split; [apply Hadj; left; lia|]. split; [exact Hmsg|].
  rewrite Hlen. vm_compute. reflexivity.
Defined.

(** ** Resize *)

Section ScaleWithWidth.
Import Py PIL ImageService.

Variable codec : Codec.

(** [resize_image] refuses a scale given together with a width or a height,
    before it opens the input: whatever the codec, the file being there and
    the two formats accepted are all it takes. *)
Lemma resize_image_rejects_scale_with_dimensions (fs : FS)
  (input_path output_path : string) (width height : option Z)
  (scale : float) (keep_aspect_ratio : bool) (quality : Z)
  (svg_scale : float) :
  is_some (fs input_path) = true ->
  _is_valid_input_format (suffix_ext input_path) = true ->
  _is_valid_output_format (suffix_ext output_path) = true ->
  is_some width || is_some height = true ->
  resize_image codec fs input_path output_path width height (Some scale)
    keep_aspect_ratio quality svg_scale
  = inl (ValueError ScaleWithWidthOrHeight).
Proof.
  intros Hfile Hin Hout Hdims. unfold resize_image.
  rewrite Hfile, Hin, Hout. cbn [negb raise_if bind ret is_some andb].
  now rewrite Hdims.
Qed.

(** The resize step of [process_image_bytes] has no such test: with a scale
    that is not zero, the width and the height of the request are not
    read. *)
Lemma resize_step_ignores_dimensions_under_scale (p : Params)
  (scale : float) (st : Image * list Operation) :
  resize_scale p = Some scale ->
  float_truthy scale = true ->
  resize_step codec p st
  = resize_step codec (with_resize None None (Some scale) p) st.
Proof.
  intros Hscale Htruthy. destruct st as [img ops].
  unfold resize_step, resize_target. cbn [resize_width resize_height
    resize_scale with_resize int_truthy opt_float_truthy orb].
  rewrite Hscale. cbn [opt_float_truthy]. rewrite Htruthy, !orb_true_r.
  reflexivity.
Qed.

End ScaleWithWidth.

(** C4.  The claim: a request with a scale and a width is rejected before
    any decode, and no output is produced.  The code at such a request on a
    200 by 150 image: [process_image_bytes] succeeds, the output is the image
    scaled to 100 by 75, and the log has the one entry of the scaling; the
    width of 120 is not read.  [resize_image], the file-based method, does
    reject the pair ([resize_image_rejects_scale_with_dimensions]). *)
Theorem C4_scale_with_width_is_not_rejected :
  ImageService.resize_scale Sample.scale_50_width_120 = Some 50%float
  /\ ImageService.resize_width Sample.scale_50_width_120 = Some 120
  /\ match
       ImageService.process_image_bytes (Sample.codec 3000)
         Sample.rgb_200x150 "png" Sample.scale_50_width_120
     with
     | inr r =>
         ImageService.success r = true
         /\ ImageService.original_size r = (200, 150)
         /\ ImageService.output_size r = (100, 75)
         /\ ImageService.operations_applied r = [ImageService.OpScale 50]
         /\ ImageService.output_bytes_size r = 3000
     | inl _ => False
     end.
Proof. vm_compute. repeat split. Qed.

Section WidthOnly.
Import Py PIL ImageService.

Variable codec : Codec.
Variables width W H : Z.

(** The width asked for, and an image of [W] by [H] pixels. *)
Hypothesis width_positive : 0 < width.
Hypothesis image_not_empty : 0 < W /\ 0 < H.

Variable h : Z.
Hypothesis derived : derived_height H width W = inr h.

Lemma ratio_defined : int_truediv width W = inr (float_of_quotient width W).
Proof.
  unfold int_truediv.
  replace (W =? 0) with false by (symmetry; apply Z.eqb_neq; lia).
  reflexivity.
Qed.

Section InMemory.

Variable p : Params.
Hypothesis requested : resizes_to_width p width.

Lemma resize_target_width_only : resize_target p W H = inr (width, h).
Proof.
  destruct requested as (Hw & Hh & Hs).
  unfold resize_target. rewrite Hw, Hh, Hs.
  cbn [int_truthy andb].
  replace (width =? 0) with false by (symmetry; apply Z.eqb_neq; lia).
  cbn [negb andb]. rewrite ratio_defined. cbn [bind ret].
  unfold int_of_product. fold (derived_height H width W).
  now rewrite derived.
Qed.

Lemma resize_step_width_only (img : Image) (ops : list Operation) :
  size img = (W, H) ->
  resize_step codec p (img, ops)
  = inr (resize codec (width, Z.max 1 h) img,
         ops ++ [OpResize width (Z.max 1 h)]).
Proof.
  intros Hsize. unfold resize_step.
  rewrite Hsize, resize_target_width_only.
  destruct requested as (Hw & Hh & Hs). rewrite Hw, Hh, Hs.
  cbn [int_truthy opt_float_truthy orb].
  replace (width =? 0) with false by (symmetry; apply Z.eqb_neq; lia).
  cbn [negb orb bind ret]. now rewrite (Z.max_r 1 width) by lia.
Qed.

Lemma process_width_only (image_bytes : bytes) (input_format : string)
  (decoded : Image) :
  no_rotate p /\ no_flip p /\ no_crop p ->
  decodes_to codec image_bytes input_format p decoded ->
  size decoded = (W, H) ->
  let fmt := resolved_output_format input_format p in
  encodable codec
    (alpha_flatten WHITE fmt (resize codec (width, Z.max 1 h) decoded))
    fmt (quality p) ->
  exists r,
    process_image_bytes codec image_bytes input_format p = inr r
    /\ success r = true
    /\ output_size r = (width, Z.max 1 h)
    /\ operations_applied r = [OpResize width (Z.max 1 h)].
Proof.
  intros (Hrotate & Hflip & Hcrop) Haccepted Hsize fmt Hsave. eexists. split.
  - apply (process_image_bytes_runs codec p image_bytes input_format decoded
             Haccepted (resize codec (width, Z.max 1 h) decoded)
             [OpResize width (Z.max 1 h)]); [|exact Hsave].
    unfold transform.
    rewrite rotate_step_absent by assumption. cbn [bind].
    rewrite flip_step_absent by assumption. cbn [bind].
    rewrite crop_step_absent by assumption. cbn [bind].
    now apply resize_step_width_only.
  - cbn. repeat split.
Qed.

End InMemory.

Lemma resize_image_width_only (fs : FS) (input_path output_path : string)
  (quality : Z) (svg_scale : float) (img : Image)
  (keep_aspect_ratio : bool) :
  opens_to codec fs input_path output_path svg_scale img ->
  size img = (W, H) ->
  let fmt := suffix_ext output_path in
  encodable codec
    (alpha_flatten WHITE fmt
       (resize codec
          (width, if keep_aspect_ratio then Z.max 1 h else H) img))
    fmt quality ->
  exists r fs',
    resize_image codec fs input_path output_path (Some width) None None
      keep_aspect_ratio quality svg_scale = inr (r, fs')
    /\ rsz_success r = true
    /\ rsz_original_size r = (W, H)
    /\ rsz_output_size r
       = (width, if keep_aspect_ratio then Z.max 1 h else H).
Proof.
  intros (Hin & Hout & Hopen) Hsize fmt Hsave.
  destruct image_not_empty as [HW HH].
  unfold resize_image.
  rewrite (opened_file_exists codec fs input_path svg_scale img Hopen).
  rewrite Hin, Hout.
  replace (width <=? 0) with false by (symmetry; apply Z.leb_gt; lia).
  cbn [negb raise_if bind ret is_some andb orb].
  rewrite Hopen. cbn [bind]. rewrite Hsize.
  unfold resize_image_target, dict_item.
  rewrite (dict_mem_get _ Hout). fold fmt.
  assert (HWnz : (W =? 0) = false) by (apply Z.eqb_neq; lia).
  assert (HHnz : (H =? 0) = false) by (apply Z.eqb_neq; lia).
  unfold encodable in Hsave.
  destruct keep_aspect_ratio.
  - rewrite ratio_defined. cbn [bind ret].
    unfold int_of_product. fold (derived_height H width W).
    rewrite derived. cbn [bind ret].
    rewrite (Z.max_r 1 width) by lia.
    rewrite (save_runs _ _ _ _ Hsave). cbn [bind ret].
    unfold int_truediv. rewrite HWnz, HHnz.
    cbn [bind ret try_except]. eexists _, _.
    split; [reflexivity|]. cbn. repeat split.
  - cbn [bind ret].
    rewrite (Z.max_r 1 width), (Z.max_r 1 H) by lia.
    rewrite (save_runs _ _ _ _ Hsave). cbn [bind ret].
    unfold int_truediv. rewrite HWnz, HHnz.
    cbn [bind ret try_except]. eexists _, _.
    split; [reflexivity|]. cbn. repeat split.
Qed.

End WidthOnly.

(** C5, as amended.  For every resize request that gives only a width, on an
    image of [W] by [H] pixels whose resized buffer the encoder accepts: the
    result width is the requested width exactly.  In [process_image_bytes],
    whatever [resize_keep_ratio], and in [resize_image] when
    [keep_aspect_ratio] is true, the result height is
    [int(H * (width / W))], the binary64 product truncated toward zero and
    not rounded, raised to 1 when it is 0; in [resize_image] with
    [keep_aspect_ratio] false the height stays [H]. *)
Theorem C5_width_only_resize_truncates (codec : PIL.Codec)
  (width W H h : Z) :
  0 < width ->
  0 < W /\ 0 < H ->
  derived_height H width W = inr h ->
  (forall p,
     resizes_to_width p width ->
     (forall img ops,
        PIL.size img = (W, H) ->
        ImageService.resize_step codec p (img, ops)
        = inr (PIL.resize codec (width, Z.max 1 h) img,
               ops ++ [ImageService.OpResize width (Z.max 1 h)])
        /\ PIL.size (PIL.resize codec (width, Z.max 1 h) img)
           = (width, Z.max 1 h))
     /\ (forall image_bytes input_format decoded,
           no_rotate p /\ no_flip p /\ no_crop p ->
           decodes_to codec image_bytes input_format p decoded ->
           PIL.size decoded = (W, H) ->
           let fmt := resolved_output_format input_format p in
           encodable codec
             (ImageService.alpha_flatten ImageService.WHITE fmt
                (PIL.resize codec (width, Z.max 1 h) decoded))
             fmt (ImageService.quality p) ->
           exists r,
             ImageService.process_image_bytes codec image_bytes input_format
               p = inr r
             /\ ImageService.success r = true
             /\ ImageService.output_size r = (width, Z.max 1 h)
             /\ ImageService.operations_applied r
                = [ImageService.OpResize width (Z.max 1 h)]))
  /\ (forall fs input_path output_path quality svg_scale img
        (keep_aspect_ratio : bool),
        opens_to codec fs input_path output_path svg_scale img ->
        PIL.size img = (W, H) ->
        let fmt := Py.suffix_ext output_path in
        encodable codec
          (ImageService.alpha_flatten ImageService.WHITE fmt
             (PIL.resize codec
                (width, if keep_aspect_ratio then Z.max 1 h else H) img))
          fmt quality ->
        exists r fs',
          ImageService.resize_image codec fs input_path output_path
            (Some width) None None keep_aspect_ratio quality svg_scale
          = inr (r, fs')
          /\ ImageService.rsz_success r = true
          /\ ImageService.rsz_original_size r = (W, H)
          /\ ImageService.rsz_output_size r
             = (width, if keep_aspect_ratio then Z.max 1 h else H)).
Proof.
  intros Hwidth Himage Hderived. split.
  - intros p Hrequested. split.
    + intros img ops Hsize. split; [|reflexivity].
      now apply (resize_step_width_only codec width W H Hwidth Himage h
                   Hderived p Hrequested).
    + intros image_bytes input_format decoded Honly Haccepted Hsize fmt
        Hsave.
      now apply (process_width_only codec width W H Hwidth Himage h
                   Hderived p Hrequested image_bytes input_format decoded).
  - intros fs input_path output_path quality svg_scale img keep Hopens
      Hsize fmt Hsave.
    now apply (resize_image_width_only codec width W H Hwidth Himage h
                 Hderived fs input_path output_path quality svg_scale img).
Qed.

Lemma C5_witness :
  exists r,
    ImageService.process_image_bytes (Sample.codec 3000) Sample.rgb_4x3
      "png" Sample.width_5_only = inr r
    /\ ImageService.output_size r = (5, 3).
Proof.
  assert (Hwidth : 0 < 5) by lia.
  assert (Himage : 0 < 4 /\ 0 < 3) by lia.
  destruct (C5_width_only_resize_truncates (Sample.codec 3000) 5 4 3 3
              Hwidth Himage eq_refl) as [Hmemory _].
  destruct (Hmemory Sample.width_5_only
              (conj eq_refl (conj eq_refl eq_refl))) as [_ Hprocess].
  destruct (Hprocess Sample.rgb_4x3 "png" (Sample.grey_image 4 3)
              (conj eq_refl (conj eq_refl eq_refl))
              (conj eq_refl (conj eq_refl eq_refl)) eq_refl eq_refl)
    as (r & Hrun & _ & Hsize & _).
  exists r. split; [exact Hrun | exact Hsize].
Defined.

(** C5, as stated, fails: a 4 by 3 image resized to the width 5 comes out 5
    by 3, from [process_image_bytes] and from [resize_image], where the
    rounding of 3 * 5 / 4 = 3.75 is 4. *)
Lemma C5_height_is_not_rounded :
  round_quotient (3 * 5) 4 = 4
  /\ match
       ImageService.process_image_bytes (Sample.codec 3000) Sample.rgb_4x3
         "png" Sample.width_5_only
     with
     | inr r =>
         ImageService.original_size r = (4, 3)
         /\ ImageService.output_size r = (5, 3)
     | inl _ => False
     end
  /\ match
       ImageService.resize_image (Sample.codec 3000) Sample.fs "tiny.png"
         "out.png" (Some 5) None None true 95 1
     with
     | inr (r, _) => ImageService.rsz_output_size r = (5, 3)
     | inl _ => False
     end.
Proof. vm_compute. repeat split. Qed.

(** The two roundings show even where the quotient is an integer: a 49 by
    49 image resized to the width 2 gets the height 1, since in binary64
    49 * (2 / 49) is 1.9999999999999998. *)
Remark square_49_to_width_2 : derived_height 49 2 49 = inr 1.
Proof. reflexivity. Qed.

(** ** Alpha flattening *)

Lemma blend_transparent (background source : Z) :
  PIL.BLEND8 0 background source = PIL.DIV255 (background * 255).
Proof. unfold PIL.BLEND8. f_equal. lia. Qed.

Section Flatten.
Import Py PIL ImageService.

Variable codec : Codec.
Variable img : Image.
Variable fmt : string.

Lemma save_sends_flattened (quality : Z) :
  _save_image_to_bytes codec img fmt quality
  = save codec (alpha_flatten WHITE fmt img) (pil_format_of fmt)
      (save_kwargs_for fmt quality).
Proof. reflexivity. Qed.

(** A mode other than RGBA: nothing is flattened. *)
Lemma not_rgba_is_kept (background : list Z) :
  mode img <> "RGBA" -> alpha_flatten background fmt img = img.
Proof.
  intros Hmode. unfold alpha_flatten.
  destruct (String.eqb_spec (mode img) "RGBA"); [contradiction|reflexivity].
Qed.

(** The mode RGBA, on its way to a format without alpha: the paste over a
    new RGB image. *)
Lemma rgba_is_pasted (background : list Z) :
  mode img = "RGBA" -> mem fmt no_alpha_formats = true ->
  alpha_flatten background fmt img
  = paste_alpha (new "RGB" (size img) background) img.
Proof.
  intros Hmode Hfmt. unfold alpha_flatten.
  now rewrite Hmode, Hfmt.
Qed.

(** The mode RGBA, on its way to any other format: kept as it is. *)
Lemma rgba_is_kept_for_alpha_formats (background : list Z) :
  mem fmt no_alpha_formats = false ->
  alpha_flatten background fmt img = img.
Proof.
  intros Hfmt. unfold alpha_flatten. now rewrite Hfmt, andb_false_r.
Qed.

Lemma pasted_transparent_pixel (x y r g bl : Z) :
  getpixel img x y = [r; g; bl; 0] ->
  getpixel (paste_alpha (new "RGB" (size img) WHITE) img) x y
  = [255; 255; 255].
Proof.
  intros Hpixel. cbn [paste_alpha getpixel new]. rewrite Hpixel.
  cbn [nth firstn blend_bands WHITE]. now rewrite !blend_transparent.
Qed.

End Flatten.

(** C10.  For every buffer whose mode is anything other than RGBA, the
    save-to-bytes step flattens nothing and hands the buffer to the encoder
    unchanged, whatever the output format, the no-alpha formats included;
    for a buffer whose mode is RGBA and a no-alpha format, what the encoder
    receives is the buffer pasted over a white RGB image. *)
Theorem C10_only_rgba_is_flattened (codec : PIL.Codec) (img : PIL.Image)
  (fmt : string) (quality : Z) :
  (PIL.mode img <> "RGBA" ->
   ImageService.alpha_flatten ImageService.WHITE fmt img = img
   /\ ImageService._save_image_to_bytes codec img fmt quality
      = PIL.save codec img (pil_format_of fmt)
          (ImageService.save_kwargs_for fmt quality))
  /\ (PIL.mode img = "RGBA" ->
      Py.mem fmt ImageService.no_alpha_formats = true ->
      ImageService._save_image_to_bytes codec img fmt quality
      = PIL.save codec
          (PIL.paste_alpha
             (PIL.new "RGB" (PIL.size img) ImageService.WHITE) img)
          (pil_format_of fmt) (ImageService.save_kwargs_for fmt quality)).
Proof.
  split.
  - intros Hmode. split; [now apply not_rgba_is_kept|].
    rewrite save_sends_flattened. now rewrite not_rgba_is_kept.
  - intros Hmode Hfmt.
    rewrite save_sends_flattened. now rewrite rgba_is_pasted.
Qed.

Lemma C10_witness :
  ImageService._save_image_to_bytes (Sample.codec 3000) Sample.la_image
    "jpg" 95
  = PIL.save (Sample.codec 3000) Sample.la_image "JPEG"
      {| PIL.kw_quality := Some 95; PIL.kw_optimize := Some true |}.
Proof.
  destruct (C10_only_rgba_is_flattened (Sample.codec 3000) Sample.la_image
              "jpg" 95) as [Hkept _].
  assert (Hmode : PIL.mode Sample.la_image <> "RGBA") by discriminate.
  destruct (Hkept Hmode) as [_ Hsave]. exact Hsave.
Defined.

(** X27.  For every buffer whose mode is RGBA, encoded to a format of the
    no-alpha set: what the encoder receives has the mode RGB, which has no
    alpha band, and the width and height of the buffer, and each of its
    pixels where the buffer was fully transparent is white; and in
    [process_image_bytes] the buffer so flattened is the one the four steps
    produced, the steps themselves having worked on the unflattened image,
    and its encoding, when the encoder accepts it, is what is returned. *)
Theorem rgba_is_flattened_before_encode (codec : PIL.Codec)
  (img : PIL.Image) (fmt : string) :
  PIL.mode img = "RGBA" ->
  Py.mem fmt ImageService.no_alpha_formats = true ->
  let flat := ImageService.alpha_flatten ImageService.WHITE fmt img in
  (forall quality,
     ImageService._save_image_to_bytes codec img fmt quality
     = PIL.save codec flat (pil_format_of fmt)
         (ImageService.save_kwargs_for fmt quality))
  /\ PIL.mode flat = "RGB"
  /\ has_alpha_channel (PIL.mode flat) = false
  /\ PIL.size flat = PIL.size img
  /\ (forall x y r g bl,
        PIL.getpixel img x y = [r; g; bl; 0] ->
        PIL.getpixel flat x y = [255; 255; 255])
  /\ (forall image_bytes input_format p decoded ops,
        resolved_output_format input_format p = fmt ->
        decodes_to codec image_bytes input_format p decoded ->
        ImageService.transform codec p (decoded, []) = inr (img, ops) ->
        encodable codec flat fmt (ImageService.quality p) ->
        exists r,
          ImageService.process_image_bytes codec image_bytes input_format p
          = inr r
          /\ ImageService.output_bytes r
             = PIL.image_save codec flat (pil_format_of fmt)
                 (ImageService.save_kwargs_for fmt (ImageService.quality p))
          /\ ImageService.output_size r = PIL.size img).
Proof.
  intros Hmode Hfmt flat.
  assert (Hflat : flat
                  = PIL.paste_alpha
                      (PIL.new "RGB" (PIL.size img) ImageService.WHITE) img)
    by now apply rgba_is_pasted.
  split; [reflexivity|].
  split; [now rewrite Hflat|]. split; [now rewrite Hflat|].
  split; [now rewrite Hflat|].
  split.
  - intros x y r g bl. rewrite Hflat. apply pasted_transparent_pixel.
  - intros image_bytes input_format p decoded ops Hres Haccepted Hsteps
      Hsave.
    subst fmt. eexists. split.
    + now apply (process_image_bytes_runs codec p image_bytes input_format
                   decoded Haccepted img ops).
    + cbn [ImageService.output_bytes ImageService.output_size].
      split; reflexivity.
Qed.

(** The scenario of the specification: RGBA, 80 by 80, to jpg. *)
Lemma rgba_is_flattened_before_encode_witness :
  PIL.mode
    (ImageService.alpha_flatten ImageService.WHITE "jpg" Sample.rgba_image)
  = "RGB"
  /\ PIL.size
       (ImageService.alpha_flatten ImageService.WHITE "jpg"
          Sample.rgba_image) = (80, 80)
  /\ PIL.getpixel
       (ImageService.alpha_flatten ImageService.WHITE "jpg"
          Sample.rgba_image) 0 0
     = [255; 255; 255]
  /\ exists r,
       ImageService.process_image_bytes (Sample.codec 3000)
         Sample.rgba_80x80 "png" Sample.as_jpg = inr r
       /\ ImageService.output_size r = (80, 80).
Proof.
  destruct (rgba_is_flattened_before_encode (Sample.codec 3000)
              Sample.rgba_image "jpg" eq_refl eq_refl)
    as (_ & Hmode & _ & Hsize & Hpixel & Hprocess).
  split; [exact Hmode|]. split; [exact Hsize|].
  split; [exact (Hpixel 0 0 16 32 48 eq_refl)|].
  destruct (Hprocess Sample.rgba_80x80 "png" Sample.as_jpg Sample.rgba_image
              [] eq_refl (conj eq_refl (conj eq_refl eq_refl)) eq_refl
              eq_refl) as (r & Hrun & _ & Hout).
  exists r. split; [exact Hrun | exact Hout].
Defined.

(** C9.  The claim: every buffer with an alpha channel, encoded to a format
    of the no-alpha set, is flattened over white and encoded without alpha.
    The code on an upload in the mode LA, 80 by 80 and fully transparent,
    asked for as jpg: the mode is not RGBA, so the save step flattens
    nothing and hands the encoder the buffer with its alpha band, the
    transparent pixel still transparent black; the JPEG encoder refuses the
    mode, and [process_image_bytes] raises.  For a buffer in the mode RGBA
    the code does what the claim says. *)
Theorem C9_la_buffer_is_not_flattened :
  PIL.image_open (Sample.codec 3000) Sample.la_80x80 = Some Sample.la_image
  /\ has_alpha_channel (PIL.mode Sample.la_image) = true
  /\ Py.mem "jpg" ImageService.no_alpha_formats = true
  /\ PIL.getpixel Sample.la_image 0 0 = [0; 0]
  /\ ImageService.alpha_flatten ImageService.WHITE "jpg" Sample.la_image
     = Sample.la_image
  /\ ImageService._save_image_to_bytes (Sample.codec 3000) Sample.la_image
       "jpg" 95
     = PIL.save (Sample.codec 3000) Sample.la_image "JPEG"
         {| PIL.kw_quality := Some 95; PIL.kw_optimize := Some true |}
  /\ PIL.save_accepts (Sample.codec 3000) Sample.la_image "JPEG"
       {| PIL.kw_quality := Some 95; PIL.kw_optimize := Some true |} = false
  /\ ImageService.process_image_bytes (Sample.codec 3000) Sample.la_80x80
       "png" Sample.as_jpg
     = inl (Py.Exception Py.CodecError).
Proof. repeat split. Qed.

(** * Further properties of the code *)

(** ** The format sniffer, signature by signature *)

Lemma startswith_nil (data : Py.bytes) : Py.startswith data [] = true.
Proof. destruct data; reflexivity. Qed.

Lemma startswith_refl (data : Py.bytes) : Py.startswith data data = true.
Proof.
  induction data as [|c data IH]; simpl; [reflexivity|].
  rewrite IH. unfold Py.byte_eqb.
  rewrite (Byte.byte_dec_lb (@eq_refl _ c)). reflexivity.
Qed.

Lemma lstrip_spaces (pad data : Py.bytes) :
  Forall (fun c => Py.is_space c = true) pad ->
  Py.lstrip (pad ++ data) = Py.lstrip data.
Proof.
  induction 1 as [|c pad Hc _ IH]; [reflexivity|].
  simpl. rewrite Hc. exact IH.
Qed.

Lemma lower_lt_not_space (c : byte) :
  Py.lower_byte c = "<"%byte -> Py.is_space c = false.
Proof. destruct c; intros H; try reflexivity; discriminate H. Qed.

Lemma firstn_app_exact {A} (l r : list A) :
  firstn (List.length l) (l ++ r) = l.
Proof. induction l; simpl; congruence. Qed.

Section Signatures.
Import Py Routers.

(** X1.  Every signature of [MAGIC_BYTES] other than RIFF decides the format
    alone: data that starts with it is sniffed as the format the table gives,
    whatever the bytes that follow. *)
Theorem signature_is_recognised (magic rest : bytes) (fmt : string) :
  In (magic, fmt) MAGIC_BYTES ->
  bytes_eqb magic RIFF = false ->
  detect_format_from_magic_bytes (magic ++ rest) = Some fmt.
Proof.
  intros Hin Hriff.
  simpl in Hin.
  repeat (destruct Hin as [Hin|Hin];
          [ injection Hin as <- <-;
            first [ discriminate Hriff
                  | unfold detect_format_from_magic_bytes; cbn;
                    rewrite ?startswith_nil; reflexivity ]
          | ]).
  contradiction.
Qed.

Lemma signature_is_recognised_witness :
  detect_format_from_magic_bytes (b "GIF89a" ++ b "...trailer") = Some "gif".
Proof.
  apply (signature_is_recognised (b "GIF89a") (b "...trailer") "gif").
  - simpl. tauto.
  - reflexivity.
Defined.

(** X2.  A RIFF container of at least 12 bytes is sniffed as webp exactly
    when its bytes 8 to 12 spell WEBP; without that tag the RIFF entry is
    passed over and the answer is the one of the [ftyp] test. *)
Theorem riff_container_needs_the_webp_tag (rest : bytes) :
  12 <= len (RIFF ++ rest) ->
  (detect_format_from_magic_bytes (RIFF ++ rest) = Some "webp"
   <-> slice 8 12 (RIFF ++ rest) = WEBP)
  /\ (slice 8 12 (RIFF ++ rest) <> WEBP ->
      detect_format_from_magic_bytes (RIFF ++ rest)
      = ftyp_brand (RIFF ++ rest)).
Proof.
  intros Hlen. split; [exact (riff_webp_iff_signature rest Hlen)|].
  intros Htag. rewrite detect_riff.
  destruct (12 <=? len (RIFF ++ rest)) eqn:E; [|apply Z.leb_gt in E; lia].
  destruct (bytes_eqb (slice 8 12 (RIFF ++ rest)) WEBP) eqn:Ew;
    [|reflexivity].
  apply bytes_eqb_eq in Ew. contradiction.
Qed.

Lemma riff_container_needs_the_webp_tag_witness :
  detect_format_from_magic_bytes (RIFF ++ b "$...WAVEfmt ") = None.
Proof.
  destruct (riff_container_needs_the_webp_tag (b "$...WAVEfmt "))
    as [_ Hother]; [vm_compute; discriminate|].
  rewrite Hother; [reflexivity | discriminate].
Defined.

(** X3.  The SVG test ignores leading white space and the case of letters:
    data made of white space, then a text equal to one of [SVG_SIGNATURES] up
    to case, then anything, is sniffed as svg. *)
Theorem svg_text_is_recognised (pad text rest sig : bytes) :
  Forall (fun c => is_space c = true) pad ->
  In sig SVG_SIGNATURES ->
  lower text = lower sig ->
  detect_format_from_magic_bytes (pad ++ text ++ rest) = Some "svg".
Proof.
  intros Hpad Hsig Hlow.
  assert (Hlen : List.length text = List.length sig).
  { unfold lower in Hlow.
    rewrite <- (length_map lower_byte text), Hlow. apply length_map. }
  assert (Hstrip : lstrip (text ++ rest) = text ++ rest).
  { destruct text as [|c text].
    - destruct Hsig as [<-|[<-|[<-|[]]]]; discriminate Hlen.
    - simpl. rewrite lower_lt_not_space; [reflexivity|].
      destruct Hsig as [<-|[<-|[<-|[]]]]; simpl in Hlow;
        injection Hlow as Hc _; exact Hc. }
  unfold detect_format_from_magic_bytes.
  replace (existsb (svg_match (pad ++ text ++ rest)) SVG_SIGNATURES)
    with true; [reflexivity|].
  symmetry. apply existsb_exists. exists sig. split; [exact Hsig|].
  unfold svg_match.
  rewrite lstrip_spaces by exact Hpad.
  rewrite Hstrip, <- Hlen, firstn_app_exact, Hlow.
  apply startswith_refl.
Qed.

Lemma svg_text_is_recognised_witness :
  detect_format_from_magic_bytes
    ([x0a; x20; x20] ++ b "<SVG" ++ b " width='4' height='3'/>")
  = Some "svg".
Proof.
  apply (svg_text_is_recognised [x0a; x20; x20] (b "<SVG")
           (b " width='4' height='3'/>") (b "<svg")).
  - repeat constructor.
  - simpl. tauto.
  - reflexivity.
Defined.

(** X4.  An ISO media file whose [ftyp] box is shorter than 256 bytes (its
    first three bytes are zero) is sniffed by its brand: avif and avis give
    avif; heic, heix, hevc and mif1 give heic. *)
Theorem ftyp_brand_is_recognised (n : byte) (brand rest : bytes) :
  let data := [x00; x00; x00; n] ++ b "ftyp" ++ brand ++ rest in
  (In brand [b "avif"; b "avis"] ->
   detect_format_from_magic_bytes data = Some "avif")
  /\ (In brand [b "heic"; b "heix"; b "hevc"; b "mif1"] ->
      detect_format_from_magic_bytes data = Some "heic").
Proof.
  split; intros Hin; simpl in Hin;
    repeat (destruct Hin as [<-|Hin]; [|]); try contradiction;
    match goal with
    | |- detect_format_from_magic_bytes ?d = Some ?f =>
        assert (Hf : ftyp_brand d = Some f)
          by (unfold ftyp_brand;
              replace (12 <=? len d) with true
                by (symmetry; apply Z.leb_le; unfold len; simpl List.length;
                    lia);
              reflexivity);
        unfold detect_format_from_magic_bytes; rewrite Hf; reflexivity
    end.
Qed.

End Signatures.

(** ** Upload validation and the tables of the service *)

Lemma mem_In (s : string) (l : list string) : Py.mem s l = true <-> In s l.
Proof.
  unfold Py.mem. rewrite existsb_exists. split.
  - intros (x & Hx & E). apply String.eqb_eq in E. subst. exact Hx.
  - intros H. exists s. split; [exact H | apply String.eqb_refl].
Qed.

(** A goal about membership in literal tables, by cases on the string. *)
Ltac string_cases s :=
  repeat match goal with
  | |- context [String.eqb s ?c] =>
      destruct (String.eqb_spec s c) as [->|?]; [reflexivity|]
  end.

Section Tables.
Import Py Routers ImageService.

(** X5.  The tables of the router and of the service agree: an extension is
    allowed for upload exactly when the service reads it, an output format
    passes the router exactly when the service writes it, and the formats
    with a MIME type are the formats the service writes; each format with a
    quality, and each format without alpha, is one the service writes. *)
Theorem tables_agree (s : string) :
  mem s ALLOWED_EXTENSIONS = _is_valid_input_format s
  /\ mem s SUPPORTED_OUTPUT_FORMATS = _is_valid_output_format s
  /\ dict_mem s Endpoints.FORMAT_TO_MIME = _is_valid_output_format s
  /\ (mem s QUALITY_FORMATS = true -> _is_valid_output_format s = true)
  /\ (mem s no_alpha_formats = true -> _is_valid_output_format s = true).
Proof.
  unfold _is_valid_input_format, _is_valid_output_format, dict_mem, mem.
  repeat split; simpl; try (string_cases s; reflexivity).
  all: intros H; revert H; string_cases s; discriminate.
Qed.

(** X6.  [validate_image_file] rejects an upload in two cases only, both
    with status 415: its name has an extension outside [ALLOWED_EXTENSIONS],
    or it has none and no signature is found in the data.  A name with an
    allowed extension is accepted whatever the data holds. *)
Theorem upload_is_rejected_exactly_when (data : bytes) (filename : string) :
  let ext := if String.eqb filename "" then "" else suffix_ext filename in
  ((exists e, validate_image_file data filename = inl e)
   <-> (ext <> "" /\ mem ext ALLOWED_EXTENSIONS = false)
       \/ (ext = "" /\ detect_format_from_magic_bytes data = None))
  /\ (forall status detail,
        validate_image_file data filename = inl (HTTPError status detail) ->
        status = 415).
Proof.
  intros ext. unfold validate_image_file. cbv zeta. fold ext.
  destruct (String.eqb_spec ext "") as [E|E].
  - rewrite E. simpl.
    destruct (detect_format_from_magic_bytes data) as [d|].
    + split.
      * split; [intros (e & H); discriminate H|].
        intros [[H _]|[_ H]]; [contradiction | discriminate H].
      * intros ? ? H; discriminate H.
    + split.
      * split; [intros _; right; split; reflexivity | intros _; eauto].
      * intros ? ? [= <- _]; reflexivity.
  - destruct (mem ext ALLOWED_EXTENSIONS) eqn:Ea; simpl.
    + split.
      * split.
        -- destruct (detect_format_from_magic_bytes data);
             [|destruct (_ || _)]; intros (e & H); discriminate H.
        -- intros [[_ H]|[H _]]; [discriminate H | contradiction].
      * destruct (detect_format_from_magic_bytes data);
          [|destruct (_ || _)]; intros ? ? H; discriminate H.
    + split.
      * split; [intros _; left; split; [exact E | reflexivity]
               | intros _; eauto].
      * intros ? ? [= <- _]; reflexivity.
Qed.

Lemma scan_magic_range (data : bytes) (table : list (bytes * string))
  (fmt : string) :
  scan_magic data table = Some fmt ->
  fmt = "webp" \/ In fmt (map snd table).
Proof.
  induction table as [|[magic f] table IH]; simpl; [discriminate|].
  destruct (startswith data magic).
  - destruct (bytes_eqb magic RIFF && (12 <=? len data)).
    + destruct (bytes_eqb (slice 8 12 data) WEBP).
      * intros [= <-]. left; reflexivity.
      * intros H. destruct (IH H); auto.
    + intros [= <-]. right; left; reflexivity.
  - intros H. destruct (IH H); auto.
Qed.

Lemma detected_format_is_allowed (data : bytes) (fmt : string) :
  detect_format_from_magic_bytes data = Some fmt ->
  In fmt ["svg"; "png"; "jpg"; "gif"; "bmp"; "webp"; "tiff"; "ico"; "qoi";
          "avif"; "heic"; "jp2"].
Proof.
  unfold detect_format_from_magic_bytes.
  destruct (existsb _ _); [intros [= <-]; simpl; tauto|].
  destruct (scan_magic data MAGIC_BYTES) as [f|] eqn:Es.
  - intros [= <-]. apply scan_magic_range in Es. simpl in Es.
    simpl. intuition (subst; auto).
  - unfold ftyp_brand.
    destruct (_ && _).
    + destruct (existsb _ _); [intros [= <-]; simpl; tauto|].
      destruct (existsb _ _); [intros [= <-]; simpl; tauto|].
      destruct (startswith _ _); [intros [= <-]; simpl; tauto|discriminate].
    + destruct (startswith _ _); [intros [= <-]; simpl; tauto|discriminate].
Qed.

Lemma validated_format_is_allowed (data : bytes) (filename fmt : string) :
  validate_image_file data filename = inr fmt ->
  In fmt ALLOWED_EXTENSIONS.
Proof.
  unfold validate_image_file.
  set (ext := if String.eqb filename "" then "" else suffix_ext filename).
  destruct (negb (String.eqb ext "") && negb (mem ext ALLOWED_EXTENSIONS));
    [discriminate|].
  destruct (detect_format_from_magic_bytes data) as [d|] eqn:Ed.
  - intros [= <-]. apply detected_format_is_allowed in Ed.
    simpl in Ed. simpl. intuition (subst; auto 20).
  - destruct (mem ext ["tga"]) eqn:Et.
    + intros [= <-]. apply mem_In in Et. simpl in Et. simpl.
      intuition (subst; auto 20).
    + destruct (mem ext ALLOWED_EXTENSIONS) eqn:Ea; [|discriminate].
      intros [= <-]. apply mem_In. exact Ea.
Qed.

Lemma validated_formats_pass_the_guards (data : bytes)
  (filename fmt : string) (p : Params) :
  validate_image_file data filename = inr fmt ->
  validate_output_format (output_format p) = inr tt ->
  _is_valid_input_format (lstrip_dots (str_lower fmt)) = true
  /\ _is_valid_output_format (resolved_output_format fmt p) = true.
Proof.
  intros Hin Hout. apply validated_format_is_allowed in Hin.
  unfold validate_output_format in Hout. unfold resolved_output_format.
  destruct (output_format p) as [o|].
  - destruct (String.eqb o "") eqn:Eo.
    + simpl in Hin.
      repeat (destruct Hin as [<-|Hin]; [split; reflexivity|]).
      contradiction.
    + destruct (mem (str_lower o) SUPPORTED_OUTPUT_FORMATS) eqn:Em;
        [|simpl in Hout; discriminate Hout].
      apply mem_In in Em. split.
      * simpl in Hin.
        repeat (destruct Hin as [<-|Hin]; [reflexivity|]). contradiction.
      * simpl in Em.
        repeat (destruct Em as [<-|Em]; [reflexivity|]). contradiction.
  - simpl in Hin.
    repeat (destruct Hin as [<-|Hin]; [split; reflexivity|]).
    contradiction.
Qed.

End Tables.

(** ** What every run of the pipeline has in common *)

Lemma bind_runs {A B} (m : Py.result A) (k : A -> Py.result B) (b : B) :
  Py.bind m k = inr b -> exists a, m = inr a /\ k a = inr b.
Proof. destruct m as [e|a]; simpl; [discriminate | eauto]. Qed.

Lemma bind_fails {A B} (m : Py.result A) (k : A -> Py.result B)
  (e : Py.PyErr) :
  Py.bind m k = inl e -> m = inl e \/ exists a, m = inr a /\ k a = inl e.
Proof. destruct m as [e'|a]; simpl; [intros [= <-]; now left | eauto]. Qed.

Section Steps.
Import Py PIL ImageService.

Variable codec : Codec.
Variable p : Params.

(** The rotation step raises nothing: the fill it builds for an RGBA image
    has its three bands. *)
Lemma rotate_step_runs (img : Image) (ops : list Operation) :
  exists img',
    rotate_step codec p (img, ops)
    = inr (img', ops ++ match rotate_angle p with
                        | Some angle => [OpRotate angle]
                        | None => []
                        end).
Proof.
  unfold rotate_step. destruct (rotate_angle p) as [angle|].
  - destruct (_ && _); [eexists; reflexivity|].
    destruct (negb _); [|eexists; reflexivity].
    unfold free_rotate. destruct (String.eqb _ _); eexists; reflexivity.
  - exists img. now rewrite app_nil_r.
Qed.

Lemma flip_step_runs (img img' : Image) (ops ops' : list Operation) :
  flip_step p (img, ops) = inr (img', ops') ->
  size img' = size img /\ mode img' = mode img
  /\ exists l, ops' = ops ++ l /\ optional_entry is_flip l.
Proof.
  unfold flip_step. destruct (flip_direction p) as [d|].
  - destruct (String.eqb d "").
    + intros [= <- <-]. repeat split. exists [].
      split; [now rewrite app_nil_r | now left].
    + destruct (negb _); [discriminate|]. cbn [raise_if bind ret].
      destruct (String.eqb _ _); intros [= <- <-];
        (split; [simpl; unfold width, height; destruct (size img);
                 reflexivity|]);
        (split; [reflexivity|]);
        (eexists; split; [reflexivity | right; eexists; split; reflexivity]).
  - intros [= <- <-]. repeat split. exists [].
    split; [now rewrite app_nil_r | now left].
Qed.

Lemma flip_step_fails (st : Image * list Operation) (e : PyErr) :
  flip_step p st = inl e -> step_error e.
Proof.
  destruct st as [img ops]. unfold flip_step.
  destruct (flip_direction p) as [d|]; [|discriminate].
  destruct (String.eqb d ""); [discriminate|].
  destruct (negb _); cbn [raise_if bind ret raise].
  - intros [= <-]. reflexivity.
  - destruct (String.eqb _ _); discriminate.
Qed.

Lemma crop_step_runs (img img' : Image) (ops ops' : list Operation) :
  crop_step p (img, ops) = inr (img', ops') ->
  exists l, ops' = ops ++ l /\ optional_entry is_crop l.
Proof.
  unfold crop_step.
  destruct (crop_x p), (crop_y p), (crop_width p), (crop_height p);
    try (intros [= <- <-]; exists [];
         split; [now rewrite app_nil_r | now left]).
  destruct (size img) as [w h].
  destruct (_ >=? _); [discriminate|].
  destruct (_ >=? _); [discriminate|]. cbn [raise_if bind ret].
  intros [= <- <-].
  eexists; split; [reflexivity | right; eexists; split; reflexivity].
Qed.

Lemma crop_step_fails (st : Image * list Operation) (e : PyErr) :
  crop_step p st = inl e -> step_error e.
Proof.
  destruct st as [img ops]. unfold crop_step.
  destruct (crop_x p), (crop_y p), (crop_width p), (crop_height p);
    try discriminate.
  destruct (size img) as [w h].
  destruct (_ >=? _); [intros [= <-]; reflexivity|].
  destruct (_ >=? _); [intros [= <-]; reflexivity|]. discriminate.
Qed.

Lemma py_int_fails (x : float) (e : PyErr) : py_int x = inl e -> step_error e.
Proof.
  unfold py_int. destruct (Prim2SF x); try discriminate;
    intros [= <-]; exact I || reflexivity.
Qed.

Lemma int_truediv_fails (a d : Z) (e : PyErr) :
  int_truediv a d = inl e -> step_error e.
Proof.
  unfold int_truediv. destruct (_ =? _); [|discriminate].
  intros [= <-]. exact I.
Qed.

Lemma resize_target_fails (w h : Z) (e : PyErr) :
  resize_target p w h = inl e -> step_error e.
Proof.
  unfold resize_target, int_of_percent, int_of_product.
  intros H.
  repeat match type of H with
  | bind _ _ = inl _ =>
      apply bind_fails in H; destruct H as [H|(? & _ & H)]
  | py_int _ = inl _ => exact (py_int_fails _ _ H)
  | int_truediv _ _ = inl _ => exact (int_truediv_fails _ _ _ H)
  | ret _ = inl _ => discriminate H
  | inr _ = inl _ => discriminate H
  | raise _ = inl _ => injection H as <-; exact I
  | context [match ?x with _ => _ end] => destruct x
  end.
Qed.

Lemma resize_step_fails (st : Image * list Operation) (e : PyErr) :
  resize_step codec p st = inl e -> step_error e.
Proof.
  destruct st as [img ops]. unfold resize_step.
  destruct (_ || _); [|discriminate].
  destruct (size img) as [w h].
  destruct (resize_target p w h) as [e'|[tw th]] eqn:E; cbn [bind].
  - intros [= <-]. exact (resize_target_fails _ _ _ E).
  - destruct (resize_scale p) as [s|]; [destruct (float_truthy s)|];
      discriminate.
Qed.

Lemma resize_step_runs (img img' : Image) (ops ops' : list Operation) :
  resize_step codec p (img, ops) = inr (img', ops') ->
  exists l, ops' = ops ++ l /\ optional_entry is_resize l
            /\ (l = [] -> img' = img)
            /\ (l <> [] -> 1 <= width img' /\ 1 <= height img').
Proof.
  unfold resize_step.
  destruct (_ || _).
  2:{ intros [= <- <-]. exists []. rewrite app_nil_r.
      split; [reflexivity|]. split; [now left|].
      split; [reflexivity | intros Hl; now contradiction Hl]. }
  destruct (size img) as [w h].
  destruct (resize_target p w h) as [e'|[tw th]]; [discriminate|]. cbn [bind].
  destruct (resize_scale p) as [s|]; [destruct (float_truthy s)|];
    intros [= <- <-]; (eexists; split; [reflexivity|]);
    (split; [right; eexists; split; reflexivity|]);
    (split; [discriminate|]); intros _; unfold width, height; simpl; lia.
Qed.

Lemma transform_runs (img img' : Image) (ops : list Operation) :
  transform codec p (img, []) = inr (img', ops) ->
  exists rot flp crp rsz,
    optional_entry is_rotate rot /\ optional_entry is_flip flp
    /\ optional_entry is_crop crp /\ optional_entry is_resize rsz
    /\ ops = rot ++ flp ++ crp ++ rsz
    /\ (rsz <> [] -> 1 <= width img' /\ 1 <= height img').
Proof.
  unfold transform. intros H.
  destruct (rotate_step_runs img []) as (img1 & H1).
  rewrite H1 in H. cbn [bind] in H.
  apply bind_runs in H. destruct H as ([img2 ops2] & H2 & H).
  apply bind_runs in H. destruct H as ([img3 ops3] & H3 & H4).
  apply flip_step_runs in H2. destruct H2 as (_ & _ & flp & -> & Hflp).
  apply crop_step_runs in H3. destruct H3 as (crp & -> & Hcrp).
  apply resize_step_runs in H4. destruct H4 as (rsz & -> & Hrsz & _ & Hsz).
  exists (match rotate_angle p with Some a => [OpRotate a] | None => [] end),
    flp, crp, rsz.
  split.
  { destruct (rotate_angle p);
      [right; eexists; split; reflexivity | now left]. }
  repeat (split; [assumption|]).
  split; [|exact Hsz].
  simpl. now rewrite <- !app_assoc.
Qed.

Lemma transform_fails (st : Image * list Operation) (e : PyErr) :
  transform codec p st = inl e -> step_error e.
Proof.
  unfold transform. intros H. destruct st as [img ops].
  destruct (rotate_step_runs img ops) as (img1 & H1).
  rewrite H1 in H. cbn [bind] in H.
  apply bind_fails in H. destruct H as [H|(st2 & _ & H)];
    [exact (flip_step_fails _ _ H)|].
  apply bind_fails in H. destruct H as [H|(st3 & _ & H)];
    [exact (crop_step_fails _ _ H)|].
  exact (resize_step_fails _ _ H).
Qed.

Lemma open_from_bytes_fails (image_bytes : bytes) (fmt : string)
  (scale : float) (e : PyErr) :
  _open_image_from_bytes codec image_bytes fmt scale = inl e -> step_error e.
Proof.
  unfold _open_image_from_bytes, or_codec_error. intros H.
  repeat match type of H with
  | context [match ?x with _ => _ end] =>
      destruct x; cbn [bind ret raise] in H
  end; try discriminate H; injection H as <-; exact I || reflexivity.
Qed.

Lemma step_error_leaves (e : PyErr) :
  step_error e ->
  pipeline_error (reraise_value_error e)
  /\ match reraise_value_error e with
     | ValueError why => request_reason why = true
     | _ => True
     end.
Proof. destruct e; simpl; try tauto. destruct why; simpl; intuition. Qed.

Lemma process_image_bytes_result (image_bytes : bytes)
  (input_format : string) (r : Processed) :
  process_image_bytes codec image_bytes input_format p = inr r ->
  success r = true
  /\ input_bytes_size r = len image_bytes
  /\ output_bytes_size r = len (output_bytes r)
  /\ result_format r = resolved_output_format input_format p
  /\ _is_valid_output_format (result_format r) = true
  /\ exists rot flp crp rsz,
       optional_entry is_rotate rot /\ optional_entry is_flip flp
       /\ optional_entry is_crop crp /\ optional_entry is_resize rsz
       /\ operations_applied r
          = match rot ++ flp ++ crp ++ rsz with
            | [] => [OpConvert (result_format r)]
            | ops => ops
            end
       /\ (rsz <> [] ->
           1 <= fst (output_size r) /\ 1 <= snd (output_size r)).
Proof.
  unfold process_image_bytes. fold (resolved_output_format input_format p).
  destruct (negb (_is_valid_input_format _)); [discriminate|].
  destruct (_is_valid_output_format (resolved_output_format input_format p))
    eqn:Eout; [|discriminate].
  cbn [negb raise_if bind ret].
  intros H.
  destruct (_open_image_from_bytes _ _ _ _) as [e|img]; [discriminate|].
  cbn [bind try_except] in H.
  destruct (transform codec p (img, [])) as [e|[img' ops]] eqn:Et;
    [discriminate|].
  cbn [bind] in H.
  destruct (_save_image_to_bytes _ _ _ _) as [e|written]; [discriminate|].
  cbn [bind try_except ret] in H. injection H as <-. cbn.
  repeat (split; [reflexivity || assumption|]).
  destruct (transform_runs _ _ _ Et)
    as (rot & flp & crp & rsz & Hr & Hf & Hc & Hz & -> & Hsz).
  exists rot, flp, crp, rsz. repeat (split; [assumption|]).
  split; [destruct (rot ++ flp ++ crp ++ rsz); reflexivity | exact Hsz].
Qed.

Lemma process_image_bytes_error (image_bytes : bytes)
  (input_format : string) (e : PyErr) :
  process_image_bytes codec image_bytes input_format p = inl e ->
  pipeline_error e
  /\ (_is_valid_input_format (lstrip_dots (str_lower input_format)) = true ->
      _is_valid_output_format (resolved_output_format input_format p) = true ->
      match e with
      | ValueError why => request_reason why = true
      | _ => True
      end).
Proof.
  unfold process_image_bytes. fold (resolved_output_format input_format p).
  destruct (_is_valid_input_format _);
    [|intros [= <-]; split; [reflexivity | discriminate]].
  cbn [negb raise_if bind ret].
  destruct (_is_valid_output_format _);
    [|intros [= <-]; split; [reflexivity | discriminate]].
  cbn [negb raise_if bind ret].
  destruct (_open_image_from_bytes _ _ _ _) as [e0|img] eqn:Eo.
  - cbn [bind try_except]. intros [= <-].
    apply open_from_bytes_fails, step_error_leaves in Eo. tauto.
  - cbn [bind].
    destruct (transform codec p (img, [])) as [e0|[img' ops]] eqn:Et.
    + cbn [bind try_except]. intros [= <-].
      apply transform_fails, step_error_leaves in Et. tauto.
    + cbn [bind]. unfold _save_image_to_bytes, save.
      destruct (save_accepts _ _ _ _); [discriminate|].
      cbn [bind try_except raise]. intros [= <-].
      split; [exact I | intros _ _; exact I].
Qed.

End Steps.

(** X7.  Whatever [process_image_bytes] returns reports success, the two
    byte counts, and an output format the service writes (never svg); its log
    holds at most one entry per step, in the order rotation, flip, crop,
    resize, or the single conversion entry when no step ran; and when a
    resize ran, neither side of the output is below one pixel. *)
Theorem processed_result_is_well_formed (codec : PIL.Codec)
  (p : ImageService.Params) (image_bytes : Py.bytes) (input_format : string)
  (r : ImageService.Processed) :
  ImageService.process_image_bytes codec image_bytes input_format p = inr r ->
  ImageService.success r = true
  /\ ImageService.input_bytes_size r = Py.len image_bytes
  /\ ImageService.output_bytes_size r
     = Py.len (ImageService.output_bytes r)
  /\ ImageService.result_format r = resolved_output_format input_format p
  /\ ImageService._is_valid_output_format (ImageService.result_format r)
     = true
  /\ exists rot flp crp rsz,
       optional_entry is_rotate rot /\ optional_entry is_flip flp
       /\ optional_entry is_crop crp /\ optional_entry is_resize rsz
       /\ ImageService.operations_applied r
          = match rot ++ flp ++ crp ++ rsz with
            | [] => [ImageService.OpConvert (ImageService.result_format r)]
            | ops => ops
            end
       /\ (rsz <> [] ->
           1 <= fst (ImageService.output_size r)
           /\ 1 <= snd (ImageService.output_size r)).
Proof. apply process_image_bytes_result. Qed.

Lemma processed_result_is_well_formed_witness :
  exists r,
    ImageService.process_image_bytes (Sample.codec 3000) Sample.rgb_200x150
      "png" Sample.scale_50_width_120 = inr r
    /\ ImageService.result_format r = "png"
    /\ ImageService.input_bytes_size r = 6.
Proof.
  eexists. split; [reflexivity|].
  destruct (processed_result_is_well_formed (Sample.codec 3000)
              Sample.scale_50_width_120 Sample.rgb_200x150 "png" _ eq_refl)
    as (_ & Hin & _ & Hfmt & _).
  split; [exact Hfmt | exact Hin].
Defined.

(** X8.  An exception that leaves [process_image_bytes] is a [ValueError]
    for an unsupported input or output format, a missing SVG rasteriser, an
    invalid flip direction, a crop origin outside the image or a NaN size, or
    it is an [Exception] that wraps something other than a [ValueError]:
    nothing else is raised, and none of the argument checks of
    [resize_image] and [crop_image] is made.  Pillow and cairosvg fail, as
    [Codec] has them, while decoding and while encoding only, and with no
    [ValueError]. *)
Theorem pipeline_raises_only (codec : PIL.Codec) (p : ImageService.Params)
  (image_bytes : Py.bytes) (input_format : string) (e : Py.PyErr) :
  ImageService.process_image_bytes codec image_bytes input_format p = inl e ->
  pipeline_error e.
Proof. intros H. exact (proj1 (process_image_bytes_error _ _ _ _ _ H)). Qed.

Lemma pipeline_raises_only_witness :
  ImageService.process_image_bytes (Sample.codec 3000) Sample.rgb_200x150
    "png" Sample.crop_at_300
  = inl (Py.ValueError (Py.CropXOutside 300 200))
  /\ pipeline_error (Py.ValueError (Py.CropXOutside 300 200)).
Proof.
  split; [reflexivity|].
  exact (pipeline_raises_only (Sample.codec 3000) Sample.crop_at_300
           Sample.rgb_200x150 "png" _ eq_refl).
Defined.

(** ** The endpoints *)

Section EndpointFacts.
Import Py PIL ImageService Endpoints.

Lemma validate_image_file_status (data : bytes) (name : string)
  (status : Z) (detail : Routers.Detail) :
  Routers.validate_image_file data name
  = inl (Routers.HTTPError status detail) ->
  status = 415
  /\ match detail with
     | Routers.UnsupportedOutputFormat _ => False
     | _ => True
     end.
Proof.
  unfold Routers.validate_image_file. cbv zeta.
  destruct (_ && _); [intros [= <- <-]; split; [reflexivity | exact I]|].
  destruct (Routers.detect_format_from_magic_bytes data); [discriminate|].
  destruct (mem _ ["tga"]); [discriminate|].
  destruct (mem _ _); [discriminate|].
  intros [= <- <-]; split; [reflexivity | exact I].
Qed.

Lemma validate_output_format_status (o : option string)
  (status : Z) (detail : Routers.Detail) :
  Routers.validate_output_format o = inl (Routers.HTTPError status detail) ->
  status = 400 /\ exists fmt, detail = Routers.UnsupportedOutputFormat fmt.
Proof.
  unfold Routers.validate_output_format.
  destruct o as [fmt|]; [|discriminate].
  destruct (_ && _); [|discriminate].
  intros [= <- <-]. eauto.
Qed.

Lemma ascii_only_app (s t : string) :
  ascii_only (s ++ t) = ascii_only s && ascii_only t.
Proof.
  unfold ascii_only. induction s as [|c s IH]; simpl; [reflexivity|].
  rewrite IH. apply andb_assoc.
Qed.

Lemma ascii_ignore_is_ascii (s : string) : ascii_only (ascii_ignore s) = true.
Proof.
  unfold ascii_only. induction s as [|c s IH]; simpl; [reflexivity|].
  destruct (is_ascii c) eqn:E; simpl; [rewrite E|]; exact IH.
Qed.

Lemma writable_format_has_mime (fmt : string) :
  _is_valid_output_format fmt = true ->
  ascii_only fmt = true
  /\ exists mime, dict_get fmt FORMAT_TO_MIME = Some mime.
Proof.
  unfold _is_valid_output_format, dict_mem. simpl.
  repeat match goal with
  | |- context [String.eqb fmt ?c] =>
      destruct (String.eqb_spec fmt c) as [->|?];
        [intros _; split; [reflexivity | eexists; reflexivity]|]
  end.
  discriminate.
Qed.

Lemma optional_entry_length (kind : Operation -> bool) (l : list Operation) :
  optional_entry kind l -> (List.length l <= 1)%nat.
Proof. intros [->|(op & -> & _)]; simpl; lia. Qed.

Variable codec : Codec.

Lemma read_and_validate_runs (file : UploadFile) (image_bytes : bytes)
  (input_format : string) :
  read_and_validate file = inr (image_bytes, input_format) ->
  read file = inr image_bytes
  /\ 0 < len image_bytes
  /\ Routers.validate_image_file image_bytes (str_or (filename file) "")
     = inr input_format.
Proof.
  unfold read_and_validate. destruct (read file) as [e|data]; [discriminate|].
  destruct (len data =? 0) eqn:E; [discriminate|].
  destruct (Routers.validate_image_file _ _) as [e|fmt] eqn:Ev;
    [discriminate|].
  intros [= <- <-]. repeat split; [|exact Ev].
  apply Z.eqb_neq in E. unfold len in *. lia.
Qed.

Lemma read_and_validate_fails (file : UploadFile) (e : HTTPException) :
  read_and_validate file = inl e -> endpoint_error e.
Proof.
  unfold read_and_validate. destruct (read file) as [e0|data].
  - intros [= <-]. reflexivity.
  - destruct (len data =? 0); [intros [= <-]; reflexivity|].
    destruct (Routers.validate_image_file _ _)
      as [[status detail]|fmt] eqn:Ev; [|discriminate].
    intros [= <-]. apply validate_image_file_status in Ev.
    destruct Ev as [-> Hd]. simpl. destruct detail; tauto.
Qed.

(** X9.  The two processing endpoints answer a failure with 500 when the
    upload cannot be read, 400 when it is empty, 415 when
    [validate_image_file] refuses it, 400 when the output format is refused,
    400 for a [ValueError] of the pipeline, which after the two validations
    is never one about a format, and 500 for any other exception.  The
    answer kept for a result without success is never given.  Pillow and
    cairosvg fail, as [Codec] has them, while decoding and while encoding
    only, and with no [ValueError]. *)
Theorem endpoint_errors (file : UploadFile) (form : Params) :
  (forall e, upload_and_process codec file form = inl e -> endpoint_error e)
  /\ (forall e, upload_and_get_info codec file form = inl e ->
                endpoint_error e).
Proof.
  split; intros e;
    [unfold upload_and_process | unfold upload_and_get_info];
    (destruct (read_and_validate file) as [e0|[image_bytes fmt]] eqn:Er;
     [intros [= <-]; exact (read_and_validate_fails _ _ Er)|]);
    apply read_and_validate_runs in Er; destruct Er as (_ & _ & Ev);
    (destruct (Routers.validate_output_format _)
       as [[status detail]|[]] eqn:Eo;
     [ intros [= <-]; apply validate_output_format_status in Eo;
       destruct Eo as (-> & f & ->); reflexivity |]);
    destruct (validated_formats_pass_the_guards _ _ _ form Ev Eo)
      as [Hin Hout];
    (destruct (process_image_bytes codec image_bytes fmt (forwarded form))
       as [e0|r] eqn:Ep).
  - apply process_image_bytes_error in Ep. destruct Ep as [Hp Hr].
    specialize (Hr Hin Hout).
    destruct e0; intros [= <-]; simpl; try tauto.
    destruct e0; simpl in Hp; tauto.
  - apply process_image_bytes_result in Ep. destruct Ep as (-> & _).
    discriminate.
  - apply process_image_bytes_error in Ep. destruct Ep as [Hp Hr].
    specialize (Hr Hin Hout).
    destruct e0; intros [= <-]; simpl; try tauto.
    destruct e0; simpl in Hp; tauto.
  - discriminate.
Qed.

(** X10.  A response of [upload_and_process] carries the bytes and the two
    sizes of the pipeline's result, a media type that is the entry of
    [FORMAT_TO_MIME] for the output format (the fallback type is never
    sent), a file name made of ASCII characters only, and an operation count
    between 1 and 4. *)
Theorem streaming_response_is_well_formed (file : UploadFile)
  (form : Params) (resp : StreamingResponse) :
  upload_and_process codec file form = inr resp ->
  exists image_bytes input_format r,
    read file = inr image_bytes
    /\ process_image_bytes codec image_bytes input_format (forwarded form)
       = inr r
    /\ body resp = output_bytes r
    /\ x_original_size resp = original_size r
    /\ x_output_size resp = output_size r
    /\ dict_get (result_format r) FORMAT_TO_MIME = Some (media_type resp)
    /\ ascii_only (output_filename resp) = true
    /\ 1 <= x_operations_count resp <= 4.
Proof.
  unfold upload_and_process.
  destruct (read_and_validate file) as [e0|[image_bytes fmt]] eqn:Er;
    [discriminate|].
  apply read_and_validate_runs in Er. destruct Er as (Hread & _ & _).
  destruct (Routers.validate_output_format _); [discriminate|].
  destruct (process_image_bytes codec image_bytes fmt (forwarded form))
    as [e0|r] eqn:Ep; [destruct e0; discriminate|].
  destruct (process_image_bytes_result _ _ _ _ _ Ep)
    as (Hs & _ & _ & _ & Hfmt & rot & flp & crp & rsz & Hr & Hf & Hc & Hz
        & Hops & _).
  rewrite Hs. simpl negb. cbv iota.
  destruct (writable_format_has_mime _ Hfmt) as (Hascii & mime & Hmime).
  rewrite Hmime. intros [= <-]. cbn.
  exists image_bytes, fmt, r.
  repeat (split; [reflexivity || assumption|]).
  split.
  - change (ascii_only ("processed_" ++
              (str_or (Some (ascii_ignore
                 (path_stem (str_or (filename file) "image")))) "image"
               ++ "." ++ result_format r)) = true)%string.
    rewrite !ascii_only_app, Hascii.
    unfold str_or. destruct (String.eqb _ ""); [reflexivity|].
    now rewrite ascii_ignore_is_ascii.
  - rewrite Hops. unfold len.
    apply optional_entry_length in Hr, Hf, Hc, Hz.
    assert (Hlen : (List.length (rot ++ flp ++ crp ++ rsz) <= 4)%nat)
      by (rewrite !length_app; lia).
    destruct (rot ++ flp ++ crp ++ rsz); simpl in *; lia.
Qed.

(** X11.  The information endpoint reports the format [validate_image_file]
    settled on, in capitals, and the length of the upload, which is not
    zero; the image is a vector image exactly when that format is svg.  Any
    exception of the service, a [ValueError] included, is answered with 500
    here. *)
Theorem info_endpoint (file : UploadFile) :
  (forall info,
     get_image_info codec file = inr info ->
     exists image_bytes fmt,
       read file = inr image_bytes
       /\ Routers.validate_image_file image_bytes
            (str_or (filename file) "") = inr fmt
       /\ iir_format info = str_upper fmt
       /\ iir_file_size info = len image_bytes
       /\ 0 < iir_file_size info
       /\ (iir_is_vector info = true <-> fmt = "svg"))
  /\ (forall e,
        get_image_info codec file = inl e ->
        match e with
        | Validation (Routers.HTTPError status _) => status = 415
        | HTTPError status EmptyFile => status = 400
        | HTTPError status (FileReadFailed _)
        | HTTPError status (InfoUnreadable _) => status = 500
        | _ => False
        end).
Proof.
  unfold get_image_info. split.
  - intros info.
    destruct (read_and_validate file) as [e0|[image_bytes fmt]] eqn:Er;
      [discriminate|].
    apply read_and_validate_runs in Er. destruct Er as (Hread & Hlen & Hv).
    unfold get_image_info_from_bytes.
    assert (Hfmt : lstrip_dots (str_lower fmt) = fmt).
    { apply validated_format_is_allowed in Hv. simpl in Hv.
      repeat (destruct Hv as [<-|Hv]; [reflexivity|]). contradiction. }
    rewrite Hfmt.
    destruct (_open_image_from_bytes _ _ _ _); [discriminate|].
    cbn [bind ret]. intros [= <-]. cbn.
    exists image_bytes, fmt. repeat (split; [reflexivity || assumption|]).
    apply String.eqb_eq.
  - intros e. unfold read_and_validate.
    destruct (read file) as [e0|data].
    + intros [= <-]. reflexivity.
    + destruct (len data =? 0); [intros [= <-]; reflexivity|].
      destruct (Routers.validate_image_file _ _)
        as [[status detail]|fmt] eqn:Ev.
      * intros [= <-]. apply validate_image_file_status in Ev. tauto.
      * destruct (get_image_info_from_bytes _ _ _); [|discriminate].
        intros [= <-]. reflexivity.
Qed.

End EndpointFacts.

Lemma streaming_response_is_well_formed_witness :
  exists resp,
    Endpoints.upload_and_process (Sample.codec 3000) Sample.photo_upload
      Sample.rotate_90_only = inr resp
    /\ Endpoints.media_type resp = "image/png"
    /\ Endpoints.output_filename resp = "processed_photo.png"
    /\ Endpoints.x_output_size resp = (150, 200)
    /\ 1 <= Endpoints.x_operations_count resp <= 4.
Proof.
  eexists. split; [reflexivity|].
  destruct (streaming_response_is_well_formed (Sample.codec 3000)
              Sample.photo_upload Sample.rotate_90_only _ eq_refl)
    as (_ & _ & _ & _ & _ & _ & _ & _ & _ & _ & Hcount).
  repeat split; exact (proj1 Hcount) || exact (proj2 Hcount).
Defined.

(** ** The quality search when the target can be met *)

Lemma le_is_not_gt (s : Z) (t : Py.number) :
  Py.int_le_num s t = true -> Py.int_gt_num s t = false.
Proof.
  intros H. destruct (Py.int_gt_num s t) eqn:E; [|reflexivity].
  apply gt_is_not_le in E. congruence.
Qed.

Section SearchFits.
Import Py.

Variable size_at : Z -> Z.
Variable target : number.

(** Within the tolerance of the target, or not above it. *)
Let fits (q : Z) : Prop :=
  abs_diff_le (size_at q) target 1024 = true
  \/ int_gt_num (size_at q) target = false.

(** The search keeps two facts: the best-so-far fits once a midpoint has
    been recorded, and until then the lower bound is still 1; the probe just
    above the upper bound was too large once the bound has moved.  So a
    search that ends with nothing recorded has found quality 1 too large. *)
Lemma binary_search_fits (lo hi best q : Z) :
  QualitySearch.binary_search size_at target lo hi best q ->
  fits 1 ->
  lo <= hi + 1 ->
  hi = 95 \/ QualitySearch.too_large size_at target (hi + 1) ->
  fits best \/ lo = 1 ->
  fits q.
Proof.
  intros Hs Hone. induction Hs as
    [lo hi best Hlt | lo hi best Hle Hin | lo hi best q Hle Hbig Hs IH
    | lo hi best q Hle Hsmall Hs IH]; intros Hbound Hhi Hbest.
  - destruct Hbest as [Hb | ->]; [exact Hb|].
    assert (hi = 0) by lia. subst hi.
    destruct Hhi as [Hhi|Hhi]; [discriminate Hhi|].
    change (0 + 1) with 1 in Hhi. destruct Hhi as [Hout Hgt].
    unfold fits, QualitySearch.tolerance in *.
    destruct Hone as [Hone|Hone]; congruence.
  - left. exact Hin.
  - assert (lo <= QualitySearch.midpoint lo hi <= hi).
    { unfold QualitySearch.midpoint.
      split; [apply Z.div_le_lower_bound | apply Z.div_le_upper_bound]; lia. }
    apply IH; [lia | right | exact Hbest].
    replace (QualitySearch.midpoint lo hi - 1 + 1)
      with (QualitySearch.midpoint lo hi) by lia.
    exact Hbig.
  - assert (lo <= QualitySearch.midpoint lo hi <= hi).
    { unfold QualitySearch.midpoint.
      split; [apply Z.div_le_lower_bound | apply Z.div_le_upper_bound]; lia. }
    apply IH; [lia | exact Hhi | left; right; apply Hsmall].
Qed.

End SearchFits.

Section SearchGuarantee.
Import Py PIL ImageService.

Variable codec : Codec.
Variable img : Image.
Variable fmt : string.
Variable target : number.

Hypothesis quality_capable : mem fmt QUALITY_FORMATS = true.
Hypothesis probes : probes_accepted codec img fmt.

Lemma find_optimal_quality_fits :
  int_gt_num (probe_size codec img fmt 1) target = false ->
  exists q,
    _find_optimal_quality codec img fmt target 1024 = inr q
    /\ 1 <= q <= 95
    /\ (abs_diff_le (probe_size codec img fmt q) target 1024 = true
        \/ int_gt_num (probe_size codec img fmt q) target = false).
Proof.
  intros Hone.
  assert (Hfit : exists q,
             _find_optimal_quality codec img fmt target 1024 = inr q
             /\ (abs_diff_le (probe_size codec img fmt q) target 1024 = true
                 \/ int_gt_num (probe_size codec img fmt q) target = false)).
  { unfold _find_optimal_quality. rewrite quality_capable.
    simpl negb. cbv iota.
    rewrite (probe_succeeds codec img fmt quality_capable probes).
    cbn [bind].
    destruct (int_le_num (probe_size codec img fmt 95) target) eqn:E95.
    - exists 95. split; [reflexivity|]. right. apply le_is_not_gt, E95.
    - destruct (quality_loop_refines codec img fmt target quality_capable
                  probes 1 95 85) as (q & Hq & Hs).
      exists q. split; [exact Hq|].
      apply (binary_search_fits _ _ _ _ _ _ Hs);
        [right; exact Hone | lia | left; reflexivity | right; reflexivity]. }
  destruct Hfit as (q & Hq & Hfit). exists q.
  split; [exact Hq|].
  split; [exact (find_optimal_quality_range _ _ _ _ _ Hq) | exact Hfit].
Qed.

End SearchGuarantee.

Section CompressionRuns.
Import Py PIL ImageService.

Variable codec : Codec.
Variable fs : FS.
Variables input_path output_path : string.
Variable content : bytes.
Variable decoded : Image.
Variable quality : Z.
Variable max_dimension : option Z.

Let fmt : string := suffix_ext output_path.
Let img : Image := compress_buffer codec fmt max_dimension decoded.

(** The input file is there, is not empty, has a supported extension and
    decodes; the output extension names a format the service writes. *)
Hypothesis input_exists : fs input_path = Some content.
Hypothesis input_not_empty : content <> [].
Hypothesis input_supported :
  dict_mem (suffix_ext input_path) SUPPORTED_FORMATS = true.
Hypothesis output_supported : dict_mem fmt SUPPORTED_FORMATS = true.
Hypothesis input_decodes : image_open codec content = Some decoded.

Lemma compress_image_runs (target_size_kb : option float)
  (final_quality : Z) :
  match target_size_kb with
  | Some kb =>
      _find_optimal_quality codec img fmt (Float (kb * float_of_Z 1024)) 1024
  | None => ret quality
  end = inr final_quality ->
  encodable codec img fmt final_quality ->
  let encoded :=
    image_save codec img (pil_format_of fmt)
      (save_kwargs_for fmt final_quality) in
  exists r,
    compress_image codec fs input_path output_path target_size_kb quality
      max_dimension = inr (r, fs_write fs output_path encoded)
    /\ cmp_success r = true
    /\ cmp_final_quality r = final_quality
    /\ cmp_input_size r = len content
    /\ cmp_output_size r = len encoded
    /\ cmp_original_dimensions r = size decoded
    /\ cmp_final_dimensions r = size img.
Proof.
  intros Hq Hsave encoded.
  assert (Hlen : (len content =? 0) = false).
  { apply Z.eqb_neq. unfold len.
    destruct content; [contradiction | simpl; lia]. }
  unfold compress_image. rewrite input_exists.
  fold fmt. rewrite input_supported, output_supported.
  unfold or_codec_error. rewrite input_decodes.
  cbn [negb raise_if bind ret].
  change (match max_dimension with
          | Some d =>
              if exceeds max_dimension (alpha_flatten WHITE fmt decoded)
              then image_thumbnail codec (alpha_flatten WHITE fmt decoded)
                     (d, d)
              else alpha_flatten WHITE fmt decoded
          | None => alpha_flatten WHITE fmt decoded
          end) with img.
  rewrite Hq.
  unfold dict_item. rewrite (dict_mem_get fmt output_supported).
  cbn [bind ret]. rewrite (save_runs _ _ _ _ Hsave).
  unfold int_truediv. rewrite Hlen.
  cbn [bind ret try_except].
  assert (Hsize :
    getsize (fs_write fs output_path encoded) output_path = len encoded).
  { unfold getsize, fs_write. now rewrite String.eqb_refl. }
  fold encoded. rewrite Hsize.
  eexists. split; [reflexivity|]. repeat split.
Qed.

(** X12.  When the encoding at quality 1 is not above the target,
    [compress_image] of an input that decodes to jpg, jpeg or webp succeeds
    with a quality between 1 and 95, and the file it writes, which is the
    probe at that quality, is within 1024 bytes of the target or not above
    it, provided the encoder accepts the image at every quality. *)
Theorem reachable_target_is_kept (target_size_kb : float) :
  let target := Float (target_size_kb * float_of_Z 1024) in
  mem fmt ["jpg"; "jpeg"; "webp"] = true ->
  probes_accepted codec img fmt ->
  int_gt_num (encoded_size codec img fmt 1 (Some true)) target = false ->
  exists r fs',
    compress_image codec fs input_path output_path (Some target_size_kb)
      quality max_dimension = inr (r, fs')
    /\ cmp_success r = true
    /\ 1 <= cmp_final_quality r <= 95
    /\ fs' output_path
       = Some (image_save codec img (pil_format_of fmt)
                 {| kw_quality := Some (cmp_final_quality r);
                    kw_optimize := Some true |})
    /\ cmp_output_size r
       = encoded_size codec img fmt (cmp_final_quality r) (Some true)
    /\ (abs_diff_le (cmp_output_size r) target 1024 = true
        \/ int_gt_num (cmp_output_size r) target = false).
Proof.
  intros target Hfmt Hprobes Hone.
  assert (Hq : mem fmt QUALITY_FORMATS = true
               /\ forall q, save_kwargs_for fmt q
                            = {| kw_quality := Some q;
                                 kw_optimize := Some true |}).
  { apply mem_In in Hfmt. simpl in Hfmt.
    destruct Hfmt as [<-|[<-|[<-|[]]]]; split; reflexivity. }
  destruct Hq as [Hcap Hkw].
  rewrite <- (probe_is_encoded_size codec img fmt Hcap Hprobes) in Hone.
  destruct (find_optimal_quality_fits codec img fmt target Hcap Hprobes Hone)
    as (q & Hq & Hrange & Hfit).
  assert (Hsave : encodable codec img fmt q).
  { unfold encodable. rewrite Hkw. apply Hprobes. }
  destruct (compress_image_runs (Some target_size_kb) q Hq Hsave)
    as (r & Hr & Hs & Hfq & _ & Hout & _).
  exists r, (fs_write fs output_path
               (image_save codec img (pil_format_of fmt)
                  (save_kwargs_for fmt q))).
  rewrite Hfq, Hout, Hkw.
  split; [rewrite <- Hkw; exact Hr|].
  split; [exact Hs|]. split; [exact Hrange|].
  split; [unfold fs_write; now rewrite String.eqb_refl|].
  split; [reflexivity|].
  rewrite (probe_is_encoded_size codec img fmt Hcap Hprobes) in Hfit.
  exact Hfit.
Qed.

(** X13.  For an output format without a quality, [compress_image] of an
    input that decodes writes the same file whatever the target size and the
    quality asked for, provided the encoder accepts the image: the encoder
    receives no quality; with a target the quality reported is 95, and no
    probe is made to find it. *)
Theorem target_is_ignored_without_quality (target_size_kb : float) :
  mem fmt QUALITY_FORMATS = false ->
  save_accepts codec img (pil_format_of fmt)
    {| kw_quality := None; kw_optimize := None |} = true ->
  let encoded :=
    image_save codec img (pil_format_of fmt)
      {| kw_quality := None; kw_optimize := None |} in
  (exists r,
     compress_image codec fs input_path output_path (Some target_size_kb)
       quality max_dimension = inr (r, fs_write fs output_path encoded)
     /\ cmp_final_quality r = 95
     /\ cmp_output_size r = len encoded)
  /\ (exists r,
        compress_image codec fs input_path output_path None
          quality max_dimension = inr (r, fs_write fs output_path encoded)
        /\ cmp_final_quality r = quality
        /\ cmp_output_size r = len encoded).
Proof.
  intros Hfmt Haccepts encoded.
  assert (Hkw : forall q, save_kwargs_for fmt q
                          = {| kw_quality := None; kw_optimize := None |}).
  { intros q. unfold save_kwargs_for. now rewrite Hfmt. }
  assert (Hsave : forall q, encodable codec img fmt q).
  { intros q. unfold encodable. rewrite Hkw. exact Haccepts. }
  split.
  - destruct (compress_image_runs (Some target_size_kb) 95)
      as (r & Hr & _ & Hq & _ & Hout & _).
    { unfold _find_optimal_quality. now rewrite Hfmt. }
    { apply Hsave. }
    rewrite Hkw in Hr, Hout. eauto.
  - destruct (compress_image_runs None quality eq_refl (Hsave quality))
      as (r & Hr & _ & Hq & _ & Hout & _).
    rewrite Hkw in Hr, Hout. eauto.
Qed.

End CompressionRuns.

Lemma reachable_target_is_kept_witness :
  exists r fs',
    ImageService.compress_image (Sample.codec 3000) Sample.fs "photo.png"
      "out.jpg" (Some 8%float) 85 None = inr (r, fs')
    /\ 1 <= ImageService.cmp_final_quality r <= 95
    /\ (Py.abs_diff_le (ImageService.cmp_output_size r)
          (Py.Float (8 * Py.float_of_Z 1024)) 1024 = true
        \/ Py.int_gt_num (ImageService.cmp_output_size r)
             (Py.Float (8 * Py.float_of_Z 1024)) = false).
Proof.
  destruct (reachable_target_is_kept (Sample.codec 3000) Sample.fs
              "photo.png" "out.jpg" Sample.rgb_200x150
              (Sample.grey_image 200 150) 85 None
              eq_refl ltac:(discriminate) eq_refl eq_refl eq_refl
              8%float eq_refl (fun q => eq_refl) eq_refl)
    as (r & fs' & Hrun & _ & Hq & _ & _ & Hfit).
  exists r, fs'. split; [exact Hrun|]. split; [exact Hq | exact Hfit].
Defined.

Lemma target_is_ignored_without_quality_witness :
  exists r fs',
    ImageService.compress_image (Sample.codec 3000) Sample.fs "photo.png"
      "out.png" (Some 1%float) 40 None = inr (r, fs')
    /\ ImageService.cmp_final_quality r = 95
    /\ ImageService.cmp_output_size r = 3000.
Proof.
  destruct (target_is_ignored_without_quality (Sample.codec 3000) Sample.fs
              "photo.png" "out.png" Sample.rgb_200x150
              (Sample.grey_image 200 150) 40 None
              eq_refl ltac:(discriminate) eq_refl eq_refl eq_refl
              1%float eq_refl eq_refl)
    as [(r & Hrun & Hq & Hsize) _].
  eexists r, _. split; [exact Hrun|]. split; [exact Hq|].
  rewrite Hsize. vm_compute. reflexivity.
Defined.

(** ** The methods that work on files *)

Lemma try_except_runs {A} (body : Py.result A)
  (handler : Py.PyErr -> Py.PyErr) (a : A) :
  Py.try_except body handler = inr a -> body = inr a.
Proof. destruct body; simpl; [discriminate | trivial]. Qed.

Lemma fs_write_writes_only (fs : ImageService.FS) (path : string)
  (data : Py.bytes) :
  writes_only path fs (ImageService.fs_write fs path data).
Proof.
  unfold writes_only, ImageService.fs_write. split.
  - exists data. now rewrite String.eqb_refl.
  - intros other Hne. apply String.eqb_neq in Hne. now rewrite Hne.
Qed.

(** Takes apart a run that returned, one call at a time. *)
Ltac returned H :=
  repeat first
    [ discriminate H
    | apply try_except_runs in H
    | apply bind_runs in H;
      let a := fresh "a" in
      let E := fresh "E" in
      destruct H as (a & E & H); cbv beta in H
    | match type of H with
      | context [match ?x with _ => _ end] => destruct x eqn:?
      end ].

Section FileMethods.
Import Py PIL ImageService.

Variable codec : Codec.

Lemma convert_format_prologue (fs : FS) (input_path output_path : string)
  (quality : Z) (svg_scale : float) (img : Image) :
  opens_to codec fs input_path output_path svg_scale img ->
  let fmt := suffix_ext output_path in
  let encoded :=
    image_save codec (alpha_flatten WHITE fmt img) (pil_format_of fmt)
      (save_kwargs_for fmt quality) in
  encodable codec (alpha_flatten WHITE fmt img) fmt quality ->
  convert_format codec fs input_path output_path quality svg_scale
  = (try_except
       (ratio <- int_truediv (getsize fs input_path - len encoded)
                   (getsize fs input_path) ;;
        ret {| cvt_success := true;
               cvt_input_size := getsize fs input_path;
               cvt_output_size := len encoded;
               cvt_size_reduction := (ratio * float_of_Z 100)%float |})
       Exception,
     fs_write fs output_path encoded).
Proof.
  intros (Hin & Hout & Hopen) fmt encoded Hsave.
  unfold convert_format.
  rewrite (opened_file_exists _ _ _ _ _ Hopen), Hin, Hout, Hopen.
  cbn [negb]. unfold dict_item. rewrite (dict_mem_get _ Hout).
  cbn [bind ret]. fold fmt. rewrite (save_runs _ _ _ _ Hsave).
  fold encoded.
  assert (Hw : forall data,
             getsize (fs_write fs output_path data) output_path = len data)
    by (intros; unfold getsize, fs_write; now rewrite String.eqb_refl).
  rewrite Hw. reflexivity.
Qed.

Lemma convert_format_runs (fs : FS) (input_path output_path : string)
  (quality : Z) (svg_scale : float) (img : Image) :
  opens_to codec fs input_path output_path svg_scale img ->
  getsize fs input_path <> 0 ->
  let fmt := suffix_ext output_path in
  let encoded :=
    image_save codec (alpha_flatten WHITE fmt img) (pil_format_of fmt)
      (save_kwargs_for fmt quality) in
  encodable codec (alpha_flatten WHITE fmt img) fmt quality ->
  exists r,
    convert_format codec fs input_path output_path quality svg_scale
    = (inr r, fs_write fs output_path encoded)
    /\ cvt_success r = true
    /\ cvt_input_size r = getsize fs input_path
    /\ cvt_output_size r = len encoded.
Proof.
  intros Hopens Hsize fmt encoded Hsave.
  rewrite (convert_format_prologue _ _ _ _ _ img Hopens Hsave).
  unfold int_truediv. apply Z.eqb_neq in Hsize. rewrite Hsize.
  cbn [bind ret try_except].
  eexists. split; [reflexivity|]. repeat split.
Qed.

Lemma opens_to_frame (fs : FS) (input_path output_path other : string)
  (data : bytes) (svg_scale : float) (img : Image) :
  input_path <> other ->
  opens_to codec fs input_path output_path svg_scale img ->
  opens_to codec (fs_write fs other data) input_path output_path svg_scale
    img
  /\ getsize (fs_write fs other data) input_path = getsize fs input_path.
Proof.
  intros Hne (Hin & Hout & Hopen). apply String.eqb_neq in Hne.
  unfold opens_to, getsize, _open_image, fs_write in *. rewrite Hne.
  repeat split; assumption.
Qed.

(** X14.  [convert_format] on a file that opens and is not empty succeeds
    when the encoder accepts the image: it reports the two file sizes, the
    output file holds the encoding of the image, flattened over white if
    need be, with the quality only for a format that has one, and no other
    file changes. *)
Theorem convert_format_writes_one_file (fs : FS)
  (input_path output_path : string) (quality : Z) (svg_scale : float)
  (img : Image) :
  opens_to codec fs input_path output_path svg_scale img ->
  getsize fs input_path <> 0 ->
  let fmt := suffix_ext output_path in
  let encoded :=
    image_save codec (alpha_flatten WHITE fmt img) (pil_format_of fmt)
      (save_kwargs_for fmt quality) in
  encodable codec (alpha_flatten WHITE fmt img) fmt quality ->
  exists r fs',
    convert_format codec fs input_path output_path quality svg_scale
    = (inr r, fs')
    /\ cvt_success r = true
    /\ cvt_input_size r = getsize fs input_path
    /\ cvt_output_size r = len encoded
    /\ fs' output_path = Some encoded
    /\ forall path, path <> output_path -> fs' path = fs path.
Proof.
  intros Hopens Hsize fmt encoded Hsave.
  destruct (convert_format_runs fs input_path output_path quality svg_scale
              img Hopens Hsize Hsave) as (r & Hr & Hs & Hi & Ho).
  exists r, (fs_write fs output_path encoded).
  repeat (split; [assumption|]).
  unfold fs_write. rewrite String.eqb_refl. split; [reflexivity|].
  intros path Hp. apply String.eqb_neq in Hp. now rewrite Hp.
Qed.


(** The guards [resize_image] has passed when it returns. *)
Lemma resize_image_arguments (fs fs' : FS) (input_path output_path : string)
  (width height : option Z) (scale : option float) (keep : bool)
  (quality : Z) (svg_scale : float) (r : Resized) :
  resize_image codec fs input_path output_path width height scale keep
    quality svg_scale = inr (r, fs') ->
  match scale with
  | Some s => width = None /\ height = None /\ float_le_int s 0 = false
  | None => width <> None \/ height <> None
  end
  /\ (forall w, width = Some w -> 0 < w)
  /\ (forall h, height = Some h -> 0 < h).
Proof.
  intros H. unfold resize_image in H. unfold raise_if in H.
  returned H. clear - E2 E3 E4 E5 E6.
  destruct scale as [s|], width as [w|], height as [h|];
    cbn in E2, E3, E4, E5, E6; try discriminate;
    repeat match goal with
    | E : (if ?c then _ else _) = inr _ |- _ =>
        destruct c eqn:?; [discriminate E|clear E]
    end;
    to_arith;
    (split; [|split]);
    try (intros ? [= <-]); try discriminate; try lia;
    try (repeat split; reflexivity || assumption);
    try (left; discriminate); try (right; discriminate).
Qed.

(** X16.  Whatever [resize_image] returns, neither side of the output is
    below one pixel; the scale was given without a width or a height and
    was positive, or a width or a height was given; each of the two given
    was positive; and the sizes reported are those of the input file and of
    the file written. *)
Theorem resize_image_result (fs fs' : FS) (input_path output_path : string)
  (width height : option Z) (scale : option float) (keep : bool)
  (quality : Z) (svg_scale : float) (r : Resized) :
  resize_image codec fs input_path output_path width height scale keep
    quality svg_scale = inr (r, fs') ->
  rsz_success r = true
  /\ 1 <= fst (rsz_output_size r) /\ 1 <= snd (rsz_output_size r)
  /\ match scale with
     | Some s => width = None /\ height = None /\ float_le_int s 0 = false
     | None => width <> None \/ height <> None
     end
  /\ (forall w, width = Some w -> 0 < w)
  /\ (forall h, height = Some h -> 0 < h)
  /\ rsz_input_file_size r = getsize fs input_path
  /\ rsz_keep_aspect_ratio r = keep
  /\ exists data,
       fs' output_path = Some data /\ rsz_output_file_size r = len data.
Proof.
  intros H.
  destruct (resize_image_arguments fs fs' input_path output_path width height
              scale keep quality svg_scale r H) as (Hs & Hw & Hh).
  unfold resize_image in H. unfold raise_if in H.
  returned H. injection H as <- <-. cbn.
  split; [reflexivity|]. split; [lia|]. split; [lia|].
  repeat (split; [assumption || reflexivity|]).
  eexists. unfold getsize, fs_write. rewrite String.eqb_refl.
  split; reflexivity.
Qed.

(** X17.  A file method that returns has written the output file and no
    other: this holds of [resize_image], [crop_image], [rotate_image],
    [flip_image] and [compress_image]; [convert_format] leaves the file
    system as it was or has written the output file alone. *)
Theorem only_the_output_file_is_written (fs : FS)
  (input_path output_path : string) :
  (forall width height scale keep quality svg_scale r fs',
     resize_image codec fs input_path output_path width height scale keep
       quality svg_scale = inr (r, fs') ->
     writes_only output_path fs fs')
  /\ (forall x y width height quality svg_scale r fs',
        crop_image codec fs input_path output_path x y width height quality
          svg_scale = inr (r, fs') ->
        writes_only output_path fs fs')
  /\ (forall angle expand fill_color quality svg_scale r fs',
        rotate_image codec fs input_path output_path angle expand fill_color
          quality svg_scale = inr (r, fs') ->
        writes_only output_path fs fs')
  /\ (forall direction quality svg_scale r fs',
        flip_image codec fs input_path output_path direction quality
          svg_scale = inr (r, fs') ->
        writes_only output_path fs fs')
  /\ (forall target_size_kb quality max_dimension r fs',
        compress_image codec fs input_path output_path target_size_kb
          quality max_dimension = inr (r, fs') ->
        writes_only output_path fs fs')
  /\ (forall quality svg_scale outcome fs',
        convert_format codec fs input_path output_path quality svg_scale
        = (outcome, fs') ->
        fs' = fs \/ writes_only output_path fs fs').
Proof.
  split; [|split; [|split; [|split; [|split]]]].
  - intros until fs'. intros H. unfold resize_image in H.
    returned H. injection H as _ <-. apply fs_write_writes_only.
  - intros until fs'. intros H. unfold crop_image in H.
    returned H. injection H as _ <-. apply fs_write_writes_only.
  - intros until fs'. intros H. unfold rotate_image in H.
    returned H. all: injection H as _ <-; apply fs_write_writes_only.
  - intros until fs'. intros H. unfold flip_image in H.
    returned H. all: injection H as _ <-; apply fs_write_writes_only.
  - intros until fs'. intros H. unfold compress_image in H.
    returned H. all: injection H as _ <-; apply fs_write_writes_only.
  - intros until fs'. intros H. unfold convert_format in H.
    repeat match type of H with
    | context [match ?x with _ => _ end] => destruct x eqn:?
    end; injection H as _ <-;
      (now left) || (right; apply fs_write_writes_only).
Qed.

End FileMethods.

Lemma convert_format_writes_one_file_witness :
  exists r fs',
    ImageService.convert_format (Sample.codec 3000) Sample.fs "photo.png"
      "out.jpg" 80 1 = (inr r, fs')
    /\ ImageService.cvt_input_size r = 6
    /\ ImageService.cvt_output_size r = 11000
    /\ fs' "photo.png" = Some Sample.rgb_200x150.
Proof.
  destruct (convert_format_writes_one_file (Sample.codec 3000) Sample.fs
              "photo.png" "out.jpg" 80 1%float (Sample.grey_image 200 150)
              (conj eq_refl (conj eq_refl eq_refl)) ltac:(discriminate)
              eq_refl)
    as (r & fs' & Hrun & _ & Hin & Hout & _ & Hframe).
  exists r, fs'. split; [exact Hrun|].
  split; [exact Hin|]. split; [rewrite Hout; vm_compute; reflexivity|].
  rewrite Hframe; [reflexivity | discriminate].
Defined.


Lemma resize_image_result_witness :
  exists r fs',
    ImageService.resize_image (Sample.codec 3000) Sample.fs "photo.png"
      "out.png" None None (Some 0.25%float) true 95 1 = inr (r, fs')
    /\ ImageService.rsz_output_size r = (1, 1)
    /\ 1 <= snd (ImageService.rsz_output_size r).
Proof.
  eexists _, _. split; [reflexivity|]. split; [reflexivity|].
  destruct (resize_image_result (Sample.codec 3000) Sample.fs _ "photo.png"
              "out.png" None None (Some 0.25%float) true 95 1%float _ eq_refl)
    as (_ & _ & Hh & _).
  exact Hh.
Defined.

(** ** Flips *)

Section Flips.
Import Py PIL ImageService.

Variable codec : Codec.
Variable direction : string.

Let lowered : string := str_lower direction.
Let known : bool := mem lowered ["horizontal"; "vertical"].

(** X18.  A flip direction is read without regard to case.  In the pipeline
    an empty direction is no request, an unknown one is a [ValueError], and
    a known one transposes the image and is logged; [flip_image] refuses an
    unknown direction, the empty one included, before it looks at the
    formats, and for a known one and a file that opens writes the transposed
    image, when the encoder accepts it, and reports the size unchanged.  The
    transposition keeps the size and the mode and reads each
    pixel from its mirror position. *)
Theorem flips_mirror :
  (forall p img ops,
     flip_direction p = Some direction ->
     (direction = "" -> flip_step p (img, ops) = inr (img, ops))
     /\ (direction <> "" -> known = false ->
         flip_step p (img, ops)
         = inl (ValueError (InvalidFlipDirection lowered)))
     /\ (direction <> "" -> known = true ->
         flip_step p (img, ops)
         = inr (transpose (flip_method lowered) img,
                ops ++ [OpFlip (String.eqb lowered "horizontal")])))
  /\ (forall fs input_path output_path quality svg_scale content,
        fs input_path = Some content ->
        (known = false ->
         flip_image codec fs input_path output_path direction quality
           svg_scale = inl (ValueError (InvalidFlipDirection lowered)))
        /\ (forall img,
              known = true ->
              opens_to codec fs input_path output_path svg_scale img ->
              let fmt := suffix_ext output_path in
              encodable codec
                (alpha_flatten WHITE fmt
                   (transpose (flip_method lowered) img)) fmt quality ->
              exists r fs',
                flip_image codec fs input_path output_path direction quality
                  svg_scale = inr (r, fs')
                /\ flp_success r = true
                /\ flp_direction r = lowered
                /\ flp_original_size r = size img
                /\ flp_output_size r = size img
                /\ fs' output_path
                   = Some (image_save codec
                             (alpha_flatten WHITE fmt
                                (transpose (flip_method lowered) img))
                             (pil_format_of fmt)
                             (save_kwargs_for fmt quality))))
  /\ (forall img,
        size (transpose (flip_method lowered) img) = size img
        /\ mode (transpose (flip_method lowered) img) = mode img
        /\ forall x y,
             getpixel (transpose (flip_method lowered) img) x y
             = if String.eqb lowered "horizontal"
               then getpixel img (width img - 1 - x) y
               else getpixel img x (height img - 1 - y)).
Proof.
  unfold known. split; [|split].
  - intros p img ops Hp. unfold flip_step. rewrite Hp. fold lowered.
    split; [intros ->; reflexivity|].
    split; intros Hne Hk; apply String.eqb_neq in Hne; rewrite Hne, Hk;
      [reflexivity|].
    cbn [negb raise_if bind ret]. unfold flip_method.
    destruct (String.eqb lowered "horizontal"); reflexivity.
  - intros fs input_path output_path quality svg_scale content Hexists.
    split.
    + intros Hbad. unfold flip_image. fold lowered.
      rewrite Hexists, Hbad. reflexivity.
    + intros img Hok (Hin & Hout & Hopen). cbv zeta. intros Hsave.
      unfold flip_image. fold lowered.
      rewrite Hexists, Hok, Hin, Hout, Hopen.
      cbn [is_some negb raise_if bind ret].
      unfold dict_item. rewrite (dict_mem_get _ Hout).
      cbn [bind ret try_except].
      assert (Hmethod :
        (if String.eqb lowered "horizontal"
         then transpose FLIP_LEFT_RIGHT img
         else transpose FLIP_TOP_BOTTOM img)
        = transpose (flip_method lowered) img).
      { unfold flip_method. destruct (String.eqb _ _); reflexivity. }
      rewrite Hmethod, (save_runs _ _ _ _ Hsave).
      cbn [bind ret].
      eexists _, _. split; [reflexivity|]. cbn.
      repeat (split; [reflexivity|]).
      unfold fs_write. now rewrite String.eqb_refl.
  - intros img. unfold flip_method.
    destruct (String.eqb lowered "horizontal"); simpl;
      unfold width, height; destruct (size img); repeat split.
Qed.

End Flips.

Lemma flips_mirror_witness :
  exists r,
    ImageService.process_image_bytes (Sample.codec 3000) Sample.rgb_200x150
      "png" Sample.flip_vertical = inr r
    /\ ImageService.output_size r = (200, 150)
    /\ ImageService.operations_applied r = [ImageService.OpFlip false].
Proof.
  eexists. split.
  - apply (process_image_bytes_runs (Sample.codec 3000) Sample.flip_vertical
             Sample.rgb_200x150 "png" (Sample.grey_image 200 150)
             (conj eq_refl (conj eq_refl eq_refl))
             (Sample.grey_image 200 150) [ImageService.OpFlip false]);
      [|reflexivity].
    unfold ImageService.transform.
    rewrite rotate_step_absent by reflexivity. cbn [Py.bind].
    destruct (flips_mirror (Sample.codec 3000) "VERTICAL") as [Hstep _].
    destruct (Hstep Sample.flip_vertical (Sample.grey_image 200 150) []
                eq_refl) as (_ & _ & Hknown).
    rewrite (Hknown ltac:(discriminate) eq_refl). reflexivity.
  - split; reflexivity.
Defined.

(** ** SVG input without the rasteriser *)

Section SvgWithoutRasteriser.
Import Py PIL ImageService.

Variable codec : Codec.

Hypothesis no_rasteriser : SVG_SUPPORTED codec = false.

(** X19.  Without cairosvg an SVG input is refused in different ways: by
    [rotate_image], [flip_image], [process_image_bytes] and
    [get_image_info_from_bytes] with the [ValueError] that says so, by
    [convert_format] with a plain [Exception] that wraps it, and by
    [compress_image] as an unsupported input format; [upload_and_process]
    answers it with status 400 and the information endpoint with status
    500. *)
Theorem svg_without_rasteriser :
  (forall fs input_path output_path content,
     fs input_path = Some content ->
     suffix_ext input_path = "svg" ->
     _is_valid_output_format (suffix_ext output_path) = true ->
     (forall quality svg_scale,
        convert_format codec fs input_path output_path quality svg_scale
        = (inl (Exception (ValueError SvgNeedsCairosvg)), fs))
     /\ (forall angle expand fill_color quality svg_scale,
           rotate_image codec fs input_path output_path angle expand
             fill_color quality svg_scale
           = inl (ValueError SvgNeedsCairosvg))
     /\ (forall quality svg_scale,
           flip_image codec fs input_path output_path "horizontal" quality
             svg_scale = inl (ValueError SvgNeedsCairosvg))
     /\ (forall target_size_kb quality max_dimension,
           compress_image codec fs input_path output_path target_size_kb
             quality max_dimension
           = inl (ValueError (UnsupportedInputFormat "svg"))))
  /\ (forall data p,
        _is_valid_output_format (resolved_output_format "svg" p) = true ->
        process_image_bytes codec data "svg" p
        = inl (ValueError SvgNeedsCairosvg))
  /\ (forall data,
        get_image_info_from_bytes codec data "svg"
        = inl (ValueError SvgNeedsCairosvg))
  /\ (forall file form data,
        Endpoints.read file = inr data ->
        data <> [] ->
        Routers.validate_image_file data
          (str_or (Endpoints.filename file) "") = inr "svg" ->
        Routers.validate_output_format (output_format form) = inr tt ->
        Endpoints.upload_and_process codec file form
        = inl (Endpoints.HTTPError 400
                 (Endpoints.InvalidRequest (ValueError SvgNeedsCairosvg)))
        /\ Endpoints.get_image_info codec file
           = inl (Endpoints.HTTPError 500
                    (Endpoints.InfoUnreadable
                       (ValueError SvgNeedsCairosvg)))).
Proof.
  assert (Hbytes : forall data p,
    _is_valid_output_format (resolved_output_format "svg" p) = true ->
    process_image_bytes codec data "svg" p
    = inl (ValueError SvgNeedsCairosvg)).
  { intros data p Hout. unfold process_image_bytes.
    fold (resolved_output_format "svg" p). rewrite Hout.
    unfold _open_image_from_bytes. simpl. now rewrite no_rasteriser. }
  assert (Hinfo : forall data,
    get_image_info_from_bytes codec data "svg"
    = inl (ValueError SvgNeedsCairosvg)).
  { intros data. unfold get_image_info_from_bytes, _open_image_from_bytes.
    simpl. now rewrite no_rasteriser. }
  split; [|split; [exact Hbytes | split; [exact Hinfo|]]].
  - intros fs input_path output_path content Hexists Hsvg Hout.
    assert (Hopen : forall scale,
               _open_image codec fs input_path scale
               = inl (ValueError SvgNeedsCairosvg)).
    { intros scale. unfold _open_image.
      now rewrite Hexists, Hsvg, no_rasteriser. }
    split; [|split; [|split]]; intros.
    + unfold convert_format. rewrite Hexists, Hsvg, Hout, Hopen. reflexivity.
    + unfold rotate_image. rewrite Hexists, Hsvg, Hout, Hopen. reflexivity.
    + unfold flip_image. rewrite Hexists, Hsvg, Hout, Hopen. reflexivity.
    + unfold compress_image. rewrite Hexists, Hsvg. reflexivity.
  - intros file form data Hread Hdata Hvalid Hformat.
    assert (Hlen : (len data =? 0) = false).
    { apply Z.eqb_neq. unfold len.
      destruct data; [contradiction | simpl; lia]. }
    destruct (validated_formats_pass_the_guards _ _ _ form Hvalid Hformat)
      as [_ Hout].
    unfold Endpoints.upload_and_process, Endpoints.get_image_info,
      Endpoints.read_and_validate.
    rewrite Hread, Hlen, Hvalid, Hformat, Hinfo.
    rewrite (Hbytes data (Endpoints.forwarded form) Hout).
    split; reflexivity.
Qed.

End SvgWithoutRasteriser.

Lemma svg_without_rasteriser_witness :
  ImageService.convert_format (Sample.codec 3000) Sample.drawings "logo.svg"
    "logo.png" 95 1
  = (inl (Py.Exception (Py.ValueError Py.SvgNeedsCairosvg)), Sample.drawings)
  /\ ImageService.flip_image (Sample.codec 3000) Sample.drawings "logo.svg"
       "logo.png" "horizontal" 95 1
     = inl (Py.ValueError Py.SvgNeedsCairosvg).
Proof.
  destruct (svg_without_rasteriser (Sample.codec 3000) eq_refl)
    as [Hfiles _].
  destruct (Hfiles Sample.drawings "logo.svg" "logo.png" (Py.b "<svg/>")
              eq_refl eq_refl eq_refl) as (Hconvert & _ & Hflip & _).
  split; [apply Hconvert | apply Hflip].
Defined.

(** ** The batch *)

Lemma sum_over_successes_app (f : ImageService.Converted -> Z)
  (l l' : list ImageService.BatchItem) :
  sum_over_successes f (l ++ l')
  = sum_over_successes f l + sum_over_successes f l'.
Proof.
  induction l as [|item l IH]; simpl; [reflexivity|].
  rewrite IH. destruct (ImageService.item_result item); lia.
Qed.

Lemma filter_split_length {A} (f : A -> bool) (l : list A) :
  Py.len (filter f l) + Py.len (filter (fun a => negb (f a)) l) = Py.len l.
Proof.
  unfold Py.len. induction l as [|a l IH]; simpl; [reflexivity|].
  destruct (f a); simpl List.length; lia.
Qed.

Section BatchFacts.
Import Py PIL ImageService.

Variable codec : Codec.
Variable glob : string -> list string.
Variable list_set : list string -> list string.
Variable path_str : string -> string.
Variable path_join : string -> string -> string.

(** The conversion loop appends one entry per file, in order, and moves the
    counters and the totals by what the entries say. *)
Lemma convert_each_invariant (output_dir target_format : string)
  (quality : Z) (valid_files : list string) (st : BatchState) :
  let st' :=
    convert_each codec path_str path_join output_dir target_format quality
      valid_files st in
  exists items,
    st_results st' = st_results st ++ items
    /\ map item_input_file items = map path_str valid_files
    /\ Forall (well_formed_item path_join output_dir target_format) items
    /\ st_success_count st'
       = st_success_count st + len (filter item_success items)
    /\ st_fail_count st'
       = st_fail_count st
         + len (filter (fun item => negb (item_success item)) items)
    /\ st_total_input_size st'
       = st_total_input_size st + sum_over_successes cvt_input_size items
    /\ st_total_output_size st'
       = st_total_output_size st + sum_over_successes cvt_output_size items.
Proof.
  cbv zeta. revert st.
  induction valid_files as [|input_file rest IH]; intros st.
  - exists []. unfold len. simpl. rewrite app_nil_r.
    repeat (split; [lia || reflexivity || constructor|]). lia.
  - simpl convert_each.
    destruct (convert_format codec (st_fs st) (path_str input_file) _
                quality 1) as [outcome fs1].
    match goal with
    | |- context [convert_each _ _ _ _ _ _ rest ?s] => set (st1 := s)
    end.
    destruct (IH st1) as (items & Hres & Hmap & Hall & Hs & Hf & Hin & Hout).
    rewrite Hres, Hs, Hf, Hin, Hout.
    destruct outcome as [e|result]; subst st1;
      cbn [st_results st_success_count st_fail_count st_total_input_size
           st_total_output_size];
      rewrite <- app_assoc;
      (eexists; split; [reflexivity|]);
      cbn [app map item_input_file]; rewrite Hmap; unfold len in *;
      (split; [reflexivity|]);
      (split; [constructor; [split; [reflexivity | reflexivity] | exact Hall]
              |]);
      cbn [filter item_success negb sum_over_successes fold_right item_result
           List.length cvt_input_size cvt_output_size];
      fold (sum_over_successes cvt_input_size items);
      fold (sum_over_successes cvt_output_size items);
      repeat split; lia.
Qed.

(** X20.  The report of [batch_convert_format] has one entry per file kept,
    in order: the files collected, made distinct, whose suffix is a format
    the service writes, so that an SVG file is never converted.  Each entry
    names its output after the stem of its input and the target format, and
    carries a result or an error; the counts of successes and failures are
    those of the entries and add up to the total, one failure not ending
    the batch; the two size totals are sums over the successes. *)
Theorem batch_report (fs fs' : FS) (input_patterns : list string)
  (output_dir target_format : string) (quality : Z) (r : Batch) :
  batch_convert_format codec glob list_set path_str path_join fs
    input_patterns output_dir target_format quality = (inr r, fs') ->
  let target := lstrip_dots (str_lower target_format) in
  let valid_files :=
    keep_supported (list_set (collect_input_files glob fs input_patterns)) in
  map item_input_file (bat_results r) = map path_str valid_files
  /\ Forall (well_formed_item path_join output_dir target) (bat_results r)
  /\ bat_total r = len valid_files
  /\ bat_success_count r = len (filter item_success (bat_results r))
  /\ bat_fail_count r
     = len (filter (fun item => negb (item_success item)) (bat_results r))
  /\ bat_success_count r + bat_fail_count r = bat_total r
  /\ bat_total_input_size r
     = sum_over_successes cvt_input_size (bat_results r)
  /\ bat_total_output_size r
     = sum_over_successes cvt_output_size (bat_results r)
  /\ forall file,
       In file valid_files ->
       _is_valid_output_format (suffix_ext file) = true
       /\ String.eqb (suffix_ext file) "svg" = false.
Proof.
  intros H target valid_files. unfold batch_convert_format in H.
  fold target in H. destruct (dict_mem target SUPPORTED_FORMATS);
    [|discriminate H].
  cbn [negb] in H. fold valid_files in H.
  assert (Hfiles : forall file,
             In file valid_files ->
             _is_valid_output_format (suffix_ext file) = true
             /\ String.eqb (suffix_ext file) "svg" = false).
  { intros file Hin. apply filter_In in Hin. destruct Hin as [_ Hin].
    split; [exact Hin|].
    destruct (String.eqb_spec (suffix_ext file) "svg") as [E|];
      [|reflexivity].
    rewrite E in Hin. discriminate Hin. }
  destruct valid_files as [|file files] eqn:Ev.
  - injection H as <- <-. cbn.
    repeat (split; [reflexivity || constructor|]). exact Hfiles.
  - rewrite <- Ev in *.
    match type of H with
    | context [convert_each _ _ _ ?d ?t ?q ?l ?s] =>
        destruct (convert_each_invariant d t q l s)
          as (items & Hres & Hmap & Hall & Hs & Hf & Hin & Hout)
    end.
    injection H as <- <-. cbn [bat_results bat_total bat_success_count
      bat_fail_count bat_total_input_size bat_total_output_size].
    rewrite Hres, Hs, Hf, Hin, Hout. cbn [st_results st_success_count
      st_fail_count st_total_input_size st_total_output_size app].
    repeat (split; [reflexivity || assumption|]).
    split.
    { assert (E : len items = len valid_files).
      { unfold len. rewrite <- (length_map item_input_file items), Hmap.
        now rewrite length_map. }
      rewrite <- E, <- (filter_split_length item_success items). lia. }
    repeat (split; [reflexivity|]). exact Hfiles.
Qed.

Section Collision.

Variable fs : FS.
Variable input_patterns : list string.
Variables output_dir target_format : string.
Variable quality : Z.
Variables first second : string.
Variables img1 img2 : Image.

Let target : string := lstrip_dots (str_lower target_format).
Let output_file : string :=
  path_join output_dir (path_stem (path_str first) ++ "." ++ target)%string.

(** Two files are kept, with the same stem; both open and neither is empty;
    the second is not the output file itself; the encoder accepts both
    images. *)
Hypothesis target_supported : dict_mem target SUPPORTED_FORMATS = true.
Hypothesis two_files :
  keep_supported (list_set (collect_input_files glob fs input_patterns))
  = [first; second].
Hypothesis same_stem :
  path_stem (path_str second) = path_stem (path_str first).
Hypothesis first_opens :
  opens_to codec fs (path_str first) output_file 1 img1.
Hypothesis second_opens :
  opens_to codec fs (path_str second) output_file 1 img2.
Hypothesis not_empty :
  getsize fs (path_str first) <> 0 /\ getsize fs (path_str second) <> 0.
Hypothesis second_is_not_the_output : path_str second <> output_file.
Hypothesis both_encode :
  encodable codec (alpha_flatten WHITE (suffix_ext output_file) img1)
    (suffix_ext output_file) quality
  /\ encodable codec (alpha_flatten WHITE (suffix_ext output_file) img2)
       (suffix_ext output_file) quality.

(** X21.  Two input files with the same stem, that open, are not empty and
    are accepted by the encoder, are converted to the same output file: both
    conversions are counted as successes, and the file left is the
    conversion of the second. *)
Theorem shared_stem_overwrites :
  let fmt := suffix_ext output_file in
  exists r fs',
    batch_convert_format codec glob list_set path_str path_join fs
      input_patterns output_dir target_format quality = (inr r, fs')
    /\ bat_success_count r = 2
    /\ bat_fail_count r = 0
    /\ map item_output_file (bat_results r) = [output_file; output_file]
    /\ fs' output_file
       = Some (image_save codec (alpha_flatten WHITE fmt img2)
                 (pil_format_of fmt) (save_kwargs_for fmt quality)).
Proof.
  intros fmt.
  unfold batch_convert_format. fold target.
  rewrite target_supported, two_files. cbn [negb].
  cbn [convert_each st_fs].
  fold output_file.
  destruct (convert_format_runs codec fs (path_str first) output_file quality
              1 img1 first_opens (proj1 not_empty) (proj1 both_encode))
    as (r1 & H1 & _).
  rewrite H1. cbn [st_fs].
  rewrite same_stem. fold output_file.
  match type of H1 with
  | _ = (_, fs_write _ _ ?enc) => set (enc1 := enc) in *
  end.
  destruct (opens_to_frame codec fs (path_str second) output_file output_file
              enc1 1 img2 second_is_not_the_output second_opens)
    as (Hopens & Hsize).
  destruct (convert_format_runs codec (fs_write fs output_file enc1)
              (path_str second) output_file quality 1 img2 Hopens)
    as (r2 & H2 & _).
  { rewrite Hsize. exact (proj2 not_empty). }
  { exact (proj2 both_encode). }
  rewrite H2.
  eexists _, _. split; [reflexivity|].
  cbn. repeat (split; [reflexivity|]).
  unfold fs_write. now rewrite String.eqb_refl.
Qed.

End Collision.

End BatchFacts.

Lemma batch_report_witness :
  exists r fs',
    ImageService.batch_convert_format (Sample.codec 3000) Sample.glob_nothing
      (fun files => files) (fun path => path) Sample.path_join Sample.fs
      ["photo.png"; "missing.png"; "tiny.png"] "out" ".JPG" 50
    = (inr r, fs')
    /\ map ImageService.item_input_file (ImageService.bat_results r)
       = ["photo.png"; "tiny.png"]
    /\ ImageService.bat_success_count r + ImageService.bat_fail_count r = 2.
Proof.
  eexists _, _. split; [reflexivity|].
  destruct (batch_report (Sample.codec 3000) Sample.glob_nothing
              (fun files => files) (fun path => path) Sample.path_join
              Sample.fs _ ["photo.png"; "missing.png"; "tiny.png"] "out"
              ".JPG" 50 _ eq_refl)
    as (Hmap & _ & Htotal & _ & _ & Hsum & _).
  split; [exact Hmap | exact Hsum].
Defined.

Lemma shared_stem_overwrites_witness :
  exists r fs',
    ImageService.batch_convert_format (Sample.codec 3000) Sample.glob_nothing
      (fun files => files) (fun path => path) Sample.path_join Sample.album
      ["photo.png"; "old/photo.png"] "out" "jpg" 50 = (inr r, fs')
    /\ ImageService.bat_success_count r = 2
    /\ map ImageService.item_output_file (ImageService.bat_results r)
       = ["out/photo.jpg"; "out/photo.jpg"].
Proof.
  assert (Hsizes :
    ImageService.getsize Sample.album "photo.png" <> 0
    /\ ImageService.getsize Sample.album "old/photo.png" <> 0)
    by (split; discriminate).
  destruct (shared_stem_overwrites (Sample.codec 3000) Sample.glob_nothing
              (fun files => files) (fun path => path) Sample.path_join
              Sample.album ["photo.png"; "old/photo.png"] "out" "jpg" 50
              "photo.png" "old/photo.png" (Sample.grey_image 200 150)
              (Sample.grey_image 100 100) eq_refl eq_refl eq_refl
              (conj eq_refl (conj eq_refl eq_refl))
              (conj eq_refl (conj eq_refl eq_refl)) Hsizes
              ltac:(discriminate) (conj eq_refl eq_refl))
    as (r & fs' & Hrun & Hs & _ & Hout & _).
  exists r, fs'. split; [exact Hrun|]. split; [exact Hs | exact Hout].
Defined.

(** ** Steps of the pipeline, one after the other *)

Section Turns.
Import Py PIL ImageService.

Variable codec : Codec.
Variable p : Params.
Variable angle : float.

Hypothesis requested : rotate_angle p = Some angle.

(** X22.  A rotation by a multiple of 360 degrees leaves the image as it is
    and is logged all the same; a rotation by 180 degrees modulo 360 is the
    transposition ROTATE_180, which keeps the size and reads each pixel from
    the opposite corner.  Neither calls the resampler nor reads
    [rotate_expand]. *)
Theorem half_and_full_turns (img : Image) (ops : list Operation) :
  (float_eq_int (float_mod_int angle 360) 0 = true ->
   rotate_step codec p (img, ops) = inr (img, ops ++ [OpRotate angle]))
  /\ (float_eq_int (float_mod_int angle 360) 180 = true ->
      rotate_step codec p (img, ops)
      = inr (transpose ROTATE_180 img, ops ++ [OpRotate angle])
      /\ size (transpose ROTATE_180 img) = size img
      /\ forall x y,
           getpixel (transpose ROTATE_180 img) x y
           = getpixel img (width img - 1 - x) (height img - 1 - y)).
Proof.
  unfold rotate_step. rewrite requested. split; intros H.
  - rewrite H. cbn [negb]. rewrite andb_false_r. reflexivity.
  - unfold is_right_angle, quarter_turn. simpl existsb.
    rewrite H.
    rewrite (float_eq_int_excludes _ _ 0 H) by discriminate.
    rewrite (float_eq_int_excludes _ _ 90 H) by discriminate.
    cbn [orb andb negb bind ret].
    split; [reflexivity|]. split; [|reflexivity].
    simpl. unfold width, height. destruct (size img); reflexivity.
Qed.

End Turns.

Lemma half_and_full_turns_witness :
  ImageService.rotate_step (Sample.codec 3000) Sample.half_turn
    (Sample.grey_image 200 150, [])
  = inr (PIL.transpose PIL.ROTATE_180 (Sample.grey_image 200 150),
         [ImageService.OpRotate (-180)])
  /\ PIL.size (PIL.transpose PIL.ROTATE_180 (Sample.grey_image 200 150))
     = (200, 150).
Proof.
  destruct (half_and_full_turns (Sample.codec 3000) Sample.half_turn
              (-180)%float eq_refl (Sample.grey_image 200 150) [])
    as [_ Hhalf].
  destruct (Hhalf eq_refl) as (Hstep & Hsize & _).
  split; [exact Hstep | exact Hsize].
Defined.

Section TurnThenCrop.
Import Py PIL ImageService.

Variable codec : Codec.
Variable p : Params.
Variable angle : float.
Variables x y width height : Z.
Variable image_bytes : bytes.
Variable input_format : string.
Variable decoded : Image.
Variables W H : Z.

(** A quarter turn, then a crop, of an image of [W] by [H] pixels. *)
Hypothesis turned : rotate_angle p = Some angle /\ is_quarter_turn angle.
Hypothesis cropped : crops p x y width height.
Hypothesis nothing_else : no_flip p /\ no_resize p.
Hypothesis accepted : decodes_to codec image_bytes input_format p decoded.
Hypothesis sized : size decoded = (W, H).

(** X23.  The crop of a request is made on the image as the rotation left
    it: after a quarter turn the origin is checked against the height of the
    upload for x and its width for y, the rectangle is clamped to those, and
    the log lists the rotation and then the crop, and what is encoded, when
    the encoder accepts it, is that rectangle of the turned image.  The crop
    is taken as the request surface types it: an origin that is not
    negative, an extent that is positive. *)
Theorem crop_follows_the_rotation :
  let fmt := resolved_output_format input_format p in
  let cut :=
    alpha_flatten WHITE fmt
      (crop (x, y, Z.min (x + width) H, Z.min (y + height) W)
         (transpose (quarter_method (float_mod_int angle 360)) decoded)) in
  0 <= x /\ 0 <= y ->
  0 < width /\ 0 < height ->
  (x < H -> y < W ->
   encodable codec cut fmt (quality p) ->
   exists r,
     process_image_bytes codec image_bytes input_format p = inr r
     /\ original_size r = (W, H)
     /\ output_size r = (Z.min (x + width) H - x, Z.min (y + height) W - y)
     /\ operations_applied r
        = [OpRotate angle;
           OpCrop x y (Z.min (x + width) H - x) (Z.min (y + height) W - y)]
     /\ output_bytes r
        = image_save codec cut (pil_format_of fmt)
            (save_kwargs_for fmt (quality p)))
  /\ (H <= x ->
      process_image_bytes codec image_bytes input_format p
      = inl (ValueError (CropXOutside x H)))
  /\ (x < H -> W <= y ->
      process_image_bytes codec image_bytes input_format p
      = inl (ValueError (CropYOutside y W))).
Proof.
  intros fmt cut _ _.
  destruct turned as [Hangle Hquarter].
  destruct nothing_else as [Hflip Hresize].
  set (turn := transpose (quarter_method (float_mod_int angle 360)) decoded)
    in *.
  assert (Hturn : size turn = (H, W)).
  { unfold turn. rewrite quarter_swaps_size. unfold PIL.width, PIL.height.
    now rewrite sized. }
  assert (Hsteps :
    transform codec p (decoded, [])
    = st <- crop_step p (turn, [OpRotate angle]) ;; resize_step codec p st).
  { unfold transform.
    rewrite (rotate_step_quarter codec angle Hquarter p decoded [] Hangle).
    cbn [bind app]. now rewrite flip_step_absent by assumption. }
  split; [|split].
  - intros Hx Hy Hsave. eexists. split.
    + apply (process_image_bytes_runs codec p image_bytes input_format decoded
               accepted
               (crop (x, y, Z.min (x + width) H, Z.min (y + height) W) turn)
               [OpRotate angle;
                OpCrop x y (Z.min (x + width) H - x)
                  (Z.min (y + height) W - y)]); [|exact Hsave].
      rewrite Hsteps.
      rewrite (crop_step_inside x y width height H W p cropped turn _ Hturn
                 Hx Hy).
      cbn [bind]. apply resize_step_absent. exact Hresize.
    + cbn. rewrite sized. repeat split.
  - intros Hx.
    apply (process_image_bytes_rejects codec p image_bytes input_format
             decoded accepted).
    rewrite Hsteps. destruct cropped as (Rx & Ry & Rw & Rh).
    unfold crop_step. rewrite Rx, Ry, Rw, Rh, Hturn.
    replace (x >=? H) with true
      by (symmetry; rewrite Z.geb_leb, Z.leb_le; lia).
    reflexivity.
  - intros Hx Hy.
    apply (process_image_bytes_rejects codec p image_bytes input_format
             decoded accepted).
    rewrite Hsteps. destruct cropped as (Rx & Ry & Rw & Rh).
    unfold crop_step. rewrite Rx, Ry, Rw, Rh, Hturn.
    replace (x >=? H) with false
      by (symmetry; rewrite Z.geb_leb, Z.leb_gt; lia).
    replace (y >=? W) with true
      by (symmetry; rewrite Z.geb_leb, Z.leb_le; lia).
    reflexivity.
Qed.

End TurnThenCrop.

Lemma crop_follows_the_rotation_witness :
  exists r,
    ImageService.process_image_bytes (Sample.codec 3000) Sample.rgb_200x150
      "png" Sample.turn_then_crop = inr r
    /\ ImageService.original_size r = (200, 150)
    /\ ImageService.output_size r = (30, 40).
Proof.
  assert (Horigin : 0 <= 120 /\ 0 <= 160) by lia.
  assert (Hextent : 0 < 40 /\ 0 < 80) by lia.
  assert (Hx : 120 < 150) by lia.
  assert (Hy : 160 < 200) by lia.
  destruct (crop_follows_the_rotation (Sample.codec 3000)
              Sample.turn_then_crop 90%float 120 160 40 80
              Sample.rgb_200x150 "png" (Sample.grey_image 200 150) 200 150
              (conj eq_refl (or_introl eq_refl))
              (conj eq_refl (conj eq_refl (conj eq_refl eq_refl)))
              (conj eq_refl (conj eq_refl (conj eq_refl eq_refl)))
              (conj eq_refl (conj eq_refl eq_refl)) eq_refl
              Horigin Hextent)
    as [Hinside _].
  destruct (Hinside Hx Hy eq_refl) as (r & Hrun & Horig & Hsize & _).
  exists r. split; [exact Hrun|]. split; [exact Horig | exact Hsize].
Defined.

Section ResizeWithoutRatio.
Import Py PIL ImageService.

Variable codec : Codec.
Variable p : Params.
Variables w h : Z.

(** Both sides are asked for, none is zero, and the ratio is not kept. *)
Hypothesis requested :
  resize_width p = Some w /\ resize_height p = Some h
  /\ resize_scale p = None /\ resize_keep_ratio p = false.
Hypothesis not_zero : w <> 0 /\ h <> 0.

(** X24.  With both sides given and the ratio not kept, the resize step of
    the pipeline makes the image exactly the size asked for, a side that is
    negative becoming one pixel; [resize_image] raises a [ValueError] for
    such a side instead. *)
Theorem resize_without_ratio (img : Image) (ops : list Operation) :
  resize_step codec p (img, ops)
  = inr (resize codec (Z.max 1 w, Z.max 1 h) img,
         ops ++ [OpResize (Z.max 1 w) (Z.max 1 h)])
  /\ (forall fs input_path output_path quality svg_scale decoded,
        opens_to codec fs input_path output_path svg_scale decoded ->
        (w <= 0 ->
         resize_image codec fs input_path output_path (Some w) (Some h) None
           false quality svg_scale
         = inl (ValueError (WidthNotPositive w)))
        /\ (0 < w -> h <= 0 ->
            resize_image codec fs input_path output_path (Some w) (Some h)
              None false quality svg_scale
            = inl (ValueError (HeightNotPositive h)))).
Proof.
  destruct requested as (Rw & Rh & Rs & Rk). destruct not_zero as [Hw Hh].
  split.
  - unfold resize_step, resize_target, int_truthy.
    rewrite Rw, Rh, Rs, Rk.
    apply Z.eqb_neq in Hw, Hh. rewrite Hw, Hh. cbn [negb orb andb].
    destruct (size img). reflexivity.
  - intros fs input_path output_path quality svg_scale decoded
           (Hin & Hout & Hopen).
    unfold resize_image.
    rewrite (opened_file_exists codec fs input_path svg_scale decoded Hopen).
    rewrite Hin, Hout. cbn [negb raise_if bind ret is_some andb orb].
    split.
    + intros Hle. apply Z.leb_le in Hle. rewrite Hle. reflexivity.
    + intros Hlt Hle. apply Z.leb_le in Hle. rewrite Hle.
      replace (w <=? 0) with false by (symmetry; apply Z.leb_gt; lia).
      reflexivity.
Qed.

End ResizeWithoutRatio.

Lemma resize_without_ratio_witness :
  (exists r,
     ImageService.process_image_bytes (Sample.codec 3000) Sample.rgb_200x150
       "png" Sample.stretch_to_30_by_minus_5 = inr r
     /\ ImageService.output_size r = (30, 1))
  /\ ImageService.resize_image (Sample.codec 3000) Sample.fs "photo.png"
       "out.png" (Some 30) (Some (-5)) None false 95 1
     = inl (Py.ValueError (Py.HeightNotPositive (-5))).
Proof.
  assert (Hnot_zero : 30 <> 0 /\ -5 <> 0) by lia.
  destruct (resize_without_ratio (Sample.codec 3000)
              Sample.stretch_to_30_by_minus_5 30 (-5)
              (conj eq_refl (conj eq_refl (conj eq_refl eq_refl))) Hnot_zero
              (Sample.grey_image 200 150) []) as [Hstep Hfile].
  split.
  - eexists. split.
    + apply (process_image_bytes_runs (Sample.codec 3000)
               Sample.stretch_to_30_by_minus_5 Sample.rgb_200x150 "png"
               (Sample.grey_image 200 150)
               (conj eq_refl (conj eq_refl eq_refl))
               (PIL.resize (Sample.codec 3000) (30, 1)
                  (Sample.grey_image 200 150))
               [ImageService.OpResize 30 1]); [|reflexivity].
      unfold ImageService.transform.
      rewrite rotate_step_absent by reflexivity. cbn [Py.bind].
      rewrite flip_step_absent by reflexivity. cbn [Py.bind].
      rewrite crop_step_absent by reflexivity. cbn [Py.bind].
      exact Hstep.
    + reflexivity.
  - destruct (Hfile Sample.fs "photo.png" "out.png" 95 1%float
                (Sample.grey_image 200 150)
                (conj eq_refl (conj eq_refl eq_refl))) as [_ Hheight].
    apply Hheight; lia.
Defined.

(** ** The file methods and the pipeline *)

Section Agreement.
Import Py PIL ImageService.

(** An extension of the tables is in lower case, has no leading dot and is
    not empty: [process_image_bytes] reads it as it is. *)
Lemma readable_format_is_normal (f : string) :
  _is_valid_input_format f = true ->
  lstrip_dots (str_lower f) = f /\ String.eqb f "" = false.
Proof.
  unfold _is_valid_input_format, dict_mem, mem. simpl.
  repeat match goal with
  | |- context [String.eqb f ?c] =>
      destruct (String.eqb_spec f c) as [->|?];
        [intros _; split; reflexivity|]
  end.
  discriminate.
Qed.

Lemma writable_is_readable (f : string) :
  _is_valid_output_format f = true -> _is_valid_input_format f = true.
Proof.
  unfold _is_valid_input_format, _is_valid_output_format. now intros ->.
Qed.

Lemma float_not_le_zero_is_truthy (s : float) :
  float_le_int s 0 = false -> float_truthy s = true.
Proof.
  unfold float_le_int, float_cmp_int, float_truthy.
  rewrite eqb_spec. change (Prim2SF 0) with (S754_zero false).
  destruct (Prim2SF s) as [sg|sg| |sg m e]; simpl; intros H;
    try reflexivity; try discriminate H; destruct sg; reflexivity.
Qed.

Variable codec : Codec.

(** A file opens to what its content decodes to under the extension of its
    name. *)
Lemma open_image_agrees (fs : FS) (path : string) (content : bytes)
  (scale : float) :
  fs path = Some content ->
  _open_image codec fs path scale
  = _open_image_from_bytes codec content (suffix_ext path) scale.
Proof. intros H. unfold _open_image, _open_image_from_bytes. now rewrite H. Qed.

Variable fs : FS.
Variables input_path output_path : string.

Let input_format : string := suffix_ext input_path.
Let fmt : string := suffix_ext output_path.

Lemma request_decodes (p : Params) (content : bytes) (img : Image) :
  _is_valid_input_format input_format = true ->
  _is_valid_output_format fmt = true ->
  fs input_path = Some content ->
  _open_image codec fs input_path (svg_scale p) = inr img ->
  output_format p = Some fmt ->
  decodes_to codec content input_format p img
  /\ resolved_output_format input_format p = fmt.
Proof.
  intros Hin Hout Hfs Hopen Hp.
  destruct (readable_format_is_normal _ Hin) as [Hnin _].
  destruct (readable_format_is_normal _ (writable_is_readable _ Hout))
    as [Hnout Hne].
  assert (Hres : resolved_output_format input_format p = fmt).
  { unfold resolved_output_format. now rewrite Hp, Hne, Hnout. }
  split; [|exact Hres].
  unfold decodes_to. rewrite Hres, Hnin.
  repeat split; try assumption.
  now rewrite <- (open_image_agrees fs input_path content _ Hfs).
Qed.

Lemma saved_format (pil_format : string) :
  dict_item fmt SUPPORTED_FORMATS = inr pil_format ->
  pil_format = pil_format_of fmt.
Proof.
  unfold dict_item, pil_format_of.
  destruct (dict_get fmt SUPPORTED_FORMATS); [|discriminate].
  now intros [= ->].
Qed.

Lemma resize_targets_agree (W H : Z) (rw rh : option Z)
  (scale : option float) (keep : bool) (p : Params) :
  resize_width p = rw -> resize_height p = rh ->
  resize_scale p = scale -> resize_keep_ratio p = keep ->
  (forall w, rw = Some w -> 0 < w) ->
  (forall h, rh = Some h -> 0 < h) ->
  match scale with
  | Some s => rw = None /\ rh = None /\ float_le_int s 0 = false
  | None => rw <> None \/ rh <> None
  end ->
  keep = true \/ scale <> None \/ (rw <> None /\ rh <> None) ->
  (int_truthy (resize_width p) || int_truthy (resize_height p)
   || opt_float_truthy (resize_scale p) = true)
  /\ resize_target p W H = resize_image_target W H rw rh scale keep.
Proof.
  intros <- <- <- <- Hw Hh Hs Hk.
  unfold resize_target, resize_image_target, int_truthy, opt_float_truthy.
  destruct (resize_scale p) as [s|].
  - destruct Hs as (-> & -> & Hs).
    rewrite (float_not_le_zero_is_truthy s Hs). split; reflexivity.
  - destruct (resize_width p) as [w|], (resize_height p) as [h|];
      try (specialize (Hw _ eq_refl)); try (specialize (Hh _ eq_refl));
      repeat match goal with
      | Hpos : 0 < ?z |- context [?z =? 0] =>
          replace (z =? 0) with false by (symmetry; apply Z.eqb_neq; lia)
      end;
      cbn [negb andb orb].
    + destruct (resize_keep_ratio p); split; reflexivity.
    + destruct Hk as [-> | [Hk | [_ Hk]]]; try contradiction.
      split; reflexivity.
    + destruct Hk as [-> | [Hk | [Hk _]]]; try contradiction.
      split; reflexivity.
    + destruct Hs as [Hs|Hs]; contradiction.
Qed.

(** X25.  [crop_image], [flip_image] and [resize_image] do to a file what
    the pipeline does to its content: when one of them returns, the content
    of the input file passes the guards of [process_image_bytes] and decodes
    there, with the extension of the input path as the input format, the
    extension of the output path as the output format and the same request
    alone; the steps of the pipeline take the decoded image to a buffer of
    the output size the method reports; and the file written is the
    rendering of that buffer, flattened for the format, with the format and
    the arguments [_save_image_to_bytes] gives the encoder.  For
    [resize_image] this holds when the ratio is kept, or a scale is given,
    or both sides are given.  Two things are as [Codec] has them: a file
    decodes as its content does, and the rendering does not depend on where
    it is written, so that nothing is said of the bytes the pipeline would
    return, which Pillow may lay out otherwise than those of a file. *)
Theorem file_methods_follow_the_pipeline :
  (forall x y width height quality svg_scale r fs',
     crop_image codec fs input_path output_path x y width height quality
       svg_scale = inr (r, fs') ->
     follows_pipeline codec fs fs' input_path output_path
       (with_crop (Some x) (Some y) (Some width) (Some height)
          (plain_request fmt quality svg_scale))
       (crp_original_size r) (crp_output_size r))
  /\ (forall direction quality svg_scale r fs',
        flip_image codec fs input_path output_path direction quality
          svg_scale = inr (r, fs') ->
        follows_pipeline codec fs fs' input_path output_path
          (with_flip (Some direction) (plain_request fmt quality svg_scale))
          (flp_original_size r) (flp_output_size r))
  /\ (forall rw rh scale keep quality svg_scale r fs',
        keep = true \/ scale <> None \/ (rw <> None /\ rh <> None) ->
        resize_image codec fs input_path output_path rw rh scale keep
          quality svg_scale = inr (r, fs') ->
        follows_pipeline codec fs fs' input_path output_path
          (with_keep_ratio keep
             (with_resize rw rh scale (plain_request fmt quality svg_scale)))
          (rsz_original_size r) (rsz_output_size r)).
Proof.
  split; [|split].
  - intros x y cw ch q s r fs' H.
    unfold crop_image in H. unfold raise_if in H. returned H.
    injection H as <- <-.
    destruct (fs input_path) as [content|] eqn:Hfs; [|discriminate].
    destruct (_is_valid_input_format (suffix_ext input_path)) eqn:Hin;
      [|discriminate].
    destruct (_is_valid_output_format (suffix_ext output_path)) eqn:Hout;
      [|discriminate].
    set (req := with_crop (Some x) (Some y) (Some cw) (Some ch)
                (plain_request fmt q s)).
    match goal with
    | Hopen : _open_image _ _ _ _ = inr ?img |- _ =>
        destruct (request_decodes req content img Hin Hout Hfs Hopen eq_refl)
          as [Hdec Hres]
    end.
    destruct (save_returned _ _ _ _ _ E8) as [_ ->].
    rewrite (saved_format _ E7).
    destruct (x >=? z) eqn:Hx; [discriminate|].
    destruct (y >=? z0) eqn:Hy; [discriminate|].
    exists content, a4, (crop (x, y, z1, z2) a4),
      [OpCrop x y (z1 - x) (z2 - y)].
    split; [exact Hfs|]. split; [exact Hdec|]. split; [exact Hres|].
    split.
    { assert (Hx2 : z1 = Z.min (x + cw) z).
      { destruct (x + cw >? z) eqn:Hc; injection Heqp0 as <- _ _; to_arith;
          lia. }
      assert (Hy2 : z2 = Z.min (y + ch) z0).
      { destruct (y + ch >? z0) eqn:Hc; injection Heqp2 as <- _ _; to_arith;
          lia. }
      unfold transform, rotate_step, flip_step, crop_step, resize_step.
      cbn [req with_crop plain_request rotate_angle flip_direction crop_x
           crop_y crop_width crop_height resize_width resize_height
           resize_scale int_truthy opt_float_truthy orb bind ret].
      rewrite Heqp, Hx, Hy, Hx2, Hy2. reflexivity. }
    split; [unfold fs_write; now rewrite String.eqb_refl|].
    split; [now rewrite Heqp | reflexivity].
  - intros direction q s r fs' H.
    unfold flip_image in H. unfold raise_if in H. returned H.
    all: injection H as <- <-.
    all: destruct (fs input_path) as [content|] eqn:Hfs; [|discriminate].
    all: destruct (_is_valid_input_format (suffix_ext input_path)) eqn:Hin;
      [|discriminate].
    all: destruct (_is_valid_output_format (suffix_ext output_path)) eqn:Hout;
      [|discriminate].
    all: set (req := with_flip (Some direction) (plain_request fmt q s)).
    all: match goal with
    | Hopen : _open_image _ _ _ _ = inr ?img |- _ =>
        destruct (request_decodes req content img Hin Hout Hfs Hopen eq_refl)
          as [Hdec Hres]
    end.
    all: destruct (mem (str_lower direction) ["horizontal"; "vertical"]) eqn:Hk;
      [|discriminate].
    all: assert (Hne : String.eqb direction "" = false)
      by (destruct direction; [discriminate Hk | reflexivity]).
    all: match goal with
         | Hsave : save _ _ _ _ = inr _ |- _ =>
             destruct (save_returned _ _ _ _ _ Hsave) as [_ ->]
         end.
    all: match goal with
         | Hp : dict_item _ _ = inr _ |- _ => rewrite (saved_format _ Hp)
         end.
    all: match goal with
         | Hopen : _open_image _ _ _ _ = inr ?img |- _ =>
             exists content, img,
               (if String.eqb (str_lower direction) "horizontal"
                then transpose FLIP_LEFT_RIGHT img
                else transpose FLIP_TOP_BOTTOM img),
               [OpFlip (String.eqb (str_lower direction) "horizontal")]
         end.
    all: split; [exact Hfs|]; split; [exact Hdec|]; split; [exact Hres|].
    all: split;
      [unfold transform, rotate_step, flip_step, crop_step, resize_step;
       cbn [req with_flip plain_request rotate_angle flip_direction crop_x
            crop_y crop_width crop_height resize_width resize_height
            resize_scale int_truthy opt_float_truthy orb bind ret];
       rewrite Hne, Hk; cbn [raise_if negb bind ret app];
       destruct (String.eqb (str_lower direction) "horizontal"); reflexivity|].
    all: split; [unfold fs_write; now rewrite String.eqb_refl|].
    all: split; [reflexivity|].
    all: destruct (String.eqb (str_lower direction) "horizontal"); simpl;
      unfold PIL.width, PIL.height; destruct (size _); reflexivity.
  - intros rw rh scale keep q s r fs' Hk H.
    destruct (resize_image_arguments codec fs fs' input_path output_path rw
                rh scale keep q s r H)
      as (Hs & Hw & Hh).
    unfold resize_image in H. unfold raise_if in H. returned H.
    injection H as <- <-.
    destruct (fs input_path) as [content|] eqn:Hfs; [|discriminate].
    destruct (_is_valid_input_format (suffix_ext input_path)) eqn:Hin;
      [|discriminate].
    destruct (_is_valid_output_format (suffix_ext output_path)) eqn:Hout;
      [|discriminate].
    set (req := with_keep_ratio keep
                  (with_resize rw rh scale (plain_request fmt q s))).
    match goal with
    | Hopen : _open_image _ _ _ _ = inr ?img |- _ =>
        destruct (request_decodes req content img Hin Hout Hfs Hopen eq_refl)
          as [Hdec Hres]
    end.
    match goal with
    | Hsz : size _ = (?W, ?H) |- _ =>
        destruct (resize_targets_agree W H rw rh scale keep req eq_refl eq_refl
                    eq_refl eq_refl Hw Hh Hs Hk) as [Htruthy Htarget]
    end.
    match goal with
    | Hsave : save _ _ _ _ = inr _ |- _ =>
        destruct (save_returned _ _ _ _ _ Hsave) as [_ ->]
    end.
    match goal with
    | Hp : dict_item _ _ = inr _ |- _ => rewrite (saved_format _ Hp)
    end.
    assert (Hstep : exists ops,
              transform codec req (a7, [])
              = inr (resize codec (Z.max 1 z1, Z.max 1 z2) a7, ops)).
    { unfold transform.
      rewrite rotate_step_absent by reflexivity. cbn [bind].
      rewrite flip_step_absent by reflexivity. cbn [bind].
      rewrite crop_step_absent by reflexivity. cbn [bind].
      unfold resize_step. rewrite Htruthy, Heqp, Htarget, E8.
      cbn [bind ret app].
      destruct (resize_scale req) as [sc|]; [destruct (float_truthy sc)|];
        eexists; reflexivity. }
    destruct Hstep as [ops Hstep].
    exists content, a7, (resize codec (Z.max 1 z1, Z.max 1 z2) a7), ops.
    split; [exact Hfs|]. split; [exact Hdec|]. split; [exact Hres|].
    split; [exact Hstep|].
    split; [unfold fs_write; now rewrite String.eqb_refl|].
    split; [now rewrite Heqp | reflexivity].
Qed.


End Agreement.

(** ** What the service advertises *)

Section Advertised.
Import Py Routers ImageService Health.

(** X26.  The formats [api_info] advertises are those of the service and of
    the upload endpoints: a format is listed as read and written exactly
    when the service writes it, which is when [SUPPORTED_OUTPUT_FORMATS] has
    it; it is listed, in one list or the other, exactly when the service
    reads it, which is when its extension is allowed for an upload; and the
    two lists share no format. *)
Theorem advertised_formats_are_the_supported_ones (s : string) :
  let listed := supported_formats in
  mem s (read_write listed) = _is_valid_output_format s
  /\ mem s (read_write listed) = mem s SUPPORTED_OUTPUT_FORMATS
  /\ mem s (read_write listed) || mem s (read_only listed)
     = _is_valid_input_format s
  /\ mem s (read_write listed) || mem s (read_only listed)
     = mem s ALLOWED_EXTENSIONS
  /\ mem s (read_write listed) && mem s (read_only listed) = false.
Proof.
  unfold _is_valid_input_format, _is_valid_output_format, dict_mem, mem.
  repeat split; simpl; string_cases s; reflexivity.
Qed.

End Advertised.
